(** * MindfulMachines: the staged paper-to-podcast pipeline

    A shallow embedding of the Python sources

      - [arxiv_scrapper.py]  (candidate source, time-window filter),
      - [paper_ranker.py]    (ranker, selector),
      - [llm_podcaster.py]   (script synthesizer),
      - [script_to_audio.py] (audio renderer),
      - [main.py]            (orchestrator),

    together with the properties the design document states about them.

    Conventions of the embedding.

    - A naive [datetime] is the number of microseconds since
      0001-01-01 00:00:00, and [datetime] holds the instants up to
      9999-12-31 23:59:59.999999; a [timedelta] is a difference of two
      instants, in microseconds.  Arithmetic that leaves these ranges raises
      [OverflowError].
    - A paper is a Python [dict]; dicts are mutable and shared, so a list of
      papers is a list of references into a heap of paper records.
    - Effects (the system clock, the heap, [logging] and [print], the file
      system, the external services) are threaded through a state-and-
      exception monad [M]: a computation reads an environment of external
      oracles, transforms a [world] and either returns or raises. *)

From stdpp Require Import gmap strings list fin_maps.
From Stdlib Require Import ZArith Lia Sorting.Sorted.

Local Open Scope Z_scope.

(** ** Python values, exceptions, outcomes *)

Abbreviation loc := nat.
Abbreviation datetime := Z.

(** The exceptions the sources can meet.  All of them are subclasses of
    [Exception], the class the [except] clauses of the sources catch:
    [KeyboardInterrupt], [SystemExit] and the other [BaseException]s pass
    through those clauses and are not part of the model.
    [RequestException] stands for the whole
    [requests.exceptions.RequestException] family (which [raise_for_status]
    raises as [HTTPError]), [InterpolationError] for the
    [configparser.InterpolationError] family, [WaveError] for what the
    [wave] module raises on parameters it cannot put in a header
    ([wave.Error], [struct.error]), and [OSError] for its subclasses
    ([FileNotFoundError], [IsADirectoryError], [PermissionError]). *)
Inductive exn :=
  | KeyError (key : string)
  | IndexError
  | TypeError
  | AttributeError (attr : string)
  | NameError (name : string)
  | OverflowError
  | NoSectionError (section : string)
  | NoOptionError (section option : string)
  | InterpolationError (section option : string)
  | WaveError
  | OSError (path : string)
  | RequestException
  | ValueError
  | Exception (msg : string).

Inductive outcome (A : Type) :=
  | Returned (a : A)
  | Raised (e : exn).
Arguments Returned {A} a.
Arguments Raised {A} e.

(** An f-string, kept as its fragments: literal text and the interpolated
    values. *)
Inductive frag :=
  | Lit (s : string)
  | Int (z : Z)
  | Str (s : string)
  | Exc (e : exn).

Abbreviation text := (list frag).

Inductive level := INFO | WARNING | ERROR | CRITICAL.

(** What a run leaves behind, in order: [logging] records, [print]ed lines
    and the calls made to external services. *)
Inductive event :=
  | Logged (lv : level) (msg : text)
  | Printed (msg : text)
  | FeedRequest (url : text)
  | LlmQuery (document prompt : string)
  | HttpPost (url : text) (voices : list (string * string)).

(** ** The data model *)

(** A paper dict, as [fetch_recent_papers] builds it; the key ['score'] is
    absent until [rank_papers] sets it. *)
Record paper := Paper {
  title : string;
  authors : list string;
  summary : string;
  link : string;
  published : datetime;
  updated : datetime;
  score : option Z
}.

Definition set_score (s : Z) (p : paper) : paper :=
  Paper (title p) (authors p) (summary p) (link p) (published p) (updated p)
        (Some s).

(** A feed entry as [feedparser] hands it over: an attribute that is missing
    raises [AttributeError] when read. *)
Record entry := Entry {
  e_title : option string;
  e_authors : option (list string);
  e_summary : option string;
  e_link : option string;
  e_published_parsed : option datetime;
  e_updated_parsed : option datetime
}.

Record feed := Feed {
  bozo : bool;
  entries : list entry
}.

(** A [ConfigParser]: sections of options, each option with the text
    stored for it.  The keys are the names as the parser holds them (option
    names in lower case), and the options of [DEFAULT] belong to every
    section, which is how [get] looks them up. *)
Abbreviation config := (gmap string (gmap string string)).

(** The values [main] passes between the stages. *)
Inductive pyval :=
  | PyNone
  | PyBool (b : bool)
  | PyStr (s : string)
  | PyList (l : list loc).

(** ** Environment and world *)

(** The reply of the speech service to a POST: the transport fails, the
    status is an error, or a JSON body arrives in which the audio payload and
    the mime type may each be missing. *)
Inductive tts_reply :=
  | TtsTransportError
  | TtsHttpError
  | TtsBody (data : option string) (mime : option string).

(** What the [wave] module makes of the frames it is given, for a channel
    count, a sample width and a frame rate its setters accept: the bytes of
    the container, or an exception together with the bytes already in the
    file when it was raised. *)
Inductive wave_result :=
  | WaveFile (container : string)
  | WaveFailure (e : exn) (debris : string).

(** The outside of the program: the system clock, the configuration file,
    the three services, the disk, the library functions whose results the
    sources only pass along, and the way paper_ranker.py was started. *)
Record env := Env {
  clock : nat -> datetime;              (* the n-th reading of datetime.now() *)
  read_config : string -> outcome config; (* ConfigParser().read(path) *)
  int_of_str : string -> option Z;      (* int(s) *)
  feedparser_parse : text -> outcome feed;
  llama_load : string -> outcome unit;  (* LlamaCPP(model_path=...) *)
  llama_query : string -> string -> outcome string;
  requests_post : text -> tts_reply;
  b64decode : string -> outcome string;
  wave_bytes : Z -> Z -> Z -> string -> wave_result; (* channels, width, rate, frames *)
  writable : string -> bool;            (* may the file at this path be created,
                                           written in full and unlinked? *)
  strftime : datetime -> string;        (* "%Y-%m-%d_%H-%M-%S" *)
  json_dumps : pyval -> option string;  (* None: not JSON serializable *)
  ranker_is_main : bool;                (* is paper_ranker.py the script being
                                           run (its __name__ is "__main__")? *)
  interpolate : config -> string -> string -> outcome string;
                                        (* the interpolation of an option whose
                                           stored text holds a '%' *)
  is_dir : string -> bool;              (* a directory stands at this path *)
  unlinkable : string -> bool;          (* may a file that cannot be written be
                                           unlinked all the same? *)
  left_by_failed_write : string -> string -> option string
                                        (* a write of this content to this path
                                           that fails: None when the file could
                                           not be opened, the bytes it is left
                                           with when it was opened and the
                                           write stopped short *)
}.

Record world := World {
  ticks : nat;                          (* clock readings made so far *)
  heap : loc -> paper;
  next_loc : loc;
  trace : list event;
  files : gmap string string
}.

(** ** The monad *)

Definition M (A : Type) : Type := env -> world -> outcome A * world.

Definition ret {A} (a : A) : M A := fun _ w => (Returned a, w).
Definition raise {A} (e : exn) : M A := fun _ w => (Raised e, w).
Definition bind {A B} (m : M A) (k : A -> M B) : M B :=
  fun E w =>
    match m E w with
    | (Returned a, w') => k a E w'
    | (Raised e, w') => (Raised e, w')
    end.

(** [try: m except Exception as e: h e] *)
Definition try_except {A} (m : M A) (h : exn -> M A) : M A :=
  fun E w =>
    match m E w with
    | (Returned a, w') => (Returned a, w')
    | (Raised e, w') => h e E w'
    end.

(** [try: m finally: f] *)
Definition try_finally {A} (m : M A) (f : M unit) : M A :=
  fun E w =>
    match m E w with
    | (r, w') =>
        match f E w' with
        | (Returned _, w'') => (r, w'')
        | (Raised e, w'') => (Raised e, w'')
        end
    end.

Declare Scope py_scope.
Delimit Scope py_scope with py.
Notation "x <- m ;; k" := (bind m (fun x => k))
  (at level 20, m at level 99, k at level 200, only parsing) : py_scope.
Notation "m ;;; k" := (bind m (fun _ => k))
  (at level 100, k at level 200, only parsing, right associativity) : py_scope.
Local Open Scope py_scope.

Definition ask {A} (f : env -> A) : M A := fun E w => (Returned (f E), w).

Definition emit (ev : event) : M unit :=
  fun _ w =>
    (Returned tt, World (ticks w) (heap w) (next_loc w) (trace w ++ [ev]) (files w)).

Definition logging (lv : level) (msg : text) : M unit := emit (Logged lv msg).
Definition print (msg : text) : M unit := emit (Printed msg).

(** [datetime.now()]: the next reading of the clock. *)
Definition datetime_now : M datetime :=
  fun E w =>
    (Returned (clock E (ticks w)),
     World (S (ticks w)) (heap w) (next_loc w) (trace w) (files w)).

(** [paper[...]] for a key every paper dict has. *)
Definition getitem {A} (field : paper -> A) (p : loc) : M A :=
  fun _ w => (Returned (field (heap w p)), w).

(** [paper['score']]: [KeyError] while the key is absent. *)
Definition getitem_score (p : loc) : M Z :=
  fun _ w =>
    match score (heap w p) with
    | Some s => (Returned s, w)
    | None => (Raised (KeyError "score"), w)
    end.

Definition heap_set (p : loc) (v : paper) (h : loc -> paper) : loc -> paper :=
  fun q => if bool_decide (q = p) then v else h q.

(** [paper['score'] = s] *)
Definition setitem_score (p : loc) (s : Z) : M unit :=
  fun _ w =>
    (Returned tt,
     World (ticks w) (heap_set p (set_score s (heap w p)) (heap w))
           (next_loc w) (trace w) (files w)).

(** A dict literal: a fresh object on the heap. *)
Definition new_dict (v : paper) : M loc :=
  fun _ w =>
    (Returned (next_loc w),
     World (ticks w) (heap_set (next_loc w) v (heap w)) (S (next_loc w))
           (trace w) (files w)).

Fixpoint mapM {A B} (f : A -> M B) (l : list A) : M (list B) :=
  match l with
  | [] => ret []
  | x :: l' => y <- f x ;; ys <- mapM f l' ;; ret (y :: ys)
  end.

(** ** [datetime] arithmetic *)

Definition usec_per_day : Z := 86400000000.

(** [datetime.max], 9999-12-31 23:59:59.999999: the last microsecond of day
    3652059 of the calendar; [datetime.min] is the instant 0. *)
Definition datetime_max : Z := 3652059 * usec_per_day - 1.

Definition is_datetime (t : Z) : bool := (0 <=? t) && (t <=? datetime_max).

(** The length of [d] days. *)
Definition usec_of_days (days : Z) : Z := days * usec_per_day.

(** [timedelta(days=d)]: a [timedelta] holds at most 999999999 days either
    way. *)
Definition timedelta (days : Z) : M Z :=
  if (Z.abs days <=? 999999999) then ret (usec_of_days days)
  else raise OverflowError.

(** [t - delta], a [datetime] less a [timedelta]: the result has to be a
    [datetime]. *)
Definition datetime_sub (t : datetime) (delta : Z) : M datetime :=
  if is_datetime (t - delta) then ret (t - delta) else raise OverflowError.

(** [delta.days]: a [timedelta] is normalised so that its seconds and
    microseconds are non-negative, hence [days] is the floor of the
    quotient. *)
Definition timedelta_days (delta : Z) : Z := delta `div` usec_per_day.

(** ** Files and configuration *)

(** A write that fails.  Either the file could not be opened and nothing
    has changed, or it was opened, which truncates it, and the write stopped
    short of the content. *)
Definition failed_write (path content : string) : M unit :=
  fun E w =>
    (Raised (OSError path),
     match left_by_failed_write E path content with
     | Some debris =>
         World (ticks w) (heap w) (next_loc w) (trace w)
               (<[path := debris]> (files w))
     | None => w
     end).

(** [with open(path, 'w') as f: f.write(content)] *)
Definition write_file (path content : string) : M unit :=
  fun E w =>
    if writable E path then
      (Returned tt,
       World (ticks w) (heap w) (next_loc w) (trace w)
             (<[path := content]> (files w)))
    else failed_write path content E w.

(** [open(path, 'rb').read()] *)
Definition read_file (path : string) : M string :=
  fun _ w =>
    match files w !! path with
    | Some c => (Returned c, w)
    | None => (Raised (OSError path), w)
    end.

(** [os.path.exists(path)]: a file or a directory is there. *)
Definition path_exists (path : string) : M bool :=
  fun E w =>
    (Returned (bool_decide (is_Some (files w !! path)) || is_dir E path), w).

(** [os.remove(path)]: it raises when no file is there (nothing at all, or
    a directory) and when the file cannot be unlinked. *)
Definition os_remove (path : string) : M unit :=
  fun E w =>
    match files w !! path with
    | Some _ =>
        if writable E path || unlinkable E path then
          (Returned tt,
           World (ticks w) (heap w) (next_loc w) (trace w) (delete path (files w)))
        else (Raised (OSError path), w)
    | None => (Raised (OSError path), w)
    end.

(** [os.makedirs(path, exist_ok=True)]: the call changes no file; it fails
    where the directory is not there and cannot be made, which is where the
    path is not writable. *)
Definition os_makedirs (path : string) : M unit :=
  fun E w => if writable E path then (Returned tt, w)
             else (Raised (OSError path), w).

(** [load_config(config_file)], defined alike in every module. *)
Definition load_config (config_file : string) : M config :=
  fun E w => (read_config E config_file, w).

(** Does the text hold a '%', the character interpolation starts at? *)
Definition has_percent (v : string) : bool :=
  match String.index 0 "%" v with
  | Some _ => true
  | None => false
  end.

(** What [config.get(section, option)] comes to.  The parser interpolates
    the stored text: a text without '%' is returned as it is, one with '%'
    goes through the substitution of [%(name)s] references, which fails with
    an [InterpolationError] on a '%' it cannot read or a reference it cannot
    resolve. *)
Definition config_value (E : env) (cfg : config) (section option : string)
  : outcome string :=
  match cfg !! section with
  | None => Raised (NoSectionError section)
  | Some opts =>
      match opts !! option with
      | None => Raised (NoOptionError section option)
      | Some v =>
          if has_percent v then interpolate E cfg section option else Returned v
      end
  end.

(** [config.get(section, option)] *)
Definition config_get (cfg : config) (section option : string) : M string :=
  fun E w => (config_value E cfg section option, w).

(** [config.getint(section, option)] *)
Definition config_getint (cfg : config) (section option : string) : M Z :=
  v <- config_get cfg section option ;;
  fun E w =>
    match int_of_str E v with
    | Some z => (Returned z, w)
    | None => (Raised ValueError, w)
    end.

(** [sep.join(l)] *)
Definition join (sep : string) (l : list string) : string :=
  String.concat sep l.

Definition nl : string := String (Ascii.ascii_of_nat 10) EmptyString.

(** ** paper_ranker.py *)

Module paper_ranker.

(** [datetime.now()] as paper_ranker.py reads it.  The module binds the
    name [datetime] in its [if __name__ == "__main__":] block only (line
    120): the name is defined when the file is run as a script, and it is
    undefined, so that reading it raises [NameError], when the module is
    imported, as main.py imports it. *)
Definition module_datetime_now : M datetime :=
  fun E w =>
    if ranker_is_main E then datetime_now E w
    else (Raised (NameError "datetime"), w).

(** The body of the [for paper in papers] loop of the ['simple'] strategy. *)
Definition score_paper (paper : loc) : M unit :=
  now <- module_datetime_now ;;
  pub <- getitem published paper ;;
  let recency_score := timedelta_days (now - pub) in
  let score := 0 + Z.max 0 (30 - recency_score) in
  setitem_score paper score.

Fixpoint score_loop (papers scored_papers : list loc) : M (list loc) :=
  match papers with
  | [] => ret scored_papers
  | paper :: rest =>
      score_paper paper ;;;
      score_loop rest (scored_papers ++ [paper])
  end.

(** [sorted(xs, key=..., reverse=True)].  The built-in computes the key of
    every element once, then sorts stably: with [reverse=True] the keys
    descend and elements with equal keys keep the order they had in [xs].
    Insertion from the right, moving an element only past strictly larger
    keys, is such a sort. *)
Fixpoint insert_desc (x : Z * loc) (l : list (Z * loc)) : list (Z * loc) :=
  match l with
  | [] => [x]
  | y :: l' => if (x.1 <? y.1) then y :: insert_desc x l' else x :: y :: l'
  end.

Definition sort_desc (l : list (Z * loc)) : list (Z * loc) :=
  foldr insert_desc [] l.

Definition sorted_by_score_reverse (xs : list loc) : M (list loc) :=
  keyed <- mapM (fun p => k <- getitem_score p ;; ret (k, p)) xs ;;
  ret (snd <$> sort_desc keyed).

Definition rank_papers (papers : list loc) (ranking_strategy : string)
  : M (list loc) :=
  if bool_decide (papers = []) then
    logging WARNING [Lit "No papers provided to rank."] ;;;
    ret []
  else
    logging INFO [Lit "Ranking "; Int (Z.of_nat (length papers));
                  Lit " papers using the '"; Str ranking_strategy;
                  Lit "' strategy."] ;;;
    if bool_decide (ranking_strategy = "simple") then
      scored_papers <- score_loop papers [] ;;
      ranked_papers <- sorted_by_score_reverse scored_papers ;;
      ret ranked_papers
    else
      logging ERROR [Lit "Unknown ranking strategy: "; Str ranking_strategy] ;;;
      ret papers.

(** [xs[:n]] *)
Definition slice_to {A} (xs : list A) (n : Z) : list A :=
  if (0 <=? n) then take (Z.to_nat n) xs
  else take (length xs - Z.to_nat (- n))%nat xs.

Definition select_top_paper (ranked_papers : list loc) (top_n : Z)
  : M (list loc) :=
  if bool_decide (ranked_papers = []) then
    logging WARNING [Lit "No papers to select from."] ;;;
    ret []
  else
    ret (slice_to ranked_papers top_n).

End paper_ranker.

(** ** arxiv_scrapper.py *)

Module arxiv_scrapper.

Definition entry_attr {A} (name : string) (v : option A) : M A :=
  match v with
  | Some a => ret a
  | None => raise (AttributeError name)
  end.

(** The dict literal [paper_details]: the attributes are read in the order
    of the keys. *)
Definition paper_details (e : entry) : M loc :=
  t <- entry_attr "title" (e_title e) ;;
  a <- entry_attr "authors" (e_authors e) ;;
  s <- entry_attr "summary" (e_summary e) ;;
  l <- entry_attr "link" (e_link e) ;;
  p <- entry_attr "published_parsed" (e_published_parsed e) ;;
  u <- entry_attr "updated_parsed" (e_updated_parsed e) ;;
  new_dict (Paper t a s l p u None).

Fixpoint entries_loop (es : list entry) (papers : list loc) : M (list loc) :=
  match es with
  | [] => ret papers
  | e :: rest =>
      d <- paper_details e ;;
      entries_loop rest (papers ++ [d])
  end.

Definition feedparser (url : text) : M feed :=
  emit (FeedRequest url) ;;;
  fun E w => (feedparser_parse E url, w).

Definition fetch_recent_papers (query : string) (max_results : Z)
    (sort_by : string) : M (list loc) :=
  let base_url := [Lit "http://export.arxiv.org/api/query?"] in
  let search_query :=
    [Lit "search_query=all:"; Str query; Lit "&start=0&max_results=";
     Int max_results; Lit "&sortBy="; Str sort_by] in
  print [Lit "Fetching papers with query: "; Str query; Lit "..."] ;;;
  try_except
    (response <- feedparser (base_url ++ search_query) ;;
     if bozo response then
       raise (Exception "Failed to parse feed. Is the arXiv API reachable?")
     else
       entries_loop (entries response) [])
    (fun e =>
       print [Lit "An error occurred: "; Exc e] ;;;
       ret []).

(** The condition of the list comprehension, [or] evaluated left to right. *)
Definition in_timeframe (cutoff_date : datetime) (p : loc) : M bool :=
  pub <- getitem published p ;;
  if (cutoff_date <? pub) then ret true
  else
    upd <- getitem updated p ;;
    ret (cutoff_date <? upd).

Fixpoint comprehension (c : loc -> M bool) (l : list loc) : M (list loc) :=
  match l with
  | [] => ret []
  | p :: rest =>
      keep <- c p ;;
      tail <- comprehension c rest ;;
      ret (if keep then p :: tail else tail)
  end.

Definition filter_papers_by_timeframe (papers : list loc) (days : Z)
  : M (list loc) :=
  now <- datetime_now ;;
  delta <- timedelta days ;;
  cutoff_date <- datetime_sub now delta ;;
  filtered_papers <- comprehension (in_timeframe cutoff_date) papers ;;
  print [Lit "Filtered to "; Int (Z.of_nat (length filtered_papers));
         Lit " papers published in the last "; Int days; Lit " days."] ;;;
  ret filtered_papers.

Fixpoint print_papers (l : list loc) : M unit :=
  match l with
  | [] => ret tt
  | paper :: rest =>
      t <- getitem title paper ;;
      print [Lit "Title: "; Str t] ;;;
      a <- getitem authors paper ;;
      print [Lit "Authors: "; Str (join ", " a)] ;;;
      k <- getitem link paper ;;
      print [Lit "Link: "; Str k; Lit nl] ;;;
      print_papers rest
  end.

(** [scrape_papers(config)]: the argument is overwritten by a fresh read of
    the settings file, and neither exit has a value: the call returns
    [None]. *)
Definition scrape_papers (_ : config) : M pyval :=
  config <- load_config "./config/settings.ini" ;;
  query <- config_get config "arxiv" "query" ;;
  max_results <- config_getint config "arxiv" "max_results" ;;
  all_papers <- fetch_recent_papers query max_results "relevance" ;;
  if bool_decide (all_papers = []) then
    print [Lit "No papers found. Exiting."] ;;;
    ret PyNone
  else
    recent_papers <- filter_papers_by_timeframe all_papers 7 ;;
    print [Lit nl; Lit "-- Fetched Papers --"] ;;;
    print_papers recent_papers ;;;
    ret PyNone.

End arxiv_scrapper.

(** ** paper_ranker.py, its [main] *)

Module paper_ranker_main.
Import paper_ranker arxiv_scrapper.

(** [l[0]] *)
Definition list_getitem0 (l : list loc) : M loc :=
  match l with
  | x :: _ => ret x
  | [] => raise IndexError
  end.

Definition main : M unit :=
  config <- load_config "./config/settings.ini" ;;
  query <- config_get config "arxiv" "query" ;;
  max_results <- config_getint config "arxiv" "max_results" ;;
  papers <- fetch_recent_papers query max_results "relevance" ;;
  recent_papers <- filter_papers_by_timeframe papers 7 ;;
  ranked_papers <- rank_papers recent_papers "simple" ;;
  if negb (bool_decide (ranked_papers = [])) then
    selected_paper <- select_top_paper ranked_papers 1 ;;
    first <- list_getitem0 selected_paper ;;
    t <- getitem title first ;;
    logging INFO [Lit "Selected paper for podcast: "; Str t]
  else
    logging INFO [Lit "No suitable papers found to select."].

End paper_ranker_main.

(** ** llm_podcaster.py *)

Module llm_podcaster.

Definition prompt : string :=
  "You are a podcast script generator. The podcast is a discussion between an "
  +:+ "ML Expert, a Neuroscientist, and a Psychologist. Your task is to generate "
  +:+ "a compelling, conversational script based on the provided research paper."
  +:+ nl +:+ nl
  +:+ "The script should be a discussion between:" +:+ nl
  +:+ "- A friendly ML expert, explaining the technical details." +:+ nl
  +:+ "- An enthusiastic Neuroscientist, connecting the findings to brain function." +:+ nl
  +:+ "- A pragmatic Psychologist, discussing the human implications.".

(** [LlamaCPP(model_path=..., ...)] *)
Definition LlamaCPP (model_path : string) : M unit :=
  fun E w => (llama_load E model_path, w).

(** Reading the documents, indexing them, and [str(query_engine.query(prompt))]:
    one exchange with the generation service. *)
Definition query_engine_query (documents prompt : string) : M string :=
  emit (LlmQuery documents prompt) ;;;
  fun E w => (llama_query E documents prompt, w).

Definition generate_podcast_script (paper : loc) (cfg : config) : M string :=
  t <- getitem title paper ;;
  logging INFO [Lit "Generating podcast script for paper: '"; Str t; Lit "'"] ;;;
  model_path <- config_get cfg "llm" "model_path" ;;
  LlamaCPP model_path ;;;
  a <- getitem authors paper ;;
  s <- getitem summary paper ;;
  let text_content :=
    "Title: " +:+ t +:+ nl +:+
    "Authors: " +:+ join ", " a +:+ nl +:+
    "Abstract: " +:+ s in
  let temp_file_path := "temp_paper_content.txt" in
  try_finally
    (try_except
       (write_file temp_file_path text_content ;;;
        documents <- read_file temp_file_path ;;
        response <- query_engine_query documents prompt ;;
        let generated_text := response in
        ret generated_text)
       (fun e =>
          logging ERROR [Lit "Failed to generate podcast script: "; Exc e] ;;;
          ret ""))
    (ex <- path_exists temp_file_path ;;
     if ex then os_remove temp_file_path else ret tt).

End llm_podcaster.

(** ** script_to_audio.py *)

Module script_to_audio.

(** A structured script, after [mock_script]: a title and the dialogue, a
    list of (speaker, text) turns. *)
Record script := Script {
  script_title : string;
  dialogue : list (string * string)
}.

(** What the setters [setnchannels], [setsampwidth] and [setframerate] of
    a [wave] writer accept: at least one channel, a sample width of 1 to 4
    bytes, a positive frame rate. *)
Definition wave_params_ok (channels sample_width sample_rate : Z) : bool :=
  (1 <=? channels) && (1 <=? sample_width) && (sample_width <=? 4)
  && (0 <? sample_rate).

(** [with wave.open(path, 'wb') as wf:] followed by the three setters and
    [wf.writeframes(frames)].  Opening creates or truncates the file.  A
    setter that refuses its argument raises before a byte is written, and
    the file stays, empty; when the module fails later, on writing the
    header or the frames, the file stays as it was left. *)
Definition wave_write (path : string) (channels sample_width sample_rate : Z)
    (frames : string) : M unit :=
  fun E w =>
    if writable E path then
      if wave_params_ok channels sample_width sample_rate then
        match wave_bytes E channels sample_width sample_rate frames with
        | WaveFile container =>
            (Returned tt,
             World (ticks w) (heap w) (next_loc w) (trace w)
                   (<[path := container]> (files w)))
        | WaveFailure e debris =>
            (Raised e,
             World (ticks w) (heap w) (next_loc w) (trace w)
                   (<[path := debris]> (files w)))
        end
      else
        (Raised WaveError,
         World (ticks w) (heap w) (next_loc w) (trace w)
               (<[path := ""]> (files w)))
    else failed_write path frames E w.

Definition pcm_to_wav (pcm_data : string) (sample_rate channels sample_width : Z)
  : M string :=
  wave_write "temp.wav" channels sample_width sample_rate pcm_data ;;;
  wav_data <- read_file "temp.wav" ;;
  os_remove "temp.wav" ;;;
  ret wav_data.

(** [d[k]] on a dict with string keys. *)
Definition dict_getitem (d : gmap string string) (k : string) : M string :=
  match d !! k with
  | Some v => ret v
  | None => raise (KeyError k)
  end.

(** [requests.post(url, json=payload, ...)] and [raise_for_status()].  Of
    the payload only the voice configuration varies; its text part is the
    constant placeholder of the source. *)
Definition requests_post_checked (url : text) (voices : list (string * string))
  : M (option string * option string) :=
  emit (HttpPost url voices) ;;;
  fun E w =>
    match requests_post E url with
    | TtsTransportError => (Raised RequestException, w)
    | TtsHttpError => (Raised RequestException, w)
    | TtsBody data mime => (Returned (data, mime), w)
    end.

(** [response.json()['candidates'][0]['content']['parts'][0]['inlineData'][key]] *)
Definition inline_data (key : string) (v : option string) : M string :=
  match v with
  | Some s => ret s
  | None => raise (KeyError key)
  end.

(** The three [except] clauses, tried in order. *)
Definition on_error (e : exn) : M bool :=
  match e with
  | RequestException =>
      logging ERROR [Lit "Failed to generate audio: "; Exc e]
  | KeyError _ | IndexError =>
      logging ERROR [Lit "Unexpected API response format: "; Exc e]
  | _ =>
      logging ERROR [Lit "An unexpected error occurred: "; Exc e]
  end ;;;
  ret false.

(** The dict literal [speaker_voice_mapping]: the keys are inserted in
    order, a later one replacing an equal earlier one. *)
Definition voice_mapping (k1 k2 k3 : string) : gmap string string :=
  <[k3 := "Kore"]> (<[k2 := "Puck"]> (<[k1 := "Zephyr"]> ∅)).

(** [generate_podcast_audio(script, config)].  The parameter [script] is
    never read. *)
Definition generate_podcast_audio {S : Type} (script : S) (cfg : config)
  : M bool :=
  logging INFO [Lit "Starting audio generation..."] ;;;
  tts_api_key <- config_get cfg "api_keys" "tts_api_key" ;;
  tts_api_url <- config_get cfg "tts" "api_url" ;;
  k1 <- config_get cfg "podcast" "expert_1" ;;
  k2 <- config_get cfg "podcast" "expert_2" ;;
  k3 <- config_get cfg "podcast" "expert_3" ;;
  let speaker_voice_mapping := voice_mapping k1 k2 k3 in
  e1 <- config_get cfg "podcast" "expert_1" ;;
  v1 <- dict_getitem speaker_voice_mapping e1 ;;
  e2 <- config_get cfg "podcast" "expert_2" ;;
  v2 <- dict_getitem speaker_voice_mapping e2 ;;
  e3 <- config_get cfg "podcast" "expert_3" ;;
  v3 <- dict_getitem speaker_voice_mapping e3 ;;
  let payload := [("expert_1", v1); ("expert_2", v2); ("expert_3", v3)] in
  try_except
    (response <- requests_post_checked
        [Str tts_api_url; Lit "?key="; Str tts_api_key] payload ;;
     audio_data <- inline_data "data" response.1 ;;
     audio_mime_type <- inline_data "mimeType" response.2 ;;
     let sample_rate := 24000 in
     pcm_data <- (fun E w => (b64decode E audio_data, w)) ;;
     wav_data <- pcm_to_wav pcm_data sample_rate 1 2 ;;
     let output_dir := "output/audio" in
     os_makedirs output_dir ;;;
     let output_file := output_dir +:+ "/" +:+ "podcast_episode.wav" in
     write_file output_file wav_data ;;;
     logging INFO [Lit "Audio file saved successfully to "; Str output_file] ;;;
     ret true)
    on_error.

End script_to_audio.

(** ** main.py *)

Module main_py.

(** The stage functions [main] imports.  [main] hands them whatever the
    previous stage returned. *)
Record stages := Stages {
  scrape_papers : config -> M pyval;
  rank_papers : pyval -> config -> M pyval;
  select_top_paper : pyval -> M pyval;
  generate_podcast_script : pyval -> config -> M pyval;
  generate_podcast_audio : pyval -> config -> M pyval
}.

(** [bool(v)] *)
Definition truthy (v : pyval) : bool :=
  match v with
  | PyNone => false
  | PyBool b => b
  | PyStr s => negb (bool_decide (s = ""))
  | PyList l => negb (bool_decide (l = []))
  end.

(** [len(v)] *)
Definition len (v : pyval) : M Z :=
  match v with
  | PyStr s => ret (Z.of_nat (String.length s))
  | PyList l => ret (Z.of_nat (length l))
  | _ => raise TypeError
  end.

Definition script_dir : string := "./output/scripts".

(** [os.path.join(script_dir, f"script_{timestamp}.json")] *)
Definition script_path (timestamp : string) : string :=
  script_dir +:+ "/" +:+ ("script_" +:+ timestamp +:+ ".json").

(** [with open(path, "w", encoding="utf-8") as f: json.dump(v, f, indent=4)]:
    opening truncates the file; an unserializable value raises [TypeError]
    and leaves it empty. *)
Definition json_dump (v : pyval) (path : string) : M unit :=
  write_file path "" ;;;
  encoded <- ask (fun E => json_dumps E v) ;;
  match encoded with
  | Some s => write_file path s
  | None => raise TypeError
  end.

Definition unhandled (e : exn) : M unit :=
  logging CRITICAL [Lit "An unhandled error occurred in the pipeline: "; Exc e].

Definition main (st : stages) : M unit :=
  logging INFO [Lit "Starting the AI podcast generation pipeline."] ;;;
  try_except
    (config <- load_config "./config/settings.ini" ;;
     logging INFO [Lit "Step 1: Scraping papers from arXiv."] ;;;
     papers <- scrape_papers st config ;;
     if negb (truthy papers) then
       logging WARNING [Lit "No new papers found. Exiting pipeline."]
     else
       n <- len papers ;;
       logging INFO [Lit "Step 2: Ranking "; Int n; Lit " papers."] ;;;
       ranked_papers <- rank_papers st papers config ;;
       logging INFO [Lit "Step 3: Selecting the top paper."] ;;;
       selected_paper <- select_top_paper st ranked_papers ;;
       if negb (truthy selected_paper) then
         logging ERROR [Lit "Could not select a top paper. Exiting pipeline."]
       else
         logging INFO [Lit "Step 4: Generating the podcast script."] ;;;
         podcast_script_content <- generate_podcast_script st selected_paper config ;;
         if negb (truthy podcast_script_content) then
           logging ERROR [Lit "Failed to generate a podcast script. Exiting pipeline."]
         else
           os_makedirs script_dir ;;;
           now <- datetime_now ;;
           timestamp <- ask (fun E => strftime E now) ;;
           let script_file_path := script_path timestamp in
           logging INFO [Lit "Saving script to "; Str script_file_path] ;;;
           json_dump podcast_script_content script_file_path ;;;
           logging INFO [Lit "Step 5: Generating the podcast audio."] ;;;
           ok <- generate_podcast_audio st podcast_script_content config ;;
           if truthy ok then
             logging INFO [Lit "Pipeline completed successfully! Audio file generated."]
           else
             logging ERROR [Lit "Audio generation failed. Pipeline aborted."])
    unhandled.

(** *** [main] as a transition system

    The same function cut at its stage calls: a program point carries the
    local variables that are still read after it. *)
Inductive pc :=
  | AtEntry
  | AtScrape (config : config)
  | AtRank (config : config) (papers : pyval)
  | AtSelect (config : config) (ranked_papers : pyval)
  | AtSynthesize (config : config) (selected_paper : pyval)
  | AtPersist (config : config) (podcast_script_content : pyval)
  | AtRender (config : config) (podcast_script_content : pyval)
             (script_file_path : string)
  | Exited.

(** A piece of the [try] block: an exception ends the run in the handler. *)
Definition guarded (m : M pc) : M pc :=
  try_except m (fun e => unhandled e ;;; ret Exited).

Definition step (st : stages) (at_ : pc) : M pc :=
  match at_ with
  | AtEntry =>
      logging INFO [Lit "Starting the AI podcast generation pipeline."] ;;;
      guarded
        (config <- load_config "./config/settings.ini" ;;
         logging INFO [Lit "Step 1: Scraping papers from arXiv."] ;;;
         ret (AtScrape config))
  | AtScrape config =>
      guarded
        (papers <- scrape_papers st config ;;
         if negb (truthy papers) then
           logging WARNING [Lit "No new papers found. Exiting pipeline."] ;;;
           ret Exited
         else
           n <- len papers ;;
           logging INFO [Lit "Step 2: Ranking "; Int n; Lit " papers."] ;;;
           ret (AtRank config papers))
  | AtRank config papers =>
      guarded
        (ranked_papers <- rank_papers st papers config ;;
         logging INFO [Lit "Step 3: Selecting the top paper."] ;;;
         ret (AtSelect config ranked_papers))
  | AtSelect config ranked_papers =>
      guarded
        (selected_paper <- select_top_paper st ranked_papers ;;
         if negb (truthy selected_paper) then
           logging ERROR [Lit "Could not select a top paper. Exiting pipeline."] ;;;
           ret Exited
         else
           logging INFO [Lit "Step 4: Generating the podcast script."] ;;;
           ret (AtSynthesize config selected_paper))
  | AtSynthesize config selected_paper =>
      guarded
        (podcast_script_content <- generate_podcast_script st selected_paper config ;;
         if negb (truthy podcast_script_content) then
           logging ERROR [Lit "Failed to generate a podcast script. Exiting pipeline."] ;;;
           ret Exited
         else
           ret (AtPersist config podcast_script_content))
  | AtPersist config podcast_script_content =>
      guarded
        (os_makedirs script_dir ;;;
         now <- datetime_now ;;
         timestamp <- ask (fun E => strftime E now) ;;
         let script_file_path := script_path timestamp in
         logging INFO [Lit "Saving script to "; Str script_file_path] ;;;
         json_dump podcast_script_content script_file_path ;;;
         logging INFO [Lit "Step 5: Generating the podcast audio."] ;;;
         ret (AtRender config podcast_script_content script_file_path))
  | AtRender config podcast_script_content _ =>
      guarded
        (ok <- generate_podcast_audio st podcast_script_content config ;;
         (if truthy ok then
            logging INFO [Lit "Pipeline completed successfully! Audio file generated."]
          else
            logging ERROR [Lit "Audio generation failed. Pipeline aborted."]) ;;;
         ret Exited)
  | Exited => ret Exited
  end.

Fixpoint run (st : stages) (fuel : nat) (at_ : pc) : M pc :=
  match fuel with
  | O => ret at_
  | S fuel' => next <- step st at_ ;; run st fuel' next
  end.

(** One transition between configurations of the system. *)
Definition steps_to (st : stages) (E : env) (c c' : pc * world) : Prop :=
  c.1 <> Exited /\ step st c.1 E c.2 = (Returned c'.1, c'.2).

Inductive reachable (st : stages) (E : env) (w0 : world) : pc * world -> Prop :=
  | reach_entry : reachable st E w0 (AtEntry, w0)
  | reach_step c c' :
      reachable st E w0 c -> steps_to st E c c' -> reachable st E w0 c'.

End main_py.

(** * What the design document says, in the vocabulary of the model *)

Module spec.

(** "Retains a candidate iff published > now - window OR updated > now -
    window", on the papers of heap [h]; the window is a number of days. *)
Definition retained (h : loc -> paper) (now window : Z) (p : loc) : Prop :=
  now - usec_of_days window < published (h p) \/
  now - usec_of_days window < updated (h p).

#[global] Instance retained_dec h now window p :
  Decision (retained h now window p).
Proof. unfold retained. apply _. Defined.

(** "Returns the first topN entries of an already-ranked set whose abstract
    text length meets minAbstractLength". *)
Definition select (h : loc -> paper) (ranked : list loc)
    (topN minAbstractLength : nat) : list loc :=
  take topN
    (filter (fun p => (minAbstractLength <= String.length (summary (h p)))%nat)
            ranked).

(** "descending score; ties broken by most-recent updated timestamp, then by
    identifier": may [a] stand directly before [b]?  The canonical link is
    the identifier of a candidate. *)
Definition in_rank_order (h : loc -> paper) (a b : loc) : Prop :=
  match score (h a), score (h b) with
  | Some sa, Some sb =>
      sb < sa \/
      (sa = sb /\
       (updated (h b) < updated (h a) \/
        (updated (h a) = updated (h b) /\
         String.leb (link (h a)) (link (h b)) = true)))
  | _, _ => False
  end.

(** "speaker role (one of a fixed enumerated set of discussion roles)": the
    roles the generation prompt names. *)
Definition roles : list string := ["ML Expert"; "Neuroscientist"; "Psychologist"].

Definition occurs (needle hay : string) : bool :=
  match String.index 0 needle hay with
  | Some _ => true
  | None => false
  end.

(** A text can only be parsed into a Script ("at least one turn from at
    least two distinct roles") if two of the roles are named in it.  This is
    a necessary condition, whatever the format of the turns. *)
Definition attributable (raw : string) : bool :=
  (2 <=? length (filter (fun r => occurs r raw = true) roles))%nat.

(** "fails with a distinguishable GenerationFailed condition (not an empty
    success)": the call must not come back with an ordinary value. *)
Definition generation_failed {A} (o : outcome A) : Prop :=
  match o with
  | Raised _ => True
  | Returned _ => False
  end.

(** "every role referenced in the script has an entry in assignment" *)
Definition roles_mapped (s : script_to_audio.script)
    (assignment : gmap string string) : Prop :=
  Forall (fun turn => is_Some (assignment !! turn.1)) (script_to_audio.dialogue s).

End spec.

(** * Fixtures: concrete environments and worlds *)

Module fixtures.

Definition day : Z := usec_per_day.

(** A clock that stands still at day 100. *)
Definition still_clock : nat -> datetime := fun _ => 100 * day.

Definition settings : config :=
  {[ "arxiv" := {[ "query" := "reinforcement learning"; "max_results" := "10" ]};
     "llm" := {[ "model_path" := "models/llama-3.gguf" ]};
     "api_keys" := {[ "tts_api_key" := "k" ]};
     "tts" := {[ "api_url" := "https://tts.example/v1" ]};
     "podcast" := {[ "expert_1" := "ML Expert";
                     "expert_2" := "Neuroscientist";
                     "expert_3" := "Psychologist" ]} ]}.

Definition env0 : env :=
  Env still_clock
      (fun _ => Returned settings)
      (fun s => if bool_decide (s = "10") then Some 10 else None)
      (fun _ => Returned (Feed false []))
      (fun _ => Returned tt)
      (fun _ _ => Returned "ML Expert: hello")
      (fun _ => TtsBody (Some "UENN") (Some "audio/L16;rate=24000"))
      (fun s => Returned s)
      (fun _ _ _ frames => WaveFile ("RIFF" +:+ frames))
      (fun _ => true)
      (fun _ => "2025-01-01_00-00-00")
      (fun v => match v with PyStr s => Some s | _ => None end)
      true
      (fun _ section option => Raised (InterpolationError section option))
      (fun _ => false)
      (fun _ => true)
      (fun _ _ => None).

Definition mk_paper (t abstract : string) (pub upd : datetime) : paper :=
  Paper t ["A. Author"] abstract ("http://arxiv.org/abs/" +:+ t) pub upd None.

(** Three papers: published today, 30 days and 45 days before the clock. *)
Definition heap3 : loc -> paper :=
  fun l =>
    match l with
    | O => mk_paper "fresh" "an abstract" (100 * day) (100 * day)
    | S O => mk_paper "month" "an abstract" (70 * day) (70 * day)
    | _ => mk_paper "old" "an abstract" (55 * day) (55 * day)
    end.

Definition world_of (h : loc -> paper) : world := World 0 h 3 [] ∅.

(** Two papers published the same day; the second was updated later. *)
Definition heap_tie : loc -> paper :=
  fun l =>
    match l with
    | O => mk_paper "a" "an abstract" (99 * day) (99 * day)
    | _ => mk_paper "b" "an abstract" (99 * day) (100 * day)
    end.

(** A ranked pair whose first abstract has 10 characters and whose second
    has 60. *)
Definition heap_short_first : loc -> paper :=
  fun l =>
    match l with
    | O => Paper "short" [] "0123456789" "l0" 0 0 (Some 30)
    | _ => Paper "long" []
             "012345678901234567890123456789012345678901234567890123456789"
             "l1" 0 0 (Some 29)
    end.

(** The feed cannot be reached. *)
Definition env_down : env :=
  Env still_clock
      (fun _ => Returned settings)
      (fun s => if bool_decide (s = "10") then Some 10 else None)
      (fun _ => Raised (Exception "Temporary failure in name resolution"))
      (fun _ => Returned tt)
      (fun _ _ => Returned "ML Expert: hello")
      (fun _ => TtsBody (Some "UENN") (Some "audio/L16;rate=24000"))
      (fun s => Returned s)
      (fun _ _ _ frames => WaveFile ("RIFF" +:+ frames))
      (fun _ => true)
      (fun _ => "2025-01-01_00-00-00")
      (fun v => match v with PyStr s => Some s | _ => None end)
      true
      (fun _ section option => Raised (InterpolationError section option))
      (fun _ => false)
      (fun _ => true)
      (fun _ _ => None).

(** The generation service times out, or answers with prose. *)
Definition with_llm (answer : outcome string) : env :=
  Env still_clock
      (fun _ => Returned settings)
      (fun s => if bool_decide (s = "10") then Some 10 else None)
      (fun _ => Returned (Feed false []))
      (fun _ => Returned tt)
      (fun _ _ => answer)
      (fun _ => TtsBody (Some "UENN") (Some "audio/L16;rate=24000"))
      (fun s => Returned s)
      (fun _ _ _ frames => WaveFile ("RIFF" +:+ frames))
      (fun _ => true)
      (fun _ => "2025-01-01_00-00-00")
      (fun v => match v with PyStr s => Some s | _ => None end)
      true
      (fun _ section option => Raised (InterpolationError section option))
      (fun _ => false)
      (fun _ => true)
      (fun _ _ => None).

Definition prose : string := "This paper is about memory networks.".

(** A script with a speaker no voice is assigned to. *)
Definition guest_script : script_to_audio.script :=
  script_to_audio.Script "A new paper on memory networks"
    [("ML Expert", "This new paper proposes a novel memory network architecture.");
     ("Guest", "What does that mean for the rest of us?")].

Definition guest_run :=
  script_to_audio.generate_podcast_audio guest_script settings env0
    (world_of heap3).

Definition is_post (ev : event) : bool :=
  match ev with
  | HttpPost _ _ => true
  | _ => false
  end.

(** Stage functions under which [main] gets to the renderer: a source with
    one paper, pass-through ranking and selection, a synthesizer that
    answers, and the renderer of [script_to_audio.py]. *)
Definition demo_stages : main_py.stages :=
  main_py.Stages
    (fun _ => ret (PyList [0%nat]))
    (fun papers _ => ret papers)
    (fun ranked => ret ranked)
    (fun _ _ => ret (PyStr "ML Expert: hello"))
    (fun content cfg =>
       bind (script_to_audio.generate_podcast_audio content cfg)
            (fun ok => ret (PyBool ok))).

Definition demo_script_path : string :=
  "./output/scripts/script_2025-01-01_00-00-00.json".

(** The speech service cannot be reached. *)
Definition env_tts_down : env :=
  Env still_clock
      (fun _ => Returned settings)
      (fun s => if bool_decide (s = "10") then Some 10 else None)
      (fun _ => Returned (Feed false []))
      (fun _ => Returned tt)
      (fun _ _ => Returned "ML Expert: hello")
      (fun _ => TtsTransportError)
      (fun s => Returned s)
      (fun _ _ _ frames => WaveFile ("RIFF" +:+ frames))
      (fun _ => true)
      (fun _ => "2025-01-01_00-00-00")
      (fun v => match v with PyStr s => Some s | _ => None end)
      true
      (fun _ section option => Raised (InterpolationError section option))
      (fun _ => false)
      (fun _ => true)
      (fun _ _ => None).

(** The runs the examples below look at. *)
Definition ages_run :=
  paper_ranker.rank_papers [0; 1; 2]%nat "simple" env0 (world_of heap3).

Definition tie_run :=
  paper_ranker.rank_papers [0; 1]%nat "simple" env0 (world_of heap_tie).

Definition short_first_run :=
  paper_ranker.select_top_paper [0; 1]%nat 1 env0 (world_of heap_short_first).

Definition is_error_record (ev : event) : bool :=
  match ev with
  | Logged ERROR _ => true
  | _ => false
  end.

(** A feed with the given reply; a speech service with the given reply; a
    disk on which only the paths [ok] accepts can be written. *)
Definition with_feed (reply : outcome feed) : env :=
  Env still_clock
      (fun _ => Returned settings)
      (fun s => if bool_decide (s = "10") then Some 10 else None)
      (fun _ => reply)
      (fun _ => Returned tt)
      (fun _ _ => Returned "ML Expert: hello")
      (fun _ => TtsBody (Some "UENN") (Some "audio/L16;rate=24000"))
      (fun s => Returned s)
      (fun _ _ _ frames => WaveFile ("RIFF" +:+ frames))
      (fun _ => true)
      (fun _ => "2025-01-01_00-00-00")
      (fun v => match v with PyStr s => Some s | _ => None end)
      true
      (fun _ section option => Raised (InterpolationError section option))
      (fun _ => false)
      (fun _ => true)
      (fun _ _ => None).

Definition with_tts (reply : tts_reply) (ok : string -> bool) : env :=
  Env still_clock
      (fun _ => Returned settings)
      (fun s => if bool_decide (s = "10") then Some 10 else None)
      (fun _ => Returned (Feed false []))
      (fun _ => Returned tt)
      (fun _ _ => Returned "ML Expert: hello")
      (fun _ => reply)
      (fun s => Returned s)
      (fun _ _ _ frames => WaveFile ("RIFF" +:+ frames))
      ok
      (fun _ => "2025-01-01_00-00-00")
      (fun v => match v with PyStr s => Some s | _ => None end)
      true
      (fun _ section option => Raised (InterpolationError section option))
      (fun _ => false)
      (fun _ => true)
      (fun _ _ => None).

Definition entry_ok (t : string) (pub : datetime) : entry :=
  Entry (Some t) (Some ["A. Author"]) (Some "an abstract")
        (Some ("http://arxiv.org/abs/" +:+ t)) (Some pub) (Some pub).

Definition entry_without_summary (t : string) (pub : datetime) : entry :=
  Entry (Some t) (Some ["A. Author"]) None
        (Some ("http://arxiv.org/abs/" +:+ t)) (Some pub) (Some pub).

Definition tts_url : text := [Str "https://tts.example/v1"; Lit "?key="; Str "k"].

(** The settings without their [tts] section. *)
Definition settings_without_tts : config := delete "tts" settings.

(** The outside [E], with paper_ranker.py imported by another module rather
    than run as the script. *)
Definition imported (E : env) : env :=
  Env (clock E) (read_config E) (int_of_str E) (feedparser_parse E)
      (llama_load E) (llama_query E) (requests_post E) (b64decode E)
      (wave_bytes E) (writable E) (strftime E) (json_dumps E)
      false (interpolate E) (is_dir E) (unlinkable E) (left_by_failed_write E).

(** A directory stands where the synthesizer puts its temporary file. *)
Definition env_tmp_is_dir : env :=
  Env (clock env0) (read_config env0) (int_of_str env0) (feedparser_parse env0)
      (llama_load env0) (llama_query env0) (requests_post env0) (b64decode env0)
      (wave_bytes env0)
      (fun path => negb (bool_decide (path = "temp_paper_content.txt")))
      (strftime env0) (json_dumps env0)
      true (interpolate env0)
      (fun path => bool_decide (path = "temp_paper_content.txt"))
      (fun _ => false)
      (left_by_failed_write env0).

(** A disk that holds two scripts of earlier runs, one of them saved in
    the second the clock of [env0] shows. *)
Definition world_with_scripts : world :=
  World 0 heap3 3 []
    {[ demo_script_path := "an earlier script";
       "./output/scripts/script_2024-12-31_23-59-59.json" :=
         "the script of the day before" ]}.

(** One paper, published the day the clock shows. *)
Definition imported_run :=
  paper_ranker.rank_papers [0%nat] "simple" (imported env0) (world_of heap3).

(** A window of a million days, on no paper at all. *)
Definition wide_window_run :=
  arxiv_scrapper.filter_papers_by_timeframe [] 1000000 env0 (world_of heap3).

(** Stage functions with the scraper of the repository in front. *)
Definition repo_scrape_stages : main_py.stages :=
  main_py.Stages
    arxiv_scrapper.scrape_papers
    (fun papers _ => ret papers)
    (fun ranked => ret ranked)
    (fun _ _ => ret (PyStr "ML Expert: hello"))
    (fun content cfg =>
       bind (script_to_audio.generate_podcast_audio content cfg)
            (fun ok => ret (PyBool ok))).

End fixtures.

(** * Closed forms of the loops *)

Module closed_form.

(** The heap the scoring loop leaves, reading the clock from tick [t] on. *)
Fixpoint scored (E : env) (t : nat) (h : loc -> paper) (papers : list loc)
  : loc -> paper :=
  match papers with
  | [] => h
  | p :: rest =>
      scored E (S t)
        (heap_set p
           (set_score (Z.max 0 (30 - timedelta_days (clock E t - published (h p))))
                      (h p)) h)
        rest
  end.

(** The keys [sorted] computes: each paper with its score. *)
Definition keyed (h : loc -> paper) (xs : list loc) : list (Z * loc) :=
  (fun p => (default 0 (score (h p)), p)) <$> xs.

(** The record [rank_papers] logs before it looks at the strategy. *)
Definition ranking_record (papers : list loc) (strategy : string) : event :=
  Logged INFO [Lit "Ranking "; Int (Z.of_nat (length papers));
               Lit " papers using the '"; Str strategy; Lit "' strategy."].

(** The URL [fetch_recent_papers] asks for. *)
Definition arxiv_url (query : string) (max_results : Z) (sort_by : string) : text :=
  [Lit "http://export.arxiv.org/api/query?"; Lit "search_query=all:"; Str query;
   Lit "&start=0&max_results="; Int max_results; Lit "&sortBy="; Str sort_by].

(** The source is unavailable: the request raises (transport failure) or
    the feed comes back flagged as unparsable.  The exception the [try]
    block then ends with. *)
Definition source_failure (E : env) (url : text) : option exn :=
  match feedparser_parse E url with
  | Raised e => Some e
  | Returned f =>
      if bozo f
      then Some (Exception "Failed to parse feed. Is the arXiv API reachable?")
      else None
  end.

(** The document [generate_podcast_script] hands to the generation service. *)
Definition text_content (p : paper) : string :=
  "Title: " +:+ title p +:+ nl +:+
  "Authors: " +:+ join ", " (authors p) +:+ nl +:+
  "Abstract: " +:+ summary p.

Definition generating_record (p : paper) : event :=
  Logged INFO [Lit "Generating podcast script for paper: '"; Str (title p); Lit "'"].

(** The text stored for an option, if there is one. *)
Definition option_of (cfg : config) (section key : string) : option string :=
  match cfg !! section with
  | Some opts => opts !! key
  | None => None
  end.

(** The voice the payload names for the speaker configured under [k]. *)
Definition voice_of (k1 k2 k3 k : string) : string :=
  default "" (script_to_audio.voice_mapping k1 k2 k3 !! k).

(** A computation that leaves what the trace already holds: it only
    appends. *)
Definition keeps_event (ev : event) {A} (m : M A) : Prop :=
  forall E w, ev ∈ trace w -> ev ∈ trace (m E w).2.

(** A computation that leaves the file at [path] alone. *)
Definition keeps_file (path : string) {A} (m : M A) : Prop :=
  forall E w, files (m E w).2 !! path = files w !! path.

(** What holds of the script at the program points of [main] after the
    synthesis: the script is a true value, and at the call of the renderer
    it is in the file [main] named for it. *)
Definition script_saved (E : env) (c : main_py.pc * world) : Prop :=
  match c.1 with
  | main_py.AtPersist _ content => main_py.truthy content = true
  | main_py.AtRender _ content path =>
      main_py.truthy content = true /\
      exists s, json_dumps E content = Some s /\ files c.2 !! path = Some s
  | _ => True
  end.

(** Keys in descending order. *)
Definition descending (l : list (Z * loc)) : Prop :=
  StronglySorted (fun a b => b.1 <= a.1) l.

(** The score a paper carries, once it has one. *)
Definition final_score (h : loc -> paper) (p : loc) : Z :=
  default 0 (score (h p)).

(** The paper dict a feed entry gives, when no attribute is missing. *)
Definition paper_of_entry (e : entry) : option paper :=
  match e_title e, e_authors e, e_summary e, e_link e,
        e_published_parsed e, e_updated_parsed e with
  | Some t, Some a, Some s, Some l, Some p, Some u => Some (Paper t a s l p u None)
  | _, _, _, _, _, _ => None
  end.

Fixpoint papers_of_entries (es : list entry) : option (list paper) :=
  match es with
  | [] => Some []
  | e :: rest =>
      match paper_of_entry e, papers_of_entries rest with
      | Some p, Some ps => Some (p :: ps)
      | _, _ => None
      end
  end.

(** The heap with the dicts [ps] allocated from address [n] on. *)
Fixpoint allocated (h : loc -> paper) (n : loc) (ps : list paper) : loc -> paper :=
  match ps with
  | [] => h
  | p :: rest => allocated (heap_set n p h) (S n) rest
  end.

(** The record the renderer logs for an exception, by its [except] clause. *)
Definition error_record (e : exn) : event :=
  match e with
  | RequestException => Logged ERROR [Lit "Failed to generate audio: "; Exc e]
  | KeyError _ | IndexError =>
      Logged ERROR [Lit "Unexpected API response format: "; Exc e]
  | _ => Logged ERROR [Lit "An unexpected error occurred: "; Exc e]
  end.

Definition audio_failed (w : world) (fs : gmap string string)
    (evs : list event) (e : exn) : outcome bool * world :=
  (Returned false,
   World (ticks w) (heap w) (next_loc w) (trace w ++ evs ++ [error_record e]) fs).

(** Where the episode goes. *)
Definition output_file : string := "output/audio/podcast_episode.wav".

(** The files after a write of [content] to [path] has failed. *)
Definition left_files (E : env) (path content : string)
    (fs : gmap string string) : gmap string string :=
  match left_by_failed_write E path content with
  | Some debris => <[path := debris]> fs
  | None => fs
  end.

(** The run of the renderer once its options are read, by the reply of the
    speech service and the state of the disk. *)
Definition rendered (E : env) (w : world) (url : text)
    (voices : list (string * string)) : outcome bool * world :=
  let evs := [Logged INFO [Lit "Starting audio generation..."];
              HttpPost url voices] in
  match requests_post E url with
  | TtsTransportError | TtsHttpError => audio_failed w (files w) evs RequestException
  | TtsBody None _ => audio_failed w (files w) evs (KeyError "data")
  | TtsBody (Some _) None => audio_failed w (files w) evs (KeyError "mimeType")
  | TtsBody (Some audio_data) (Some _) =>
      match b64decode E audio_data with
      | Raised e => audio_failed w (files w) evs e
      | Returned pcm_data =>
          if writable E "temp.wav" then
            match wave_bytes E 1 2 24000 pcm_data with
            | WaveFailure e debris =>
                audio_failed w (<["temp.wav" := debris]> (files w)) evs e
            | WaveFile container =>
                if writable E "output/audio" then
                  if writable E output_file then
                    (Returned true,
                     World (ticks w) (heap w) (next_loc w)
                       (trace w ++ evs ++
                        [Logged INFO [Lit "Audio file saved successfully to ";
                                      Str output_file]])
                       (<[output_file := container]> (delete "temp.wav" (files w))))
                  else
                    audio_failed w
                      (left_files E output_file container (delete "temp.wav" (files w)))
                      evs (OSError output_file)
                else
                  audio_failed w (delete "temp.wav" (files w)) evs
                    (OSError "output/audio")
            end
          else
            audio_failed w (left_files E "temp.wav" pcm_data (files w)) evs
              (OSError "temp.wav")
      end
  end.

(** The options the renderer reads, in the order in which it reads them,
    and the exception of the first read that fails. *)
Definition renderer_options : list (string * string) :=
  [("api_keys", "tts_api_key"); ("tts", "api_url"); ("podcast", "expert_1");
   ("podcast", "expert_2"); ("podcast", "expert_3")].

Fixpoint first_failure (E : env) (cfg : config) (options : list (string * string))
  : option exn :=
  match options with
  | [] => None
  | (section, key) :: rest =>
      match config_value E cfg section key with
      | Raised e => Some e
      | Returned _ => first_failure E cfg rest
      end
  end.

(** No text stored in the parser holds a '%'. *)
Definition percent_free (cfg : config) : Prop :=
  forall section key v, option_of cfg section key = Some v -> has_percent v = false.

(** The voices of the payload, for the three configured speakers. *)
Definition payload_voices (k1 k2 k3 : string) : list (string * string) :=
  [("expert_1", voice_of k1 k2 k3 k1);
   ("expert_2", voice_of k1 k2 k3 k2);
   ("expert_3", voice_of k1 k2 k3 k3)].

End closed_form.
Import closed_form.

(** * Tactics *)

(** Project the fields of the worlds built along a run. *)
Ltac run_world :=
  repeat (progress cbn [files trace ticks heap next_loc fst snd orb]
          || rewrite lookup_insert_eq
          || rewrite bool_decide_eq_true_2 by (by eexists)).

(** Run [main] and its transitions up to the next stage call. *)
Ltac simp_run :=
  repeat first
    [ progress cbn [main_py.run main_py.step fst snd files trace ticks heap next_loc negb]
    | progress unfold main_py.guarded, try_except, main_py.unhandled, bind,
        load_config, main_py.len, main_py.json_dump, write_file, failed_write,
        os_makedirs, datetime_now, ask,
        logging, emit, ret, raise ].

(** Split a transition, given as hypothesis [H], into its paths. *)
Ltac step_cases H :=
  repeat (progress unfold main_py.guarded, try_except, main_py.unhandled, bind,
            load_config, main_py.len, main_py.json_dump, write_file, failed_write,
        os_makedirs, datetime_now, ask,
            logging, emit, ret, raise in H);
  repeat (case_match; simplify_eq;
          cbn [fst snd files trace ticks heap next_loc] in * ).

(** * Properties *)

(** ** Running computations *)

Lemma bind_returned {A B} (m : M A) (k : A -> M B) E w a w' :
  m E w = (Returned a, w') -> bind m k E w = k a E w'.
Proof. intros H. unfold bind. by rewrite H. Qed.

Lemma bind_raised {A B} (m : M A) (k : A -> M B) E w e w' :
  m E w = (Raised e, w') -> bind m k E w = (Raised e, w').
Proof. intros H. unfold bind. by rewrite H. Qed.

Lemma heap_set_eq p v h : heap_set p v h p = v.
Proof. unfold heap_set. by rewrite bool_decide_eq_true_2. Qed.

Lemma heap_set_ne p q v h : q <> p -> heap_set p v h q = h q.
Proof. intros H. unfold heap_set. by rewrite bool_decide_eq_false_2. Qed.

(** ** The ranker *)

Section ranker.
Import paper_ranker.

(** The scoring loop where the name [datetime] is bound. *)
Lemma score_loop_run E papers :
  ranker_is_main E = true ->
  forall acc w,
  score_loop papers acc E w =
  (Returned (acc ++ papers),
   World (ticks w + length papers) (scored E (ticks w) (heap w) papers)
         (next_loc w) (trace w) (files w)).
Proof.
  intros Hmain.
  induction papers as [|p rest IH]; intros acc w; simpl.
  - unfold ret. rewrite app_nil_r, Nat.add_0_r. by destruct w.
  - unfold bind at 1. unfold score_paper, bind, module_datetime_now,
      datetime_now, getitem, setitem_score; rewrite Hmain; simpl.
    rewrite IH; simpl. rewrite <- app_assoc; simpl.
    do 2 f_equal. f_equal. lia.
Qed.

(** The scoring loop where it is not: the first paper is not scored. *)
Lemma score_loop_imported E papers acc w :
  ranker_is_main E = false -> papers <> [] ->
  score_loop papers acc E w = (Raised (NameError "datetime"), w).
Proof.
  intros Hmain Hne. destruct papers as [|p rest]; [done|].
  cbn [score_loop]. unfold bind, score_paper, bind, module_datetime_now.
  by rewrite Hmain.
Qed.

Lemma scored_fields E papers : forall t h q,
  title (scored E t h papers q) = title (h q) /\
  summary (scored E t h papers q) = summary (h q) /\
  link (scored E t h papers q) = link (h q) /\
  published (scored E t h papers q) = published (h q) /\
  updated (scored E t h papers q) = updated (h q) /\
  authors (scored E t h papers q) = authors (h q).
Proof.
  induction papers as [|p rest IH]; intros t h q; simpl; [done|].
  destruct (IH (S t)
    (heap_set p (set_score (Z.max 0 (30 - timedelta_days (clock E t - published (h p))))
                      (h p)) h) q) as (H1 & H2 & H3 & H4 & H5 & H6).
  rewrite H1, H2, H3, H4, H5, H6.
  destruct (decide (q = p)) as [->|Hne].
  - by rewrite heap_set_eq.
  - by rewrite heap_set_ne.
Qed.

Lemma scored_outside E papers : forall t h q,
  q ∉ papers -> scored E t h papers q = h q.
Proof.
  induction papers as [|p rest IH]; intros t h q Hq; simpl; [done|].
  apply not_elem_of_cons in Hq as [Hne Hq].
  rewrite IH by done. by rewrite heap_set_ne.
Qed.

(** Every paper of the list carries the score of its last visit. *)
Lemma scored_inside E papers : forall t h p,
  p ∈ papers ->
  exists k, papers !! k = Some p /\
    score (scored E t h papers p) =
    Some (Z.max 0 (30 - timedelta_days (clock E (t + k) - published (h p)))).
Proof.
  induction papers as [|q rest IH]; intros t h p Hp.
  - by apply elem_of_nil in Hp.
  - simpl. destruct (decide (p ∈ rest)) as [Hin|Hout].
    + destruct (IH (S t)
        (heap_set q (set_score (Z.max 0 (30 - timedelta_days (clock E t - published (h q))))
                      (h q)) h) p Hin) as (k & Hk & Hs).
      exists (S k). split; [done|]. rewrite Hs.
      replace (t + S k)%nat with (S t + k)%nat by lia.
      do 5 f_equal.
      destruct (decide (p = q)) as [->|Hne].
      * by rewrite heap_set_eq.
      * by rewrite heap_set_ne.
    + apply elem_of_cons in Hp as [->|Hp]; [|done].
      exists 0%nat. split; [done|].
      rewrite scored_outside by done. rewrite heap_set_eq. simpl.
      by rewrite Nat.add_0_r.
Qed.
End ranker.

(** ** [sorted(..., reverse=True)] *)

Section sorting.
Import paper_ranker.

Lemma insert_desc_perm x l : insert_desc x l ≡ₚ x :: l.
Proof.
  induction l as [|y l IH]; simpl; [done|].
  destruct (x.1 <? y.1); [|done].
  rewrite IH. apply Permutation_swap.
Qed.

Lemma sort_desc_perm l : sort_desc l ≡ₚ l.
Proof.
  induction l as [|x l IH]; simpl; [done|].
  rewrite insert_desc_perm. by rewrite IH.
Qed.

Lemma insert_desc_descending x l :
  descending l -> descending (insert_desc x l).
Proof.
  unfold descending. induction 1 as [|y l Hl IH Hy]; simpl.
  - repeat constructor.
  - destruct (Z.ltb_spec (x.1) (y.1)) as [Hlt|Hge].
    + constructor; [done|].
      rewrite insert_desc_perm. constructor; [lia|done].
    + constructor; [by constructor|].
      constructor; [lia|].
      eapply Forall_impl; [exact Hy|]. simpl. intros z Hz. lia.
Qed.

Lemma sort_desc_descending l : descending (sort_desc l).
Proof.
  induction l as [|x l IH]; simpl.
  - constructor.
  - by apply insert_desc_descending.
Qed.

(** Stability: among the elements of one key nothing moves. *)
Lemma insert_desc_stable k x l :
  filter (fun y => y.1 = k) (insert_desc x l) =
  filter (fun y => y.1 = k) (x :: l).
Proof.
  induction l as [|y l IH]; simpl; [done|].
  destruct (Z.ltb_spec (x.1) (y.1)) as [Hlt|Hge]; [|done].
  rewrite !filter_cons. rewrite IH. rewrite !filter_cons.
  destruct (decide (y.1 = k)), (decide (x.1 = k)); try done. lia.
Qed.

Lemma sort_desc_stable k l :
  filter (fun y => y.1 = k) (sort_desc l) = filter (fun y => y.1 = k) l.
Proof.
  induction l as [|x l IH]; simpl; [done|].
  rewrite insert_desc_stable. rewrite !filter_cons. by rewrite IH.
Qed.

Lemma keyed_wf h xs : Forall (fun y => y.1 = final_score h y.2) (keyed h xs).
Proof.
  unfold keyed. apply Forall_fmap. by apply Forall_true.
Qed.

Lemma filter_snd (f : loc -> Z) k (l : list (Z * loc)) :
  Forall (fun y => y.1 = f y.2) l ->
  filter (fun p => f p = k) (snd <$> l) = snd <$> filter (fun y => y.1 = k) l.
Proof.
  induction 1 as [|y l Hy Hl IH]; [done|].
  rewrite fmap_cons, !filter_cons, IH.
  destruct (decide (f y.2 = k)), (decide (y.1 = k)); try done; congruence.
Qed.

Lemma snd_keyed h xs : snd <$> keyed h xs = xs.
Proof.
  unfold keyed. rewrite <- list_fmap_compose.
  induction xs as [|x xs IH]; [done|]. simpl. by f_equal.
Qed.

(** The three facts about the ranked list, on references. *)
Lemma ranked_perm h xs : snd <$> sort_desc (keyed h xs) ≡ₚ xs.
Proof. rewrite sort_desc_perm. by rewrite snd_keyed. Qed.

Lemma ranked_descending h xs :
  StronglySorted (fun a b => final_score h b <= final_score h a)
                 (snd <$> sort_desc (keyed h xs)).
Proof.
  assert (Hwf : Forall (fun y => y.1 = final_score h y.2) (sort_desc (keyed h xs))).
  { rewrite sort_desc_perm. apply keyed_wf. }
  pose proof (sort_desc_descending (keyed h xs)) as Hs.
  unfold descending in Hs.
  induction Hs as [|y l Hl IH Hy]; simpl; [constructor|].
  apply Forall_cons in Hwf as [Hy1 Hwf].
  constructor; [by apply IH|].
  apply Forall_fmap. rewrite Forall_forall in Hy, Hwf |- *.
  intros z Hz. simpl. rewrite <- Hy1, <- (Hwf z Hz). by apply Hy.
Qed.

Lemma ranked_stable h xs k :
  filter (fun p => final_score h p = k) (snd <$> sort_desc (keyed h xs)) =
  filter (fun p => final_score h p = k) xs.
Proof.
  rewrite (filter_snd (final_score h)).
  - rewrite sort_desc_stable.
    rewrite <- (filter_snd (final_score h)) by apply keyed_wf.
    by rewrite snd_keyed.
  - rewrite sort_desc_perm. apply keyed_wf.
Qed.

Lemma keys_run E xs : forall w,
  Forall (fun p => is_Some (score (heap w p))) xs ->
  mapM (fun p => bind (getitem_score p) (fun k => ret (k, p))) xs E w =
  (Returned (keyed (heap w) xs), w).
Proof.
  induction xs as [|x xs IH]; intros w Hall; [done|].
  apply Forall_cons in Hall as [[s Hs] Hall].
  cbn [mapM]. unfold bind at 1.
  assert (Hx : bind (getitem_score x) (fun k => ret (k, x)) E w
               = (Returned (s, x), w)).
  { unfold bind, getitem_score, ret. by rewrite Hs. }
  rewrite Hx. unfold bind at 1. rewrite IH by done.
  unfold ret, keyed. rewrite fmap_cons. by rewrite Hs.
Qed.

Lemma sorted_by_score_reverse_run E w xs :
  Forall (fun p => is_Some (score (heap w p))) xs ->
  sorted_by_score_reverse xs E w =
  (Returned (snd <$> sort_desc (keyed (heap w) xs)), w).
Proof.
  intros Hall. unfold sorted_by_score_reverse.
  erewrite bind_returned by (by apply keys_run). done.
Qed.

End sorting.

(** ** [rank_papers] and [select_top_paper] *)

Section rank_papers_facts.
Import paper_ranker.

Lemma scored_all_some E t h papers :
  Forall (fun p => is_Some (score (scored E t h papers p))) papers.
Proof.
  apply Forall_forall. intros p Hp.
  destruct (scored_inside E papers t h p Hp) as (k & _ & ->). by eexists.
Qed.

Lemma rank_empty_run E w strategy :
  rank_papers [] strategy E w =
  (Returned [],
   World (ticks w) (heap w) (next_loc w)
         (trace w ++ [Logged WARNING [Lit "No papers provided to rank."]])
         (files w)).
Proof. reflexivity. Qed.

Lemma rank_simple_run E w papers :
  ranker_is_main E = true ->
  papers <> [] ->
  rank_papers papers "simple" E w =
  (Returned (snd <$> sort_desc (keyed (scored E (ticks w) (heap w) papers) papers)),
   World (ticks w + length papers) (scored E (ticks w) (heap w) papers)
         (next_loc w) (trace w ++ [ranking_record papers "simple"]) (files w)).
Proof.
  intros Hmain Hne. unfold rank_papers.
  rewrite bool_decide_eq_false_2 by done.
  rewrite bool_decide_eq_true_2 by done.
  unfold bind at 1. unfold logging, emit.
  unfold bind at 1. rewrite score_loop_run by done.
  cbn [app ticks heap next_loc trace files].
  unfold bind at 1.
  rewrite sorted_by_score_reverse_run by apply scored_all_some.
  reflexivity.
Qed.

(** The call made from an importing module: the record is logged, then the
    first reading of [datetime] raises, before any paper has a score. *)
Lemma rank_imported_run E w papers :
  ranker_is_main E = false ->
  papers <> [] ->
  rank_papers papers "simple" E w =
  (Raised (NameError "datetime"),
   World (ticks w) (heap w) (next_loc w)
         (trace w ++ [ranking_record papers "simple"]) (files w)).
Proof.
  intros Hmain Hne. unfold rank_papers.
  rewrite bool_decide_eq_false_2 by done.
  rewrite bool_decide_eq_true_2 by done.
  unfold bind at 1. unfold logging, emit.
  unfold bind at 1. by rewrite score_loop_imported.
Qed.

Lemma rank_unknown_run E w papers strategy :
  papers <> [] -> strategy <> "simple" ->
  rank_papers papers strategy E w =
  (Returned papers,
   World (ticks w) (heap w) (next_loc w)
         (trace w ++ [ranking_record papers strategy;
                      Logged ERROR [Lit "Unknown ranking strategy: "; Str strategy]])
         (files w)).
Proof.
  intros Hne Hs. unfold rank_papers.
  rewrite bool_decide_eq_false_2 by done.
  rewrite bool_decide_eq_false_2 by done.
  unfold bind, logging, emit, ret. cbn. by rewrite <- app_assoc.
Qed.

(** C1, at the input on which the code departs from it.  [rank_papers] is
    written to give every candidate the score [max(0, 30 - age_in_days)],
    but it reads the clock through the name [datetime], which
    paper_ranker.py binds only when it is run as the script.  Called from a
    module that imports it, as main.py does, with a non-empty list and the
    ['simple'] strategy, it logs its record and raises [NameError] at the
    first candidate: no candidate is given a score, not even one of age 0. *)
Theorem C1_imported_ranker_scores_nothing E w papers :
  ranker_is_main E = false ->
  papers <> [] ->
  rank_papers papers "simple" E w =
    (Raised (NameError "datetime"),
     World (ticks w) (heap w) (next_loc w)
           (trace w ++ [ranking_record papers "simple"]) (files w)) /\
  forall p, score (heap (rank_papers papers "simple" E w).2 p) = score (heap w p).
Proof.
  intros Hmain Hne. by rewrite rank_imported_run.
Qed.

Lemma C1_imported_ranker_scores_nothing_witness :
  ranker_is_main (fixtures.imported fixtures.env0) = false /\
  [0%nat] <> [] /\
  fixtures.imported_run =
    (Raised (NameError "datetime"),
     World 0 fixtures.heap3 3
           [ranking_record [0%nat] "simple"] ∅) /\
  published (fixtures.heap3 0%nat) = clock (fixtures.imported fixtures.env0) 0 /\
  score (heap fixtures.imported_run.2 0%nat) = None.
Proof.
  assert (H1 : ranker_is_main (fixtures.imported fixtures.env0) = false)
    by reflexivity.
  assert (H2 : [0%nat] <> []) by discriminate.
  split; [exact H1|]. split; [exact H2|].
  destruct (C1_imported_ranker_scores_nothing (fixtures.imported fixtures.env0)
              (fixtures.world_of fixtures.heap3) [0%nat] H1 H2) as [Hrun Hscore].
  split; [exact Hrun|]. split; [reflexivity|].
  exact (Hscore 0%nat).
Defined.

(** The three ages of the design document, run as the script runs them:
    papers published 0, 30 and 45 days before the clock score 30, 0 and 0. *)
Example ages_run_scores :
  fixtures.ages_run.1 = Returned [0; 1; 2]%nat /\
  score (heap fixtures.ages_run.2 0%nat) = Some 30 /\
  score (heap fixtures.ages_run.2 1%nat) = Some 0 /\
  score (heap fixtures.ages_run.2 2%nat) = Some 0.
Proof. by vm_compute. Qed.

(** C10, at the input on which the code departs from it.  Called from a
    module that imports paper_ranker.py, with a non-empty list and the
    ['simple'] strategy, [rank_papers] hands no list back at all, so no
    permutation of its input: the [NameError] of the unbound name
    [datetime] leaves the call, and the papers are as they were. *)
Theorem C10_imported_ranker_returns_no_list E w papers :
  ranker_is_main E = false ->
  papers <> [] ->
  (forall ranked, (rank_papers papers "simple" E w).1 <> Returned ranked) /\
  (rank_papers papers "simple" E w).1 = Raised (NameError "datetime") /\
  heap (rank_papers papers "simple" E w).2 = heap w.
Proof.
  intros Hmain Hne. by rewrite rank_imported_run.
Qed.

Lemma C10_imported_ranker_returns_no_list_witness :
  ranker_is_main (fixtures.imported fixtures.env0) = false /\
  [0; 1; 2]%nat <> [] /\
  (forall ranked,
     (rank_papers [0; 1; 2]%nat "simple" (fixtures.imported fixtures.env0)
        (fixtures.world_of fixtures.heap3)).1 <> Returned ranked) /\
  (rank_papers [0; 1; 2]%nat "simple" (fixtures.imported fixtures.env0)
     (fixtures.world_of fixtures.heap3)).1 = Raised (NameError "datetime").
Proof.
  assert (H1 : ranker_is_main (fixtures.imported fixtures.env0) = false)
    by reflexivity.
  assert (H2 : [0; 1; 2]%nat <> []) by discriminate.
  split; [exact H1|]. split; [exact H2|].
  destruct (C10_imported_ranker_returns_no_list (fixtures.imported fixtures.env0)
              (fixtures.world_of fixtures.heap3) [0; 1; 2]%nat H1 H2)
    as (Ha & Hb & _).
  split; [exact Ha|exact Hb].
Defined.

(** C4, as the code has it by design.  Where the call gets to its scoring
    (the name [datetime] is bound: paper_ranker.py run as the script), the
    list returned under the ['simple'] strategy is non-increasing in score,
    and candidates of equal score keep the order they had in the input: the
    sort is stable and looks at the score only, neither at [updated] nor at
    an identifier. *)
Theorem C4_rank_descending_stable E w papers :
  ranker_is_main E = true ->
  exists ranked,
    (rank_papers papers "simple" E w).1 = Returned ranked /\
    Forall (fun p => is_Some (score (heap (rank_papers papers "simple" E w).2 p)))
           ranked /\
    StronglySorted
      (fun a b => final_score (heap (rank_papers papers "simple" E w).2) b
                  <= final_score (heap (rank_papers papers "simple" E w).2) a)
      ranked /\
    forall s,
      filter (fun p => final_score (heap (rank_papers papers "simple" E w).2) p = s)
             ranked =
      filter (fun p => final_score (heap (rank_papers papers "simple" E w).2) p = s)
             papers.
Proof.
  intros Hmain. destruct papers as [|p0 rest].
  - exists []. rewrite rank_empty_run. repeat split; by constructor.
  - set (papers := p0 :: rest).
    rewrite rank_simple_run by done. cbn [fst snd heap].
    eexists. split; [done|]. split; [|split].
    + rewrite ranked_perm. apply scored_all_some.
    + apply ranked_descending.
    + intros s. apply ranked_stable.
Qed.

Lemma C4_rank_descending_stable_witness :
  ranker_is_main fixtures.env0 = true /\
  exists ranked,
    fixtures.tie_run.1 = Returned ranked /\
    StronglySorted
      (fun a b => final_score (heap fixtures.tie_run.2) b
                  <= final_score (heap fixtures.tie_run.2) a)
      ranked.
Proof.
  assert (H : ranker_is_main fixtures.env0 = true) by reflexivity.
  split; [exact H|].
  destruct (C4_rank_descending_stable fixtures.env0
              (fixtures.world_of fixtures.heap_tie) [0; 1]%nat H)
    as (ranked & H1 & _ & H2 & _).
  exists ranked. split; [exact H1|exact H2].
Defined.

(** C4 fails as stated: run as the script, of two candidates with the same
    score the one updated earlier stays first when it came first. *)
Lemma C4_counterexample :
  fixtures.tie_run.1 = Returned [0; 1]%nat /\
  score (heap fixtures.tie_run.2 0%nat) = score (heap fixtures.tie_run.2 1%nat) /\
  updated (heap fixtures.tie_run.2 0%nat) < updated (heap fixtures.tie_run.2 1%nat) /\
  ~ spec.in_rank_order (heap fixtures.tie_run.2) 0%nat 1%nat.
Proof.
  repeat split; try by vm_compute.
  unfold spec.in_rank_order.
  replace (score (heap fixtures.tie_run.2 0%nat)) with (Some 29) by by vm_compute.
  replace (score (heap fixtures.tie_run.2 1%nat)) with (Some 29) by by vm_compute.
  replace (updated (heap fixtures.tie_run.2 0%nat)) with (99 * usec_per_day)
    by by vm_compute.
  replace (updated (heap fixtures.tie_run.2 1%nat)) with (100 * usec_per_day)
    by by vm_compute.
  unfold usec_per_day. lia.
Qed.

(** C5, as the code has it.  Called with a non-empty list and a strategy
    other than ['simple'], [rank_papers] scores nothing and sorts nothing:
    it logs an ERROR record naming the strategy and returns the input list
    as its ordinary result; nothing is raised.  Called with an empty list it
    returns the empty list after a warning, whatever the strategy. *)
Theorem C5_unknown_strategy_passes_through E w papers strategy :
  strategy <> "simple" ->
  papers <> [] ->
  rank_papers papers strategy E w =
    (Returned papers,
     World (ticks w) (heap w) (next_loc w)
           (trace w ++ [ranking_record papers strategy;
                        Logged ERROR [Lit "Unknown ranking strategy: "; Str strategy]])
           (files w)) /\
  rank_papers [] strategy E w = rank_papers [] "simple" E w.
Proof.
  intros Hs Hne. split; [by apply rank_unknown_run|].
  by rewrite !rank_empty_run.
Qed.

Lemma C5_unknown_strategy_passes_through_witness :
  "llm-based" <> "simple" /\ [0; 1; 2]%nat <> [] /\
  rank_papers [0; 1; 2]%nat "llm-based" fixtures.env0 (fixtures.world_of fixtures.heap3) =
    (Returned [0; 1; 2]%nat,
     World (ticks (fixtures.world_of fixtures.heap3))
           (heap (fixtures.world_of fixtures.heap3))
           (next_loc (fixtures.world_of fixtures.heap3))
           (trace (fixtures.world_of fixtures.heap3) ++
              [ranking_record [0; 1; 2]%nat "llm-based";
               Logged ERROR [Lit "Unknown ranking strategy: "; Str "llm-based"]])
           (files (fixtures.world_of fixtures.heap3))) /\
  rank_papers [] "llm-based" fixtures.env0 (fixtures.world_of fixtures.heap3) =
  rank_papers [] "simple" fixtures.env0 (fixtures.world_of fixtures.heap3).
Proof.
  assert (H1 : "llm-based" <> "simple") by discriminate.
  assert (H2 : [0; 1; 2]%nat <> []) by discriminate.
  split; [exact H1|]. split; [exact H2|].
  exact (C5_unknown_strategy_passes_through fixtures.env0
           (fixtures.world_of fixtures.heap3) [0; 1; 2]%nat "llm-based" H1 H2).
Defined.

(** C5 fails as stated: with an empty list an unknown strategy is not
    reported at all, the call is the very call ['simple'] makes; with a
    non-empty list the caller gets an ordinary return value, the unranked
    input. *)
Lemma C5_counterexample :
  rank_papers [] "llm-based" fixtures.env0 (fixtures.world_of fixtures.heap3) =
  rank_papers [] "simple" fixtures.env0 (fixtures.world_of fixtures.heap3) /\
  filter (fun ev => fixtures.is_error_record ev = true)
    (trace (rank_papers [] "llm-based" fixtures.env0
              (fixtures.world_of fixtures.heap3)).2) = [] /\
  (rank_papers [0; 1; 2]%nat "llm-based" fixtures.env0
     (fixtures.world_of fixtures.heap3)).1 = Returned [0; 1; 2]%nat.
Proof. repeat split; by vm_compute. Qed.

End rank_papers_facts.

Section select_top_paper_facts.
Import paper_ranker.

Lemma select_run E w ranked_papers top_n :
  0 <= top_n ->
  (select_top_paper ranked_papers top_n E w).1 =
  Returned (take (Z.to_nat top_n) ranked_papers).
Proof.
  intros Hn. unfold select_top_paper.
  destruct ranked_papers as [|p rest].
  - by rewrite take_nil.
  - rewrite bool_decide_eq_false_2 by done.
    unfold ret, slice_to; simpl.
    by destruct (Z.leb_spec 0 top_n); [|lia].
Qed.

(** C3, as the code has it.  For a positive [top_n], [select_top_paper]
    returns the first [top_n] entries of the ranked list, whatever the length
    of their abstracts: no minimum length is applied, nothing is skipped (it
    is the selection of the design document at [minAbstractLength = 0]), and
    no paper is changed. *)
Theorem C3_select_takes_prefix E w ranked_papers top_n :
  0 < top_n ->
  (select_top_paper ranked_papers top_n E w).1 =
    Returned (take (Z.to_nat top_n) ranked_papers) /\
  take (Z.to_nat top_n) ranked_papers =
    spec.select (heap w) ranked_papers (Z.to_nat top_n) 0 /\
  heap (select_top_paper ranked_papers top_n E w).2 = heap w.
Proof.
  intros Hn. split; [apply select_run; lia|]. split.
  - unfold spec.select. f_equal.
    induction ranked_papers as [|p rest IH]; [done|].
    rewrite filter_cons. destruct (decide _) as [_|Hno]; [by f_equal|].
    exfalso. apply Hno. lia.
  - unfold select_top_paper. by destruct ranked_papers.
Qed.

Lemma C3_select_takes_prefix_witness :
  0 < 1 /\
  (select_top_paper [0; 1]%nat 1 fixtures.env0
     (fixtures.world_of fixtures.heap_short_first)).1 =
    Returned (take (Z.to_nat 1) [0; 1]%nat) /\
  take (Z.to_nat 1) [0; 1]%nat =
    spec.select (heap (fixtures.world_of fixtures.heap_short_first))
      [0; 1]%nat (Z.to_nat 1) 0 /\
  heap (select_top_paper [0; 1]%nat 1 fixtures.env0
          (fixtures.world_of fixtures.heap_short_first)).2 =
  heap (fixtures.world_of fixtures.heap_short_first).
Proof.
  assert (H : 0 < 1) by lia.
  split; [exact H|].
  exact (C3_select_takes_prefix fixtures.env0
           (fixtures.world_of fixtures.heap_short_first) [0; 1]%nat 1 H).
Defined.

(** C3 fails as stated: with [top_n = 1] and a minimum length of 50 the
    design document selects the second candidate, while the code returns the
    first, whose abstract has 10 characters. *)
Lemma C3_counterexample :
  String.length (summary (fixtures.heap_short_first 0%nat)) = 10%nat /\
  String.length (summary (fixtures.heap_short_first 1%nat)) = 60%nat /\
  spec.select fixtures.heap_short_first [0; 1]%nat 1 50 = [1%nat] /\
  fixtures.short_first_run.1 = Returned [0%nat] /\
  fixtures.short_first_run.1 <>
    Returned (spec.select fixtures.heap_short_first [0; 1]%nat 1 50).
Proof. repeat split; try by vm_compute. Qed.

End select_top_paper_facts.

(** ** The time-window filter *)

Section filter_facts.
Import arxiv_scrapper.

Lemma in_timeframe_run E w cutoff_date p :
  in_timeframe cutoff_date p E w =
  (Returned (bool_decide (cutoff_date < published (heap w p) \/
                          cutoff_date < updated (heap w p))), w).
Proof.
  unfold in_timeframe, bind, getitem, ret.
  destruct (Z.ltb_spec cutoff_date (published (heap w p))) as [H1|H1].
  - by rewrite bool_decide_eq_true_2 by (by left).
  - f_equal. f_equal.
    destruct (Z.ltb_spec cutoff_date (updated (heap w p))) as [H2|H2].
    + by rewrite bool_decide_eq_true_2 by (by right).
    + rewrite bool_decide_eq_false_2; [done|]. intros [?|?]; lia.
Qed.

Lemma comprehension_run E w cutoff_date papers :
  comprehension (in_timeframe cutoff_date) papers E w =
  (Returned (filter (fun p => cutoff_date < published (heap w p) \/
                              cutoff_date < updated (heap w p)) papers), w).
Proof.
  induction papers as [|p rest IH]; [done|].
  cbn [comprehension]. unfold bind at 1. rewrite in_timeframe_run.
  unfold bind at 1. rewrite IH. unfold ret.
  rewrite filter_cons. f_equal. f_equal.
  destruct (decide _) as [H|H].
  - by rewrite bool_decide_eq_true_2.
  - by rewrite bool_decide_eq_false_2.
Qed.

(** The call where the cutoff is a [datetime]. *)
Lemma filter_run E w papers days :
  Z.abs days <= 999999999 ->
  is_datetime (clock E (ticks w) - usec_of_days days) = true ->
  filter_papers_by_timeframe papers days E w =
  (Returned (filter (spec.retained (heap w) (clock E (ticks w)) days) papers),
   World (S (ticks w)) (heap w) (next_loc w)
     (trace w ++
      [Printed [Lit "Filtered to ";
                Int (Z.of_nat (length
                  (filter (spec.retained (heap w) (clock E (ticks w)) days) papers)));
                Lit " papers published in the last "; Int days; Lit " days."]])
     (files w)).
Proof.
  intros Hdays Hcut. unfold filter_papers_by_timeframe.
  unfold bind at 1. unfold datetime_now.
  unfold bind at 1. unfold timedelta.
  destruct (Z.leb_spec (Z.abs days) 999999999) as [_|?]; [|lia].
  unfold ret at 1.
  unfold bind at 1. unfold datetime_sub. rewrite Hcut. unfold ret at 1.
  unfold bind at 1. rewrite comprehension_run. cbn [heap].
  reflexivity.
Qed.

(** The call where it is not: the clock has been read, nothing else done. *)
Lemma filter_overflow_run E w papers days :
  999999999 < Z.abs days \/
  is_datetime (clock E (ticks w) - usec_of_days days) = false ->
  filter_papers_by_timeframe papers days E w =
  (Raised OverflowError,
   World (S (ticks w)) (heap w) (next_loc w) (trace w) (files w)).
Proof.
  intros Hbad. unfold filter_papers_by_timeframe.
  unfold bind at 1. unfold datetime_now.
  unfold bind at 1. unfold timedelta.
  destruct (Z.leb_spec (Z.abs days) 999999999) as [Hin|Hout]; [|done].
  unfold ret at 1.
  unfold bind at 1. unfold datetime_sub.
  destruct (is_datetime _) eqn:Hcut; [|done].
  destruct Hbad as [?|?]; [lia|congruence].
Qed.

(** C2, as the code has it.  For every list of candidates and every window
    whose cutoff [now - window] is a [datetime] (the window is a
    [timedelta], and the cutoff does not fall before year 1 or after year
    9999), the filter returns exactly the candidates with [published > now -
    window] or [updated > now - window], in the order of the input, where
    [now] is the one reading of the clock the call makes; the result is a
    sublist of the input, no paper is changed, and an empty input gives an
    empty output. *)
Theorem C2_filter_keeps_the_recent E w papers days :
  Z.abs days <= 999999999 ->
  is_datetime (clock E (ticks w) - usec_of_days days) = true ->
  (filter_papers_by_timeframe papers days E w).1 =
    Returned (filter (fun p =>
                clock E (ticks w) - usec_of_days days < published (heap w p) \/
                clock E (ticks w) - usec_of_days days < updated (heap w p)) papers) /\
  filter (fun p =>
            clock E (ticks w) - usec_of_days days < published (heap w p) \/
            clock E (ticks w) - usec_of_days days < updated (heap w p)) papers
    `sublist_of` papers /\
  ticks (filter_papers_by_timeframe papers days E w).2 = S (ticks w) /\
  heap (filter_papers_by_timeframe papers days E w).2 = heap w /\
  (filter_papers_by_timeframe [] days E w).1 = Returned [].
Proof.
  intros Hdays Hcut. rewrite !filter_run by done. cbn [fst snd ticks heap].
  repeat split; try done. apply sublist_filter.
Qed.

Lemma C2_filter_keeps_the_recent_witness :
  Z.abs 7 <= 999999999 /\
  is_datetime (clock fixtures.env0 (ticks (fixtures.world_of fixtures.heap3))
               - usec_of_days 7) = true /\
  (filter_papers_by_timeframe [0; 1; 2]%nat 7 fixtures.env0
     (fixtures.world_of fixtures.heap3)).1 =
    Returned (filter (fun p =>
                clock fixtures.env0 (ticks (fixtures.world_of fixtures.heap3))
                  - usec_of_days 7
                < published (heap (fixtures.world_of fixtures.heap3) p) \/
                clock fixtures.env0 (ticks (fixtures.world_of fixtures.heap3))
                  - usec_of_days 7
                < updated (heap (fixtures.world_of fixtures.heap3) p))
              [0; 1; 2]%nat).
Proof.
  assert (H1 : Z.abs 7 <= 999999999) by (cbn; lia).
  assert (H2 : is_datetime
                 (clock fixtures.env0 (ticks (fixtures.world_of fixtures.heap3))
                  - usec_of_days 7) = true) by (by vm_compute).
  split; [exact H1|]. split; [exact H2|].
  exact (proj1 (C2_filter_keeps_the_recent fixtures.env0
                  (fixtures.world_of fixtures.heap3) [0; 1; 2]%nat 7 H1 H2)).
Defined.

(** C2 fails as stated: not every window is answered, and an empty input
    does not always yield an empty output.  With a window of a million days
    the cutoff falls before year 1, and the call raises [OverflowError],
    on no paper at all. *)
Lemma C2_counterexample :
  is_datetime (clock fixtures.env0 0) = true /\
  Z.abs 1000000 <= 999999999 /\
  clock fixtures.env0 0 - usec_of_days 1000000 < 0 /\
  fixtures.wide_window_run.1 = Raised OverflowError /\
  fixtures.wide_window_run.1 <> Returned [].
Proof. repeat split; by vm_compute. Qed.

End filter_facts.

(** ** The candidate source *)

Section fetch_facts.
Import arxiv_scrapper.

Lemma try_except_returns {A} (m : M A) (h : exn -> M A) E w :
  (forall e w', exists a, (h e E w').1 = Returned a) ->
  exists a, (try_except m h E w).1 = Returned a.
Proof.
  intros Hh. unfold try_except.
  destruct (m E w) as [[a|e] w']; [by exists a|].
  apply Hh.
Qed.

Lemma fetch_never_raises E w query max_results sort_by :
  exists papers,
    (fetch_recent_papers query max_results sort_by E w).1 = Returned papers.
Proof.
  unfold fetch_recent_papers. unfold bind at 1. unfold print, emit.
  apply try_except_returns. intros e w'. by exists [].
Qed.

Lemma fetch_failure_run E w query max_results sort_by e :
  source_failure E (arxiv_url query max_results sort_by) = Some e ->
  fetch_recent_papers query max_results sort_by E w =
  (Returned [],
   World (ticks w) (heap w) (next_loc w)
     (trace w ++
      [Printed [Lit "Fetching papers with query: "; Str query; Lit "..."];
       FeedRequest (arxiv_url query max_results sort_by);
       Printed [Lit "An error occurred: "; Exc e]])
     (files w)).
Proof.
  unfold source_failure, arxiv_url. intros Hf.
  unfold fetch_recent_papers, try_except, bind, feedparser, print, emit, ret,
    raise. cbn.
  destruct (feedparser_parse E _) as [f|e'] eqn:Hp.
  - destruct (bozo f); [|done]. injection Hf as <-.
    cbn. by rewrite <- !app_assoc.
  - injection Hf as <-. cbn. by rewrite <- !app_assoc.
Qed.

Lemma fetch_empty_feed_run E w query max_results sort_by :
  feedparser_parse E (arxiv_url query max_results sort_by) = Returned (Feed false []) ->
  fetch_recent_papers query max_results sort_by E w =
  (Returned [],
   World (ticks w) (heap w) (next_loc w)
     (trace w ++
      [Printed [Lit "Fetching papers with query: "; Str query; Lit "..."];
       FeedRequest (arxiv_url query max_results sort_by)])
     (files w)).
Proof.
  unfold arxiv_url. intros Hp.
  unfold fetch_recent_papers, try_except, bind, feedparser, print, emit, ret,
    raise. cbn.
  rewrite Hp. cbn. by rewrite <- !app_assoc.
Qed.

(** C6, as the code has it.  For every query, limit and sort order the
    fetch never raises.  When the source is unavailable (the request raises
    or the feed is flagged unparsable) it prints "An error occurred: ..." and
    returns the empty list as its ordinary result, which is also what it
    returns for a reachable source with no entries: nothing the caller
    receives tells the two apart. *)
Theorem C6_fetch_failure_returns_empty E E' w query max_results sort_by e :
  source_failure E (arxiv_url query max_results sort_by) = Some e ->
  feedparser_parse E' (arxiv_url query max_results sort_by) = Returned (Feed false []) ->
  (exists papers,
     (fetch_recent_papers query max_results sort_by E w).1 = Returned papers) /\
  fetch_recent_papers query max_results sort_by E w =
    (Returned [],
     World (ticks w) (heap w) (next_loc w)
       (trace w ++
        [Printed [Lit "Fetching papers with query: "; Str query; Lit "..."];
         FeedRequest (arxiv_url query max_results sort_by);
         Printed [Lit "An error occurred: "; Exc e]])
       (files w)) /\
  (fetch_recent_papers query max_results sort_by E w).1 =
  (fetch_recent_papers query max_results sort_by E' w).1.
Proof.
  intros Hf He. split; [apply fetch_never_raises|]. split.
  - by apply fetch_failure_run.
  - rewrite (fetch_failure_run _ _ _ _ _ _ Hf).
    by rewrite (fetch_empty_feed_run _ _ _ _ _ He).
Qed.

Lemma C6_fetch_failure_returns_empty_witness :
  source_failure fixtures.env_down (arxiv_url "reinforcement learning" 10 "relevance")
    = Some (Exception "Temporary failure in name resolution") /\
  feedparser_parse fixtures.env0 (arxiv_url "reinforcement learning" 10 "relevance")
    = Returned (Feed false []) /\
  (exists papers,
     (fetch_recent_papers "reinforcement learning" 10 "relevance"
        fixtures.env_down (fixtures.world_of fixtures.heap3)).1 = Returned papers) /\
  fetch_recent_papers "reinforcement learning" 10 "relevance"
      fixtures.env_down (fixtures.world_of fixtures.heap3) =
    (Returned [],
     World (ticks (fixtures.world_of fixtures.heap3))
       (heap (fixtures.world_of fixtures.heap3))
       (next_loc (fixtures.world_of fixtures.heap3))
       (trace (fixtures.world_of fixtures.heap3) ++
        [Printed [Lit "Fetching papers with query: ";
                  Str "reinforcement learning"; Lit "..."];
         FeedRequest (arxiv_url "reinforcement learning" 10 "relevance");
         Printed [Lit "An error occurred: ";
                  Exc (Exception "Temporary failure in name resolution")]])
       (files (fixtures.world_of fixtures.heap3))) /\
  (fetch_recent_papers "reinforcement learning" 10 "relevance"
     fixtures.env_down (fixtures.world_of fixtures.heap3)).1 =
  (fetch_recent_papers "reinforcement learning" 10 "relevance"
     fixtures.env0 (fixtures.world_of fixtures.heap3)).1.
Proof.
  assert (H1 : source_failure fixtures.env_down
                 (arxiv_url "reinforcement learning" 10 "relevance")
               = Some (Exception "Temporary failure in name resolution"))
    by reflexivity.
  assert (H2 : feedparser_parse fixtures.env0
                 (arxiv_url "reinforcement learning" 10 "relevance")
               = Returned (Feed false [])) by reflexivity.
  split; [exact H1|]. split; [exact H2|].
  exact (C6_fetch_failure_returns_empty fixtures.env_down fixtures.env0
           (fixtures.world_of fixtures.heap3) "reinforcement learning" 10
           "relevance" _ H1 H2).
Defined.

(** C6 fails as stated: no function of what the caller receives signals the
    unavailable source, because the fetch answers a source that is down with
    the value it gives for a source that is up and has nothing. *)
Lemma C6_counterexample :
  ~ exists signal : outcome (list loc) -> bool,
      forall E,
        signal (fetch_recent_papers "reinforcement learning" 10 "relevance" E
                  (fixtures.world_of fixtures.heap3)).1 = true <->
        is_Some (source_failure E (arxiv_url "reinforcement learning" 10 "relevance")).
Proof.
  intros [signal Hsig].
  pose proof (Hsig fixtures.env_down) as [_ Hdown].
  pose proof (Hsig fixtures.env0) as [Hup _].
  assert (Hsame :
    (fetch_recent_papers "reinforcement learning" 10 "relevance" fixtures.env_down
       (fixtures.world_of fixtures.heap3)).1 =
    (fetch_recent_papers "reinforcement learning" 10 "relevance" fixtures.env0
       (fixtures.world_of fixtures.heap3)).1) by reflexivity.
  rewrite Hsame in Hdown.
  destruct Hup as [x Hx].
  - apply Hdown. by eexists.
  - discriminate Hx.
Qed.

End fetch_facts.

(** ** The script synthesizer *)

Section synthesizer_facts.
Import llm_podcaster.

Lemma config_get_run (cfg : config) section option v E w :
  config_value E cfg section option = Returned v ->
  config_get cfg section option E w = (Returned v, w).
Proof. intros H. unfold config_get. by rewrite H. Qed.

Lemma config_get_raised (cfg : config) section option e E w :
  config_value E cfg section option = Raised e ->
  config_get cfg section option E w = (Raised e, w).
Proof. intros H. unfold config_get. by rewrite H. Qed.

(** An option stored without a '%' is read as it is stored. *)
Lemma config_value_plain E (cfg : config) section option v :
  option_of cfg section option = Some v ->
  has_percent v = false ->
  config_value E cfg section option = Returned v.
Proof.
  unfold option_of, config_value. intros H Hp.
  destruct (cfg !! section) as [opts|]; [|done]. by rewrite H, Hp.
Qed.

(** The run of [generate_podcast_script] once the model is loaded and the
    temporary file can be written: whatever the service does, the call
    returns. *)
Lemma generate_podcast_script_run E w paper (cfg : config) model_path :
  config_value E cfg "llm" "model_path" = Returned model_path ->
  llama_load E model_path = Returned tt ->
  writable E "temp_paper_content.txt" = true ->
  generate_podcast_script paper cfg E w =
  match llama_query E (text_content (heap w paper)) prompt with
  | Returned raw =>
      (Returned raw,
       World (ticks w) (heap w) (next_loc w)
         (trace w ++ [generating_record (heap w paper);
                      LlmQuery (text_content (heap w paper)) prompt])
         (delete "temp_paper_content.txt"
            (<["temp_paper_content.txt" := text_content (heap w paper)]> (files w))))
  | Raised e =>
      (Returned "",
       World (ticks w) (heap w) (next_loc w)
         (trace w ++ [generating_record (heap w paper);
                      LlmQuery (text_content (heap w paper)) prompt;
                      Logged ERROR [Lit "Failed to generate podcast script: "; Exc e]])
         (delete "temp_paper_content.txt"
            (<["temp_paper_content.txt" := text_content (heap w paper)]> (files w))))
  end.
Proof.
  intros Hc Hl Hw. unfold generate_podcast_script.
  unfold bind at 1. unfold getitem at 1.
  unfold bind at 1. unfold logging, emit at 1.
  unfold bind at 1. erewrite config_get_run by done.
  unfold bind at 1. unfold LlamaCPP. rewrite Hl.
  unfold bind at 1. unfold getitem at 1. cbn [heap].
  unfold bind at 1. unfold getitem at 1. cbn [heap].
  unfold try_finally, try_except, bind, write_file, read_file,
    query_engine_query, emit, logging, emit, path_exists, os_remove, ret.
  rewrite Hw. run_world. unfold bind. run_world.
  fold (text_content (heap w paper)).
  destruct (llama_query E (text_content (heap w paper)) prompt) as [raw|e];
    run_world; rewrite ?Hw; unfold generating_record; by rewrite <- !app_assoc.
Qed.

(** C7, as the code has it.  With the model loaded ([config.get] has
    returned the model path and [LlamaCPP] the model), when the generation
    service raises (an error, a timeout), [generate_podcast_script] logs an
    ERROR record and returns the empty string as its ordinary result; when
    the service answers, its text is returned as it came, unparsed and
    unchecked.  No exception reaches the caller in either case. *)
Theorem C7_script_is_raw_text_or_empty E w paper (cfg : config) model_path :
  config_value E cfg "llm" "model_path" = Returned model_path ->
  llama_load E model_path = Returned tt ->
  writable E "temp_paper_content.txt" = true ->
  (forall e,
     llama_query E (text_content (heap w paper)) prompt = Raised e ->
     (generate_podcast_script paper cfg E w).1 = Returned "" /\
     last (trace (generate_podcast_script paper cfg E w).2) =
       Some (Logged ERROR [Lit "Failed to generate podcast script: "; Exc e])) /\
  (forall raw,
     llama_query E (text_content (heap w paper)) prompt = Returned raw ->
     (generate_podcast_script paper cfg E w).1 = Returned raw) /\
  exists script, (generate_podcast_script paper cfg E w).1 = Returned script.
Proof.
  intros Hc Hl Hw.
  rewrite (generate_podcast_script_run E w paper cfg model_path Hc Hl Hw).
  destruct (llama_query E (text_content (heap w paper)) prompt) as [raw|e].
  - split; [by intros e [=]|]. split; [by intros ? [= <-]|]. by eexists.
  - split; [|split; [by intros raw [=]|by eexists]].
    intros e' [= <-]. split; [done|].
    cbn [snd trace].
    match goal with
    | |- last (?t ++ [?a; ?b; ?c]) = _ =>
        change (last (t ++ [a; b] ++ [c]) = Some c)
    end.
    by rewrite app_assoc, last_snoc.
Qed.

Lemma C7_script_is_raw_text_or_empty_witness :
  config_value (fixtures.with_llm (Returned fixtures.prose)) fixtures.settings
    "llm" "model_path" = Returned "models/llama-3.gguf" /\
  llama_load (fixtures.with_llm (Returned fixtures.prose)) "models/llama-3.gguf"
    = Returned tt /\
  writable (fixtures.with_llm (Returned fixtures.prose)) "temp_paper_content.txt" = true /\
  (forall e,
     llama_query (fixtures.with_llm (Returned fixtures.prose))
       (text_content (heap (fixtures.world_of fixtures.heap3) 0%nat)) prompt = Raised e ->
     (generate_podcast_script 0%nat fixtures.settings
        (fixtures.with_llm (Returned fixtures.prose))
        (fixtures.world_of fixtures.heap3)).1 = Returned "" /\
     last (trace (generate_podcast_script 0%nat fixtures.settings
                    (fixtures.with_llm (Returned fixtures.prose))
                    (fixtures.world_of fixtures.heap3)).2) =
       Some (Logged ERROR [Lit "Failed to generate podcast script: "; Exc e])) /\
  (forall raw,
     llama_query (fixtures.with_llm (Returned fixtures.prose))
       (text_content (heap (fixtures.world_of fixtures.heap3) 0%nat)) prompt
       = Returned raw ->
     (generate_podcast_script 0%nat fixtures.settings
        (fixtures.with_llm (Returned fixtures.prose))
        (fixtures.world_of fixtures.heap3)).1 = Returned raw) /\
  exists script,
    (generate_podcast_script 0%nat fixtures.settings
       (fixtures.with_llm (Returned fixtures.prose))
       (fixtures.world_of fixtures.heap3)).1 = Returned script.
Proof.
  assert (H1 : config_value (fixtures.with_llm (Returned fixtures.prose))
                 fixtures.settings "llm" "model_path"
               = Returned "models/llama-3.gguf") by (by vm_compute).
  assert (H3 : llama_load (fixtures.with_llm (Returned fixtures.prose))
                 "models/llama-3.gguf" = Returned tt) by reflexivity.
  assert (H4 : writable (fixtures.with_llm (Returned fixtures.prose))
                 "temp_paper_content.txt" = true) by reflexivity.
  split; [exact H1|]. split; [exact H3|]. split; [exact H4|].
  exact (C7_script_is_raw_text_or_empty (fixtures.with_llm (Returned fixtures.prose))
           (fixtures.world_of fixtures.heap3) 0%nat fixtures.settings _ H1 H3 H4).
Defined.

(** C7 fails as stated.  A service that times out makes the call return the
    empty string, an ordinary value and the one a service answering with
    nothing gives; and prose that names no speaker at all, which no parser
    can turn into a Script, is handed back as the script. *)
Lemma C7_counterexample :
  ~ spec.generation_failed
      (generate_podcast_script 0%nat fixtures.settings
         (fixtures.with_llm (Raised (Exception "timed out")))
         (fixtures.world_of fixtures.heap3)).1 /\
  (generate_podcast_script 0%nat fixtures.settings
     (fixtures.with_llm (Raised (Exception "timed out")))
     (fixtures.world_of fixtures.heap3)).1 = Returned "" /\
  (generate_podcast_script 0%nat fixtures.settings
     (fixtures.with_llm (Returned ""))
     (fixtures.world_of fixtures.heap3)).1 = Returned "" /\
  spec.attributable fixtures.prose = false /\
  (generate_podcast_script 0%nat fixtures.settings
     (fixtures.with_llm (Returned fixtures.prose))
     (fixtures.world_of fixtures.heap3)).1 = Returned fixtures.prose /\
  ~ spec.generation_failed
      (generate_podcast_script 0%nat fixtures.settings
         (fixtures.with_llm (Returned fixtures.prose))
         (fixtures.world_of fixtures.heap3)).1.
Proof.
  assert (Hdown :
    (generate_podcast_script 0%nat fixtures.settings
       (fixtures.with_llm (Raised (Exception "timed out")))
       (fixtures.world_of fixtures.heap3)).1 = Returned "") by (by vm_compute).
  assert (Hprose :
    (generate_podcast_script 0%nat fixtures.settings
       (fixtures.with_llm (Returned fixtures.prose))
       (fixtures.world_of fixtures.heap3)).1 = Returned fixtures.prose)
    by (by vm_compute).
  rewrite Hdown, Hprose. repeat split; try (by vm_compute); by intros [].
Qed.

End synthesizer_facts.

(** ** The audio renderer *)

Section renderer_facts.
Import script_to_audio.

Lemma voice_mapping_lookup k1 k2 k3 k :
  k = k1 \/ k = k2 \/ k = k3 ->
  voice_mapping k1 k2 k3 !! k = Some (voice_of k1 k2 k3 k).
Proof.
  intros Hk. unfold voice_of.
  assert (His : is_Some (voice_mapping k1 k2 k3 !! k)).
  { unfold voice_mapping. rewrite !lookup_insert_is_Some.
    destruct (decide (k3 = k)); [by left|right; split; [done|]].
    destruct (decide (k2 = k)); [by left|right; split; [done|]].
    left. destruct Hk as [-> | [-> | ->]]; done. }
  destruct His as [v ->]. done.
Qed.

Lemma dict_getitem_voice k1 k2 k3 k E w :
  k = k1 \/ k = k2 \/ k = k3 ->
  dict_getitem (voice_mapping k1 k2 k3) k E w =
  (Returned (voice_of k1 k2 k3 k), w).
Proof.
  intros Hk. unfold dict_getitem. by rewrite voice_mapping_lookup.
Qed.

(** *** Computations only append to the trace *)

Lemma keeps_ret ev {A} (a : A) : keeps_event ev (ret a).
Proof. by intros E w H. Qed.

Lemma keeps_raise ev {A} e : keeps_event ev (@raise A e).
Proof. by intros E w H. Qed.

Lemma keeps_bind ev {A B} (m : M A) (k : A -> M B) :
  keeps_event ev m -> (forall a, keeps_event ev (k a)) -> keeps_event ev (bind m k).
Proof.
  intros Hm Hk E w H. unfold bind.
  specialize (Hm E w H). destruct (m E w) as [[a|e] w']; [|done].
  by apply Hk.
Qed.

Lemma keeps_try_except ev {A} (m : M A) h :
  keeps_event ev m -> (forall e, keeps_event ev (h e)) ->
  keeps_event ev (try_except m h).
Proof.
  intros Hm Hh E w H. unfold try_except.
  specialize (Hm E w H). destruct (m E w) as [[a|e] w']; [done|].
  by apply Hh.
Qed.

Lemma keeps_emit ev ev' : keeps_event ev (emit ev').
Proof. intros E w H. cbn. apply elem_of_app. by left. Qed.

Lemma keeps_pure ev {A} (f : env -> outcome A) :
  keeps_event ev (fun E w => (f E, w)).
Proof. by intros E w H. Qed.

Lemma keeps_failed_write ev path content :
  keeps_event ev (failed_write path content).
Proof.
  intros E w H. unfold failed_write. cbn [snd].
  by destruct (left_by_failed_write E path content).
Qed.

Lemma keeps_write_file ev path content : keeps_event ev (write_file path content).
Proof.
  intros E w H. unfold write_file.
  destruct (writable E path); [done|]. by apply keeps_failed_write.
Qed.

Lemma keeps_read_file ev path : keeps_event ev (read_file path).
Proof. intros E w H. unfold read_file. by destruct (files w !! path). Qed.

Lemma keeps_os_remove ev path : keeps_event ev (os_remove path).
Proof.
  intros E w H. unfold os_remove.
  destruct (files w !! path); [|done]. by destruct (_ || _).
Qed.

Lemma keeps_os_makedirs ev path : keeps_event ev (os_makedirs path).
Proof. intros E w H. unfold os_makedirs. by destruct (writable E path). Qed.

Lemma keeps_inline_data ev key v : keeps_event ev (inline_data key v).
Proof. destruct v; [apply keeps_ret|apply keeps_raise]. Qed.

Lemma keeps_pcm_to_wav ev pcm rate channels width :
  keeps_event ev (pcm_to_wav pcm rate channels width).
Proof.
  unfold pcm_to_wav.
  apply keeps_bind; [|intros].
  { intros E w H. unfold wave_write.
    destruct (writable E "temp.wav"); [|by apply keeps_failed_write].
    destruct (wave_params_ok channels width rate); [|done].
    by destruct (wave_bytes E channels width rate pcm). }
  apply keeps_bind; [apply keeps_read_file|intros].
  apply keeps_bind; [apply keeps_os_remove|intros].
  apply keeps_ret.
Qed.

Lemma keeps_on_error ev e : keeps_event ev (on_error e).
Proof.
  unfold on_error. apply keeps_bind; [|intros; apply keeps_ret].
  destruct e; apply keeps_emit.
Qed.

Lemma on_error_returns e E w : (on_error e E w).1 = Returned false.
Proof. by destruct e. Qed.

Lemma generate_podcast_audio_posts {S} (script : S) (cfg : config) E w
    key url k1 k2 k3 :
  config_value E cfg "api_keys" "tts_api_key" = Returned key ->
  config_value E cfg "tts" "api_url" = Returned url ->
  config_value E cfg "podcast" "expert_1" = Returned k1 ->
  config_value E cfg "podcast" "expert_2" = Returned k2 ->
  config_value E cfg "podcast" "expert_3" = Returned k3 ->
  HttpPost [Str url; Lit "?key="; Str key]
           [("expert_1", voice_of k1 k2 k3 k1);
            ("expert_2", voice_of k1 k2 k3 k2);
            ("expert_3", voice_of k1 k2 k3 k3)]
    ∈ trace (generate_podcast_audio script cfg E w).2 /\
  exists ok, (generate_podcast_audio script cfg E w).1 = Returned ok.
Proof.
  intros Hkey Hurl H1 H2 H3. unfold generate_podcast_audio.
  erewrite bind_returned by reflexivity.
  do 5 (erewrite bind_returned by (by apply config_get_run)).
  do 3 (erewrite bind_returned by (by apply config_get_run);
        erewrite bind_returned by (apply dict_getitem_voice; auto)).
  split.
  - unfold try_except at 1. unfold bind at 1.
    unfold requests_post_checked at 1. unfold bind at 1. unfold emit at 1.
    set (post := HttpPost _ _).
    match goal with
    | |- context [ World ?t ?h ?n (?tr ++ [post]) ?f ] =>
        set (w2 := World t h n (tr ++ [post]) f)
    end.
    assert (Hin : post ∈ trace w2).
    { cbn. apply elem_of_app. right. apply list_elem_of_here. }
    destruct (requests_post E _) as [| |data mime].
    + by apply keeps_on_error.
    + by apply keeps_on_error.
    + match goal with
      | |- context [ bind ?a ?b E w2 ] =>
          assert (Hk : keeps_event post (bind a b))
      end.
      { apply keeps_bind; [apply keeps_inline_data|intros].
        apply keeps_bind; [apply keeps_inline_data|intros].
        apply keeps_bind; [apply keeps_pure|intros].
        apply keeps_bind; [apply keeps_pcm_to_wav|intros].
        apply keeps_bind; [apply keeps_os_makedirs|intros].
        apply keeps_bind; [apply keeps_write_file|intros].
        apply keeps_bind; [apply keeps_emit|intros].
        apply keeps_ret. }
      specialize (Hk E w2 Hin).
      match type of Hk with
      | context [ bind ?a ?b E w2 ] => destruct (bind a b E w2) as [[ok|e] w3]
      end; [done|]. by apply keeps_on_error.
  - apply try_except_returns. intros e w'. eexists. apply on_error_returns.
Qed.

(** What is done before the call: the five options are read.  The first
    read failing, its exception leaves the function and nothing is sent. *)
Lemma generate_podcast_audio_unconfigured {S} (script : S) (cfg : config) E w e :
  config_value E cfg "api_keys" "tts_api_key" = Raised e ->
  generate_podcast_audio script cfg E w =
  (Raised e,
   World (ticks w) (heap w) (next_loc w)
         (trace w ++ [Logged INFO [Lit "Starting audio generation..."]])
         (files w)).
Proof.
  intros Hbad. unfold generate_podcast_audio.
  erewrite bind_returned by reflexivity.
  by erewrite bind_raised by (by apply config_get_raised).
Qed.

(** C8, as the code has it.  [generate_podcast_audio] never reads the
    script: two calls that differ in the script only are the same
    computation.  Once [config.get] has returned the five options it reads
    (none is missing, and none holds a '%' that cannot be interpolated), it
    sends the request to the speech service, with the voices of the three
    configured speakers, whatever roles the script refers to, and it comes
    back with a boolean: no exception reaches the caller. *)
Theorem C8_render_ignores_the_script (script : script) (cfg : config) E w
    key url k1 k2 k3 :
  config_value E cfg "api_keys" "tts_api_key" = Returned key ->
  config_value E cfg "tts" "api_url" = Returned url ->
  config_value E cfg "podcast" "expert_1" = Returned k1 ->
  config_value E cfg "podcast" "expert_2" = Returned k2 ->
  config_value E cfg "podcast" "expert_3" = Returned k3 ->
  (forall script' : script_to_audio.script,
     generate_podcast_audio script' cfg E w = generate_podcast_audio script cfg E w) /\
  HttpPost [Str url; Lit "?key="; Str key]
           [("expert_1", voice_of k1 k2 k3 k1);
            ("expert_2", voice_of k1 k2 k3 k2);
            ("expert_3", voice_of k1 k2 k3 k3)]
    ∈ trace (generate_podcast_audio script cfg E w).2 /\
  exists ok, (generate_podcast_audio script cfg E w).1 = Returned ok.
Proof.
  intros Hkey Hurl H1 H2 H3. split; [done|].
  by apply generate_podcast_audio_posts.
Qed.

Lemma C8_render_ignores_the_script_witness :
  config_value fixtures.env0 fixtures.settings "api_keys" "tts_api_key"
    = Returned "k" /\
  config_value fixtures.env0 fixtures.settings "tts" "api_url"
    = Returned "https://tts.example/v1" /\
  config_value fixtures.env0 fixtures.settings "podcast" "expert_1"
    = Returned "ML Expert" /\
  config_value fixtures.env0 fixtures.settings "podcast" "expert_2"
    = Returned "Neuroscientist" /\
  config_value fixtures.env0 fixtures.settings "podcast" "expert_3"
    = Returned "Psychologist" /\
  (forall script' : script_to_audio.script,
     generate_podcast_audio script' fixtures.settings fixtures.env0
       (fixtures.world_of fixtures.heap3) =
     generate_podcast_audio fixtures.guest_script fixtures.settings fixtures.env0
       (fixtures.world_of fixtures.heap3)) /\
  HttpPost [Str "https://tts.example/v1"; Lit "?key="; Str "k"]
           [("expert_1", voice_of "ML Expert" "Neuroscientist" "Psychologist" "ML Expert");
            ("expert_2", voice_of "ML Expert" "Neuroscientist" "Psychologist" "Neuroscientist");
            ("expert_3", voice_of "ML Expert" "Neuroscientist" "Psychologist" "Psychologist")]
    ∈ trace (generate_podcast_audio fixtures.guest_script fixtures.settings
               fixtures.env0 (fixtures.world_of fixtures.heap3)).2 /\
  exists ok,
    (generate_podcast_audio fixtures.guest_script fixtures.settings fixtures.env0
       (fixtures.world_of fixtures.heap3)).1 = Returned ok.
Proof.
  assert (Hk : config_value fixtures.env0 fixtures.settings "api_keys" "tts_api_key"
               = Returned "k") by (by vm_compute).
  assert (Hu : config_value fixtures.env0 fixtures.settings "tts" "api_url"
               = Returned "https://tts.example/v1") by (by vm_compute).
  assert (H1 : config_value fixtures.env0 fixtures.settings "podcast" "expert_1"
               = Returned "ML Expert") by (by vm_compute).
  assert (H2 : config_value fixtures.env0 fixtures.settings "podcast" "expert_2"
               = Returned "Neuroscientist") by (by vm_compute).
  assert (H3 : config_value fixtures.env0 fixtures.settings "podcast" "expert_3"
               = Returned "Psychologist") by (by vm_compute).
  split; [exact Hk|]. split; [exact Hu|]. split; [exact H1|].
  split; [exact H2|]. split; [exact H3|].
  exact (C8_render_ignores_the_script fixtures.guest_script fixtures.settings
           fixtures.env0 (fixtures.world_of fixtures.heap3) _ _ _ _ _
           Hk Hu H1 H2 H3).
Defined.

(** C8 fails as stated: a script whose speaker "Guest" has no voice is
    rendered all the same; the request is sent and the call reports
    success. *)
Lemma C8_counterexample :
  ~ spec.roles_mapped fixtures.guest_script
      (voice_mapping "ML Expert" "Neuroscientist" "Psychologist") /\
  fixtures.guest_run.1 = Returned true /\
  filter (fun ev => fixtures.is_post ev = true) (trace fixtures.guest_run.2) =
    [HttpPost [Str "https://tts.example/v1"; Lit "?key="; Str "k"]
              [("expert_1", "Zephyr"); ("expert_2", "Puck"); ("expert_3", "Kore")]].
Proof.
  split; [|split; by vm_compute].
  unfold spec.roles_mapped, fixtures.guest_script. cbn [dialogue].
  rewrite !Forall_cons. intros (_ & [v Hv] & _).
  by vm_compute in Hv.
Qed.

End renderer_facts.

(** ** The orchestrator *)

Section orchestrator_facts.
Import main_py.

(** [script_saved] is kept by every transition. *)
Lemma script_saved_step st E c c' :
  script_saved E c -> steps_to st E c c' -> script_saved E c'.
Proof.
  destruct c as [at_ w], c' as [at' w']. unfold steps_to, script_saved.
  cbn [fst snd]. intros Hinv [Hne Hstep].
  destruct at_; cbn [step] in Hstep; try done; step_cases Hstep; try done.
  - by apply negb_false_iff.
  - split; [done|]. eexists. split; [done|]. by rewrite lookup_insert_eq.
Qed.

Lemma script_saved_reachable st E w0 c :
  reachable st E w0 c -> script_saved E c.
Proof.
  induction 1 as [|c c' _ IH Hstep]; [done|].
  by eapply script_saved_step.
Qed.

(** *** Computations that leave a file alone *)

Lemma keeps_file_ret path {A} (a : A) : keeps_file path (ret a).
Proof. by intros E w. Qed.

Lemma keeps_file_raise path {A} e : keeps_file path (@raise A e).
Proof. by intros E w. Qed.

Lemma keeps_file_bind path {A B} (m : M A) (k : A -> M B) :
  keeps_file path m -> (forall a, keeps_file path (k a)) ->
  keeps_file path (bind m k).
Proof.
  intros Hm Hk E w. unfold bind. specialize (Hm E w).
  destruct (m E w) as [[a|e] w1]; [|done].
  by rewrite Hk.
Qed.

Lemma keeps_file_try_except path {A} (m : M A) h :
  keeps_file path m -> (forall e, keeps_file path (h e)) ->
  keeps_file path (try_except m h).
Proof.
  intros Hm Hh E w. unfold try_except. specialize (Hm E w).
  destruct (m E w) as [[a|e] w1]; [done|].
  by rewrite Hh.
Qed.

Lemma keeps_file_emit path ev : keeps_file path (emit ev).
Proof. by intros E w. Qed.

Lemma keeps_file_pure path {A} (f : env -> outcome A) :
  keeps_file path (fun E w => (f E, w)).
Proof. by intros E w. Qed.

Lemma keeps_file_config_get path cfg section option :
  keeps_file path (config_get cfg section option).
Proof.
  by intros E w.
Qed.

Lemma keeps_file_failed_write path other content :
  other <> path -> keeps_file path (failed_write other content).
Proof.
  intros Hne E w. unfold failed_write. cbn [snd].
  destruct (left_by_failed_write E other content); [|done].
  cbn. by rewrite lookup_insert_ne.
Qed.

Lemma keeps_file_write_file path other content :
  other <> path -> keeps_file path (write_file other content).
Proof.
  intros Hne E w. unfold write_file.
  destruct (writable E other); [|by apply keeps_file_failed_write].
  cbn. by rewrite lookup_insert_ne.
Qed.

Lemma keeps_file_read_file path other : keeps_file path (read_file other).
Proof. intros E w. unfold read_file. by destruct (files w !! other). Qed.

Lemma keeps_file_os_remove path other :
  other <> path -> keeps_file path (os_remove other).
Proof.
  intros Hne E w. unfold os_remove. destruct (files w !! other); [|done].
  destruct (_ || _); [|done].
  cbn. by rewrite lookup_delete_ne.
Qed.

Lemma keeps_file_os_makedirs path other : keeps_file path (os_makedirs other).
Proof. intros E w. unfold os_makedirs. by destruct (writable E other). Qed.

(** The renderer of [script_to_audio.py] writes two files and no other. *)
Lemma generate_podcast_audio_keeps_file {S} (script : S) cfg path :
  path <> "temp.wav" -> path <> "output/audio/podcast_episode.wav" ->
  keeps_file path (script_to_audio.generate_podcast_audio script cfg).
Proof.
  intros Ht Ho. unfold script_to_audio.generate_podcast_audio.
  apply keeps_file_bind; [apply keeps_file_emit|intros].
  do 5 (apply keeps_file_bind; [apply keeps_file_config_get|intros]).
  do 3 (apply keeps_file_bind; [apply keeps_file_config_get|intros];
        apply keeps_file_bind;
        [unfold script_to_audio.dict_getitem;
         case_match; [apply keeps_file_ret|apply keeps_file_raise]|intros]).
  apply keeps_file_try_except.
  - apply keeps_file_bind.
    { unfold script_to_audio.requests_post_checked.
      apply keeps_file_bind; [apply keeps_file_emit|intros].
      intros E w. by destruct (requests_post E _). }
    intros.
    do 2 (apply keeps_file_bind;
          [unfold script_to_audio.inline_data;
           case_match; [apply keeps_file_ret|apply keeps_file_raise]|intros]).
    apply keeps_file_bind; [apply keeps_file_pure|intros].
    apply keeps_file_bind.
    { unfold script_to_audio.pcm_to_wav.
      apply keeps_file_bind; [|intros].
      { intros E w. unfold script_to_audio.wave_write.
        destruct (writable E "temp.wav");
          [|by apply keeps_file_failed_write].
        destruct (script_to_audio.wave_params_ok _ _ _);
          [|cbn; by rewrite lookup_insert_ne].
        destruct (wave_bytes E _ _ _ _); cbn; by rewrite lookup_insert_ne. }
      apply keeps_file_bind; [apply keeps_file_read_file|intros].
      apply keeps_file_bind; [by apply keeps_file_os_remove|intros].
      apply keeps_file_ret. }
    intros.
    apply keeps_file_bind; [apply keeps_file_os_makedirs|intros].
    apply keeps_file_bind; [by apply keeps_file_write_file|intros].
    apply keeps_file_bind; [apply keeps_file_emit|intros].
    apply keeps_file_ret.
  - intros e. unfold script_to_audio.on_error.
    apply keeps_file_bind; [|intros; apply keeps_file_ret].
    destruct e; apply keeps_file_emit.
Qed.

Lemma script_path_fresh timestamp :
  script_path timestamp <> "temp.wav" /\
  script_path timestamp <> "output/audio/podcast_episode.wav".
Proof. split; discriminate. Qed.

(** The transition at the call of the renderer: whatever the renderer
    answers, and also when it raises, [main] ends, and a file the renderer
    leaves alone is as it was. *)
Lemma render_step st E config content path w :
  keeps_file path (generate_podcast_audio st content config) ->
  (step st (AtRender config content path) E w).1 = Returned Exited /\
  files (step st (AtRender config content path) E w).2 !! path = files w !! path.
Proof.
  intros Hk. cbn [step]. unfold guarded, try_except, bind.
  specialize (Hk E w).
  destruct (generate_podcast_audio st content config E w) as [[ok|e] w1];
    cbn [snd] in Hk.
  - by destruct (truthy ok).
  - done.
Qed.

(** *** [main] is the run of its transition system *)

Lemma step_returns st at_ E w : exists next, (step st at_ E w).1 = Returned next.
Proof.
  destruct at_; cbn [step]; try (by eexists);
    unfold guarded;
    try (apply try_except_returns; intros e w1; by eexists).
Qed.

Lemma run_reachable st E w0 fuel : forall at_ w next,
  reachable st E w0 (at_, w) ->
  (run st fuel at_ E w).1 = Returned next ->
  reachable st E w0 (next, (run st fuel at_ E w).2).
Proof.
  induction fuel as [|fuel IH]; intros at_ w next Hr Hrun.
  - cbn in *. by injection Hrun as <-.
  - cbn [run] in *. unfold bind in *.
    destruct (step_returns st at_ E w) as [mid Hmid].
    destruct (step st at_ E w) as [[mid'|e] w1] eqn:Hstep; [|done].
    cbn in Hmid. injection Hmid as ->.
    apply IH; [|done].
    assert (Hcase : at_ = Exited \/ at_ <> Exited)
      by (destruct at_; (by left) || (by right)).
    destruct Hcase as [->|Hne].
    + cbn in Hstep. unfold ret in Hstep. by injection Hstep as <- <-.
    + eapply reach_step; [exact Hr|]. by split.
Qed.

(** [main] returns [None] on every path, run of seven transitions that it
    is: it ends at [Exited] in the world the transitions lead to. *)
Lemma main_is_run st E w :
  main st E w = (Returned tt, (run st 7 AtEntry E w).2) /\
  (run st 7 AtEntry E w).1 = Returned Exited.
Proof.
  unfold main.
  repeat
    (simp_run; try done;
     match goal with
     | |- context [ read_config E ?p ] => destruct (read_config E p)
     | |- context [ scrape_papers st ?c E ?v ] =>
         destruct (scrape_papers st c E v) as [[?|?] ?]
     | |- context [ truthy ?a ] => destruct (truthy a)
     | |- context [ match ?a with PyNone => _ | _ => _ end ] => destruct a
     | |- context [ rank_papers st ?a ?c E ?v ] =>
         destruct (rank_papers st a c E v) as [[?|?] ?]
     | |- context [ select_top_paper st ?a E ?v ] =>
         destruct (select_top_paper st a E v) as [[?|?] ?]
     | |- context [ generate_podcast_script st ?a ?c E ?v ] =>
         destruct (generate_podcast_script st a c E v) as [[?|?] ?]
     | |- context [ writable E ?p ] => destruct (writable E p)
     | |- context [ json_dumps E ?a ] => destruct (json_dumps E a)
     | |- context [ generate_podcast_audio st ?a ?c E ?v ] =>
         destruct (generate_podcast_audio st a c E v) as [[?|?] ?]
     end).
Qed.

(** C9. Whenever [main] is at the call of the renderer, the synthesis has
    succeeded (the script is a true value) and the script is already in its
    file, as [json.dump] wrote it: the renderer is never entered without the
    script saved.  And when the renderer leaves that file alone, the
    transition through the renderer (whether it returns true or false, or
    raises) ends [main] with the script still in its file. *)
Theorem C9_script_saved_before_rendering st E w0 config content path w :
  reachable st E w0 (AtRender config content path, w) ->
  truthy content = true /\
  (exists s, json_dumps E content = Some s /\ files w !! path = Some s) /\
  (keeps_file path (generate_podcast_audio st content config) ->
   (step st (AtRender config content path) E w).1 = Returned Exited /\
   exists s, json_dumps E content = Some s /\
     files (step st (AtRender config content path) E w).2 !! path = Some s).
Proof.
  intros Hr. apply script_saved_reachable in Hr.
  unfold script_saved in Hr. cbn [fst snd] in Hr.
  destruct Hr as (Ht & s & Hs & Hf).
  split; [done|]. split; [by exists s|].
  intros Hk. destruct (render_step st E config content path w Hk) as [H1 H2].
  split; [done|]. exists s. split; [done|]. by rewrite H2.
Qed.

(** A run that gets to the renderer. *)
Lemma demo_reaches_render :
  reachable fixtures.demo_stages fixtures.env_tts_down
    (fixtures.world_of fixtures.heap3)
    (AtRender fixtures.settings (PyStr "ML Expert: hello")
       fixtures.demo_script_path,
     (run fixtures.demo_stages 6 AtEntry fixtures.env_tts_down
        (fixtures.world_of fixtures.heap3)).2).
Proof. apply run_reachable; [constructor|]. by vm_compute. Qed.

Lemma demo_stages_keep_script content config :
  keeps_file fixtures.demo_script_path
    (generate_podcast_audio fixtures.demo_stages content config).
Proof.
  cbn [generate_podcast_audio fixtures.demo_stages].
  apply keeps_file_bind; [|intros; apply keeps_file_ret].
  apply generate_podcast_audio_keeps_file; discriminate.
Qed.

Lemma C9_script_saved_before_rendering_witness :
  reachable fixtures.demo_stages fixtures.env_tts_down
    (fixtures.world_of fixtures.heap3)
    (AtRender fixtures.settings (PyStr "ML Expert: hello")
       fixtures.demo_script_path,
     (run fixtures.demo_stages 6 AtEntry fixtures.env_tts_down
        (fixtures.world_of fixtures.heap3)).2) /\
  truthy (PyStr "ML Expert: hello") = true /\
  (exists s,
     json_dumps fixtures.env_tts_down (PyStr "ML Expert: hello") = Some s /\
     files (run fixtures.demo_stages 6 AtEntry fixtures.env_tts_down
              (fixtures.world_of fixtures.heap3)).2
       !! fixtures.demo_script_path = Some s) /\
  (keeps_file fixtures.demo_script_path
     (generate_podcast_audio fixtures.demo_stages (PyStr "ML Expert: hello")
        fixtures.settings) ->
   (step fixtures.demo_stages
      (AtRender fixtures.settings (PyStr "ML Expert: hello")
         fixtures.demo_script_path)
      fixtures.env_tts_down
      (run fixtures.demo_stages 6 AtEntry fixtures.env_tts_down
         (fixtures.world_of fixtures.heap3)).2).1 = Returned Exited /\
   exists s,
     json_dumps fixtures.env_tts_down (PyStr "ML Expert: hello") = Some s /\
     files (step fixtures.demo_stages
              (AtRender fixtures.settings (PyStr "ML Expert: hello")
                 fixtures.demo_script_path)
              fixtures.env_tts_down
              (run fixtures.demo_stages 6 AtEntry fixtures.env_tts_down
                 (fixtures.world_of fixtures.heap3)).2).2
       !! fixtures.demo_script_path = Some s).
Proof.
  assert (Hr : reachable fixtures.demo_stages fixtures.env_tts_down
                 (fixtures.world_of fixtures.heap3)
                 (AtRender fixtures.settings (PyStr "ML Expert: hello")
                    fixtures.demo_script_path,
                  (run fixtures.demo_stages 6 AtEntry fixtures.env_tts_down
                     (fixtures.world_of fixtures.heap3)).2))
    by apply demo_reaches_render.
  split; [exact Hr|].
  exact (C9_script_saved_before_rendering fixtures.demo_stages
           fixtures.env_tts_down (fixtures.world_of fixtures.heap3)
           fixtures.settings (PyStr "ML Expert: hello")
           fixtures.demo_script_path _ Hr).
Defined.

(** The same run as [main] makes it, with the speech service down: the
    renderer fails, [main] logs the failure and returns, and the script is
    in its file. *)
Example main_keeps_script_when_rendering_fails :
  (main fixtures.demo_stages fixtures.env_tts_down
     (fixtures.world_of fixtures.heap3)).1 = Returned tt /\
  files (main fixtures.demo_stages fixtures.env_tts_down
           (fixtures.world_of fixtures.heap3)).2
    !! fixtures.demo_script_path = Some "ML Expert: hello" /\
  last (trace (main fixtures.demo_stages fixtures.env_tts_down
                 (fixtures.world_of fixtures.heap3)).2) =
    Some (Logged ERROR [Lit "Audio generation failed. Pipeline aborted."]).
Proof. repeat split; by vm_compute. Qed.

(** With the stage functions of the repository itself [main] never gets
    that far: [scrape_papers] has no return value, so [main] takes its first
    exit whatever the source delivers. *)
Lemma scrape_papers_returns_None config E w :
  (arxiv_scrapper.scrape_papers config E w).1 = Returned PyNone \/
  exists e, (arxiv_scrapper.scrape_papers config E w).1 = Raised e.
Proof.
  unfold arxiv_scrapper.scrape_papers, bind.
  repeat (match goal with
          | |- context [ let (_, _) := ?m in _ ] => destruct m as [[?|?] ?]
          | |- context [ match ?m with (_, _) => _ end ] => destruct m as [[?|?] ?]
          | |- context [ if ?b then _ else _ ] => destruct b
          end; cbn [fst snd]);
    try (by left); try (right; by eexists).
Qed.

Lemma main_exits_when_source_returns_None st E w config :
  (scrape_papers st config E w).1 = Returned PyNone ->
  (step st (AtScrape config) E w).1 = Returned Exited /\
  last (trace (step st (AtScrape config) E w).2) =
    Some (Logged WARNING [Lit "No new papers found. Exiting pipeline."]).
Proof.
  intros Hs. cbn [step]. unfold guarded, try_except, bind.
  destruct (scrape_papers st config E w) as [[v|e] w1]; cbn in Hs; [|done].
  injection Hs as ->. cbn. split; [done|]. by rewrite last_snoc.
Qed.

End orchestrator_facts.

(** * Further properties of the code *)

(** ** The selector at every [top_n], and after the ranker *)

Section ranker_more.
Import paper_ranker.

(** X1. [select_top_paper] never raises and never reorders: for every
    integer [top_n] it returns a prefix of the ranked list.  A [top_n] of
    zero or more gives the first [top_n] entries (all of them when the list
    is shorter); a negative [top_n] does not fail but drops the last
    [-top_n] entries; no paper is changed. *)
Theorem select_returns_a_prefix E w ranked_papers top_n :
  exists selected,
    (select_top_paper ranked_papers top_n E w).1 = Returned selected /\
    selected `prefix_of` ranked_papers /\
    (0 <= top_n ->
     length selected = Nat.min (Z.to_nat top_n) (length ranked_papers)) /\
    (top_n < 0 ->
     length selected = (length ranked_papers - Z.to_nat (- top_n))%nat) /\
    heap (select_top_paper ranked_papers top_n E w).2 = heap w.
Proof.
  unfold select_top_paper. destruct ranked_papers as [|p rest].
  - exists []. cbn. repeat split; try done. intros _. by rewrite Nat.min_0_r.
  - rewrite bool_decide_eq_false_2 by done. unfold ret, slice_to. cbn [fst snd].
    eexists. split; [done|].
    destruct (Z.leb_spec 0 top_n) as [Hn|Hn].
    + split; [apply prefix_take|]. split; [intros _; apply length_take|].
      split; [lia|done].
    + split; [apply prefix_take|]. split; [lia|].
      split; [|done]. intros _. rewrite length_take. lia.
Qed.

(** The two calls the pipeline makes one after the other. *)
Lemma rank_then_select_run E w papers :
  ranker_is_main E = true ->
  papers <> [] ->
  bind (rank_papers papers "simple") (fun ranked => select_top_paper ranked 1) E w =
  (Returned (take 1 (snd <$> sort_desc (keyed (scored E (ticks w) (heap w) papers) papers))),
   World (ticks w + length papers) (scored E (ticks w) (heap w) papers)
         (next_loc w) (trace w ++ [ranking_record papers "simple"]) (files w)).
Proof.
  intros Hmain Hne. erewrite bind_returned by (by apply rank_simple_run).
  unfold select_top_paper.
  assert (Hr : snd <$> sort_desc (keyed (scored E (ticks w) (heap w) papers) papers)
               <> []).
  { intros Hnil. apply Hne. apply Permutation_nil_r.
    rewrite <- Hnil. symmetry. apply ranked_perm. }
  rewrite bool_decide_eq_false_2 by done. reflexivity.
Qed.

(** X2. Where paper_ranker.py is run as the script (so that its name
    [datetime] is bound), ranking a non-empty list with ['simple'] and
    selecting with [top_n = 1] yields exactly one paper of the input, one
    whose score no other paper of the input exceeds; when several papers
    share that score it is the one that came first in the input. *)
Theorem rank_then_select_picks_first_best E w papers :
  ranker_is_main E = true ->
  papers <> [] ->
  exists best,
    (bind (rank_papers papers "simple")
          (fun ranked => select_top_paper ranked 1) E w).1 = Returned [best] /\
    best ∈ papers /\
    (forall q, q ∈ papers ->
       final_score (heap (bind (rank_papers papers "simple")
                            (fun ranked => select_top_paper ranked 1) E w).2) q
       <= final_score (heap (bind (rank_papers papers "simple")
                               (fun ranked => select_top_paper ranked 1) E w).2) best) /\
    head (filter (fun p =>
            final_score (heap (bind (rank_papers papers "simple")
                                 (fun ranked => select_top_paper ranked 1) E w).2) p
            = final_score (heap (bind (rank_papers papers "simple")
                                   (fun ranked => select_top_paper ranked 1) E w).2) best)
            papers) = Some best.
Proof.
  intros Hmain Hne. rewrite rank_then_select_run by done. cbn [fst snd heap].
  set (h := scored E (ticks w) (heap w) papers).
  pose proof (ranked_perm h papers) as Hperm.
  pose proof (ranked_descending h papers) as Hsorted.
  pose proof (ranked_stable h papers) as Hstable.
  destruct (snd <$> sort_desc (keyed h papers)) as [|best rest] eqn:Hranked.
  { exfalso. apply Hne. by apply Permutation_nil_r. }
  exists best. cbn [take]. split; [by rewrite take_0|].
  split; [rewrite <- Hperm; apply list_elem_of_here|]. split.
  - intros q Hq. rewrite <- Hperm in Hq.
    apply StronglySorted_inv in Hsorted as [_ Hall].
    apply elem_of_cons in Hq as [->|Hq]; [done|].
    rewrite Forall_forall in Hall. by apply Hall.
  - rewrite <- (Hstable (final_score h best)).
    rewrite filter_cons. by rewrite decide_True.
Qed.

Lemma rank_then_select_picks_first_best_witness :
  ranker_is_main fixtures.env0 = true /\
  [0; 1]%nat <> [] /\
  exists best,
    (bind (rank_papers [0; 1]%nat "simple")
          (fun ranked => select_top_paper ranked 1)
          fixtures.env0 (fixtures.world_of fixtures.heap_tie)).1 = Returned [best] /\
    best ∈ [0; 1]%nat.
Proof.
  assert (Hm : ranker_is_main fixtures.env0 = true) by reflexivity.
  assert (H : [0; 1]%nat <> []) by discriminate.
  split; [exact Hm|]. split; [exact H|].
  destruct (rank_then_select_picks_first_best fixtures.env0
              (fixtures.world_of fixtures.heap_tie) [0; 1]%nat Hm H)
    as (best & H1 & H2 & _).
  exists best. split; [exact H1|exact H2].
Defined.

Lemma rank_score_of E w papers p :
  ranker_is_main E = true ->
  p ∈ papers ->
  exists k,
    papers !! k = Some p /\
    final_score (heap (rank_papers papers "simple" E w).2) p =
    Z.max 0 (30 - timedelta_days (clock E (ticks w + k) - published (heap w p))).
Proof.
  intros Hmain Hp.
  assert (Hne : papers <> []) by (intros ->; by apply elem_of_nil in Hp).
  rewrite rank_simple_run by done. cbn [snd heap].
  destruct (scored_inside E papers (ticks w) (heap w) p Hp) as (k & Hk & Hs).
  exists k. split; [done|]. unfold final_score. by rewrite Hs.
Qed.

(** X3. Where paper_ranker.py is run as the script, the score is capped
    at 30 only for papers that are not dated in the future: a paper
    published at or before every clock reading of the call scores between 0
    and 30, while a paper whose published timestamp lies after those
    readings scores 31 or more. *)
Theorem rank_score_bounds E w papers p :
  ranker_is_main E = true ->
  p ∈ papers ->
  ((forall k, published (heap w p) <= clock E (ticks w + k)) ->
   0 <= final_score (heap (rank_papers papers "simple" E w).2) p <= 30) /\
  ((forall k, clock E (ticks w + k) < published (heap w p)) ->
   31 <= final_score (heap (rank_papers papers "simple" E w).2) p).
Proof.
  intros Hmain Hp. destruct (rank_score_of E w papers p Hmain Hp) as (k & _ & ->).
  unfold timedelta_days, usec_per_day. split; intros Hc; specialize (Hc k).
  - assert (0 <= (clock E (ticks w + k) - published (heap w p)) `div` 86400000000)
      by (apply Z.div_pos; lia). lia.
  - assert ((clock E (ticks w + k) - published (heap w p)) `div` 86400000000 < 0)
      by (apply Z.div_lt_upper_bound; lia). lia.
Qed.

Lemma rank_score_bounds_witness :
  ranker_is_main fixtures.env0 = true /\
  0%nat ∈ [0; 1; 2]%nat /\
  0 <= final_score (heap (rank_papers [0; 1; 2]%nat "simple" fixtures.env0
                            (fixtures.world_of fixtures.heap3)).2) 0%nat <= 30.
Proof.
  assert (Hm : ranker_is_main fixtures.env0 = true) by reflexivity.
  assert (H : 0%nat ∈ [0; 1; 2]%nat) by apply list_elem_of_here.
  split; [exact Hm|]. split; [exact H|].
  apply (rank_score_bounds fixtures.env0 (fixtures.world_of fixtures.heap3)
           [0; 1; 2]%nat 0%nat Hm H).
  intros k. vm_compute. discriminate.
Defined.

(** X4. Where paper_ranker.py is run as the script, and while the clock
    shows one time for the whole call, the ranker rewards recency: of two
    papers of the list the one published later never has the lower score. *)
Theorem rank_rewards_recency E w papers now p q :
  ranker_is_main E = true ->
  (forall k, clock E (ticks w + k) = now) ->
  p ∈ papers -> q ∈ papers ->
  published (heap w p) <= published (heap w q) ->
  final_score (heap (rank_papers papers "simple" E w).2) p
  <= final_score (heap (rank_papers papers "simple" E w).2) q.
Proof.
  intros Hmain Hclock Hp Hq Hpub.
  destruct (rank_score_of E w papers p Hmain Hp) as (k & _ & ->).
  destruct (rank_score_of E w papers q Hmain Hq) as (j & _ & ->).
  rewrite !Hclock. unfold timedelta_days, usec_per_day.
  assert ((now - published (heap w q)) `div` 86400000000
          <= (now - published (heap w p)) `div` 86400000000)
    by (apply Z.div_le_mono; lia).
  lia.
Qed.

Lemma rank_rewards_recency_witness :
  ranker_is_main fixtures.env0 = true /\
  (forall k, clock fixtures.env0 (ticks (fixtures.world_of fixtures.heap3) + k)
             = 100 * fixtures.day) /\
  1%nat ∈ [0; 1; 2]%nat /\ 0%nat ∈ [0; 1; 2]%nat /\
  published (heap (fixtures.world_of fixtures.heap3) 1%nat)
    <= published (heap (fixtures.world_of fixtures.heap3) 0%nat) /\
  final_score (heap (rank_papers [0; 1; 2]%nat "simple" fixtures.env0
                       (fixtures.world_of fixtures.heap3)).2) 1%nat
  <= final_score (heap (rank_papers [0; 1; 2]%nat "simple" fixtures.env0
                          (fixtures.world_of fixtures.heap3)).2) 0%nat.
Proof.
  assert (Hm : ranker_is_main fixtures.env0 = true) by reflexivity.
  assert (Hc : forall k,
            clock fixtures.env0 (ticks (fixtures.world_of fixtures.heap3) + k)
            = 100 * fixtures.day) by reflexivity.
  assert (H1 : 1%nat ∈ [0; 1; 2]%nat)
    by (apply list_elem_of_further, list_elem_of_here).
  assert (H0 : 0%nat ∈ [0; 1; 2]%nat) by apply list_elem_of_here.
  assert (Hp : published (heap (fixtures.world_of fixtures.heap3) 1%nat)
               <= published (heap (fixtures.world_of fixtures.heap3) 0%nat))
    by (vm_compute; discriminate).
  split; [exact Hm|]. split; [exact Hc|]. split; [exact H1|]. split; [exact H0|].
  split; [exact Hp|].
  exact (rank_rewards_recency fixtures.env0 (fixtures.world_of fixtures.heap3)
           [0; 1; 2]%nat (100 * fixtures.day) 1%nat 0%nat Hm Hc H1 H0 Hp).
Defined.

(** X23. Run as the script, [rank_papers] does what it is written for:
    under the ['simple'] strategy every candidate [p] of the list ends with
    the score [max(0, 30 - age_in_days)], where [age_in_days] is the whole
    number of days from [p]'s published timestamp to the clock reading taken
    when [p] is scored (the [k]-th reading of the call, [k] an index of [p]
    in the list).  Hence an age of 0 days scores 30, of 30 days 0 and of 45
    days 0, and no score is negative. *)
Theorem script_run_scores_by_age E w papers p :
  ranker_is_main E = true ->
  p ∈ papers ->
  exists k age_in_days s,
    papers !! k = Some p /\
    age_in_days = (clock E (ticks w + k) - published (heap w p)) `div` usec_per_day /\
    score (heap (rank_papers papers "simple" E w).2 p) = Some s /\
    s = Z.max 0 (30 - age_in_days) /\
    0 <= s /\
    (age_in_days = 0 -> s = 30) /\
    (age_in_days = 30 -> s = 0) /\
    (age_in_days = 45 -> s = 0).
Proof.
  intros Hmain Hp.
  assert (Hne : papers <> []) by (intros ->; by apply elem_of_nil in Hp).
  rewrite rank_simple_run by done. cbn [snd heap].
  destruct (scored_inside E papers (ticks w) (heap w) p Hp) as (k & Hk & Hs).
  exists k, ((clock E (ticks w + k) - published (heap w p)) `div` usec_per_day),
    (Z.max 0 (30 - timedelta_days (clock E (ticks w + k) - published (heap w p)))).
  unfold timedelta_days in *.
  repeat split; try done; try lia.
Qed.

Lemma script_run_scores_by_age_witness :
  ranker_is_main fixtures.env0 = true /\
  0%nat ∈ [0; 1; 2]%nat /\
  exists k age_in_days s,
    [0; 1; 2]%nat !! k = Some 0%nat /\
    age_in_days =
      (clock fixtures.env0 (ticks (fixtures.world_of fixtures.heap3) + k)
       - published (heap (fixtures.world_of fixtures.heap3) 0%nat))
      `div` usec_per_day /\
    score (heap (rank_papers [0; 1; 2]%nat "simple" fixtures.env0
                   (fixtures.world_of fixtures.heap3)).2 0%nat) = Some s /\
    s = Z.max 0 (30 - age_in_days) /\
    0 <= s /\
    (age_in_days = 0 -> s = 30) /\
    (age_in_days = 30 -> s = 0) /\
    (age_in_days = 45 -> s = 0).
Proof.
  assert (Hm : ranker_is_main fixtures.env0 = true) by reflexivity.
  split; [exact Hm|]. split; [apply list_elem_of_here|].
  apply script_run_scores_by_age; [exact Hm|apply list_elem_of_here].
Defined.

(** X24. Run as the script, [rank_papers] under the ['simple'] strategy
    returns, and what it returns is a permutation of the input list: the
    same references, each as often as it came in.  Every returned paper
    carries a score, and its other keys are as they were. *)
Theorem script_run_ranks_a_permutation E w papers :
  ranker_is_main E = true ->
  exists ranked,
    (rank_papers papers "simple" E w).1 = Returned ranked /\
    ranked ≡ₚ papers /\
    Forall (fun p =>
      is_Some (score (heap (rank_papers papers "simple" E w).2 p)) /\
      title (heap (rank_papers papers "simple" E w).2 p) = title (heap w p) /\
      authors (heap (rank_papers papers "simple" E w).2 p) = authors (heap w p) /\
      summary (heap (rank_papers papers "simple" E w).2 p) = summary (heap w p) /\
      link (heap (rank_papers papers "simple" E w).2 p) = link (heap w p) /\
      published (heap (rank_papers papers "simple" E w).2 p) = published (heap w p) /\
      updated (heap (rank_papers papers "simple" E w).2 p) = updated (heap w p))
      ranked.
Proof.
  intros Hmain. destruct papers as [|p0 rest].
  - exists []. rewrite rank_empty_run. by repeat split.
  - set (papers := p0 :: rest).
    rewrite rank_simple_run by done. cbn [fst snd heap].
    eexists. split; [done|]. split; [apply ranked_perm|].
    rewrite ranked_perm. apply Forall_forall. intros p Hp.
    pose proof (scored_fields E papers (ticks w) (heap w) p)
      as (H1 & H2 & H3 & H4 & H5 & H6).
    pose proof (scored_all_some E (ticks w) (heap w) papers) as Hall.
    rewrite Forall_forall in Hall.
    repeat split; try done. by apply Hall.
Qed.

Lemma script_run_ranks_a_permutation_witness :
  ranker_is_main fixtures.env0 = true /\
  exists ranked,
    fixtures.ages_run.1 = Returned ranked /\ ranked ≡ₚ [0; 1; 2]%nat.
Proof.
  assert (Hm : ranker_is_main fixtures.env0 = true) by reflexivity.
  split; [exact Hm|].
  destruct (script_run_ranks_a_permutation fixtures.env0
              (fixtures.world_of fixtures.heap3) [0; 1; 2]%nat Hm)
    as (ranked & H1 & H2 & _).
  exists ranked. split; [exact H1|exact H2].
Defined.

End ranker_more.

(** ** The filter on its borders, the source on well-formed and malformed feeds *)

Section source_more.
Import arxiv_scrapper.

Lemma filter_sublist_impl {A} (P Q : A -> Prop)
    `{!forall x, Decision (P x)} `{!forall x, Decision (Q x)} (l : list A) :
  (forall x, P x -> Q x) -> filter P l `sublist_of` filter Q l.
Proof.
  intros Himpl. induction l as [|x l IH]; [done|].
  rewrite !filter_cons.
  destruct (decide (P x)) as [HP|HP].
  - rewrite decide_True by auto. by apply sublist_skip.
  - destruct (decide (Q x)); [by apply sublist_cons|done].
Qed.

(** X5. Widening the window never loses a paper: from the same world, and
    for windows whose cutoffs are [datetime]s, the papers kept for a window
    of [d1] days are a sublist of those kept for any window of [d2 >= d1]
    days. *)
Theorem filter_grows_with_the_window E w papers d1 d2 :
  d1 <= d2 ->
  Z.abs d1 <= 999999999 ->
  Z.abs d2 <= 999999999 ->
  is_datetime (clock E (ticks w) - usec_of_days d1) = true ->
  is_datetime (clock E (ticks w) - usec_of_days d2) = true ->
  exists kept1 kept2,
    (filter_papers_by_timeframe papers d1 E w).1 = Returned kept1 /\
    (filter_papers_by_timeframe papers d2 E w).1 = Returned kept2 /\
    kept1 `sublist_of` kept2.
Proof.
  intros Hd Hd1 Hd2 Hc1 Hc2. rewrite !filter_run by done. cbn [fst].
  eexists _, _. split; [done|]. split; [done|].
  apply filter_sublist_impl. unfold spec.retained, usec_of_days, usec_per_day.
  intros p [H|H]; [left|right]; nia.
Qed.

Lemma filter_grows_with_the_window_witness :
  7 <= 40 /\
  Z.abs 7 <= 999999999 /\
  Z.abs 40 <= 999999999 /\
  is_datetime (clock fixtures.env0 (ticks (fixtures.world_of fixtures.heap3))
               - usec_of_days 7) = true /\
  is_datetime (clock fixtures.env0 (ticks (fixtures.world_of fixtures.heap3))
               - usec_of_days 40) = true /\
  exists kept1 kept2,
    (filter_papers_by_timeframe [0; 1; 2]%nat 7 fixtures.env0
       (fixtures.world_of fixtures.heap3)).1 = Returned kept1 /\
    (filter_papers_by_timeframe [0; 1; 2]%nat 40 fixtures.env0
       (fixtures.world_of fixtures.heap3)).1 = Returned kept2 /\
    kept1 `sublist_of` kept2.
Proof.
  assert (H : 7 <= 40) by lia.
  assert (H1 : Z.abs 7 <= 999999999) by (cbn; lia).
  assert (H2 : Z.abs 40 <= 999999999) by (cbn; lia).
  assert (H3 : is_datetime
                 (clock fixtures.env0 (ticks (fixtures.world_of fixtures.heap3))
                  - usec_of_days 7) = true) by (by vm_compute).
  assert (H4 : is_datetime
                 (clock fixtures.env0 (ticks (fixtures.world_of fixtures.heap3))
                  - usec_of_days 40) = true) by (by vm_compute).
  split; [exact H|]. split; [exact H1|]. split; [exact H2|].
  split; [exact H3|]. split; [exact H4|].
  exact (filter_grows_with_the_window fixtures.env0
           (fixtures.world_of fixtures.heap3) [0; 1; 2]%nat 7 40 H H1 H2 H3 H4).
Defined.

(** X6. When no paper of the list was published after it was last updated,
    the filter decides on [updated] alone, and strictly: for a window whose
    cutoff [now - days] is a [datetime], a paper is kept exactly when its
    updated timestamp is later than the cutoff; one updated at the cutoff
    itself is dropped. *)
Theorem filter_decides_on_updated E w papers days :
  Z.abs days <= 999999999 ->
  is_datetime (clock E (ticks w) - usec_of_days days) = true ->
  Forall (fun p => published (heap w p) <= updated (heap w p)) papers ->
  (filter_papers_by_timeframe papers days E w).1 =
  Returned (filter (fun p => clock E (ticks w) - usec_of_days days < updated (heap w p))
                   papers).
Proof.
  intros Hdays Hcut Hinv. rewrite filter_run by done. cbn [fst]. f_equal.
  induction Hinv as [|p rest Hp _ IH]; [done|].
  rewrite !filter_cons, IH. unfold spec.retained.
  destruct (decide (_ \/ _)) as [H|H], (decide (_ < updated _)) as [H'|H'];
    try done; exfalso.
  - destruct H; lia.
  - apply H. by right.
Qed.

Lemma filter_decides_on_updated_witness :
  Z.abs 0 <= 999999999 /\
  is_datetime (clock fixtures.env0 (ticks (fixtures.world_of fixtures.heap_tie))
               - usec_of_days 0) = true /\
  Forall (fun p => published (heap (fixtures.world_of fixtures.heap_tie) p)
                   <= updated (heap (fixtures.world_of fixtures.heap_tie) p))
         [0; 1]%nat /\
  (filter_papers_by_timeframe [0; 1]%nat 0 fixtures.env0
     (fixtures.world_of fixtures.heap_tie)).1 =
  Returned (filter (fun p =>
              clock fixtures.env0 (ticks (fixtures.world_of fixtures.heap_tie))
              - usec_of_days 0
              < updated (heap (fixtures.world_of fixtures.heap_tie) p))
              [0; 1]%nat).
Proof.
  assert (H1 : Z.abs 0 <= 999999999) by (cbn; lia).
  assert (H2 : is_datetime
                 (clock fixtures.env0 (ticks (fixtures.world_of fixtures.heap_tie))
                  - usec_of_days 0) = true) by (by vm_compute).
  assert (H : Forall (fun p =>
                published (heap (fixtures.world_of fixtures.heap_tie) p)
                <= updated (heap (fixtures.world_of fixtures.heap_tie) p))
              [0; 1]%nat).
  { repeat constructor; vm_compute; discriminate. }
  split; [exact H1|]. split; [exact H2|]. split; [exact H|].
  exact (filter_decides_on_updated fixtures.env0
           (fixtures.world_of fixtures.heap_tie) [0; 1]%nat 0 H1 H2 H).
Defined.

(** *** [fetch_recent_papers] on the entries of a feed *)

Lemma paper_details_good E w e p :
  paper_of_entry e = Some p ->
  paper_details e E w =
  (Returned (next_loc w),
   World (ticks w) (heap_set (next_loc w) p (heap w)) (S (next_loc w))
         (trace w) (files w)).
Proof.
  unfold paper_of_entry, paper_details. intros H.
  destruct (e_title e), (e_authors e), (e_summary e), (e_link e),
    (e_published_parsed e), (e_updated_parsed e); try done.
  by injection H as <-.
Qed.

Lemma paper_details_bad E w e :
  paper_of_entry e = None ->
  exists attr, paper_details e E w = (Raised (AttributeError attr), w).
Proof.
  unfold paper_of_entry, paper_details. intros H.
  destruct (e_title e), (e_authors e), (e_summary e), (e_link e),
    (e_published_parsed e), (e_updated_parsed e); try done; by eexists.
Qed.

Lemma entries_loop_good E es : forall ps acc w,
  papers_of_entries es = Some ps ->
  entries_loop es acc E w =
  (Returned (acc ++ seq (next_loc w) (length es)),
   World (ticks w) (allocated (heap w) (next_loc w) ps)
         (next_loc w + length es)%nat (trace w) (files w)).
Proof.
  induction es as [|e rest IH]; intros ps acc w Hps; cbn in Hps.
  - injection Hps as <-. cbn. unfold ret. rewrite app_nil_r, Nat.add_0_r.
    by destruct w.
  - destruct (paper_of_entry e) as [p|] eqn:Hp; [|done].
    destruct (papers_of_entries rest) as [ps'|] eqn:Hrest; [|done].
    injection Hps as <-. cbn [entries_loop].
    erewrite bind_returned by (by apply paper_details_good).
    rewrite (IH ps') by done. cbn [next_loc heap ticks trace files length seq allocated].
    rewrite <- app_assoc. cbn. do 2 f_equal. f_equal. lia.
Qed.

Lemma entries_loop_bad E es : forall acc w,
  papers_of_entries es = None ->
  exists attr w',
    entries_loop es acc E w = (Raised (AttributeError attr), w') /\
    trace w' = trace w /\ files w' = files w.
Proof.
  induction es as [|e rest IH]; intros acc w Hps; cbn in Hps; [done|].
  cbn [entries_loop].
  destruct (paper_of_entry e) as [p|] eqn:Hp.
  - destruct (papers_of_entries rest) eqn:Hrest; [done|].
    erewrite bind_returned by (by apply paper_details_good).
    destruct (IH (acc ++ [next_loc w])
                (World (ticks w) (heap_set (next_loc w) p (heap w))
                       (S (next_loc w)) (trace w) (files w)) eq_refl)
      as (attr & w' & -> & Ht & Hf).
    by exists attr, w'.
  - destruct (paper_details_bad E w e Hp) as [attr Hbad].
    exists attr, w. by erewrite bind_raised.
Qed.

Lemma allocated_below ps : forall h n l,
  (l < n)%nat -> allocated h n ps l = h l.
Proof.
  induction ps as [|p rest IH]; intros h n l Hl; cbn; [done|].
  rewrite IH by lia. apply heap_set_ne. lia.
Qed.

Lemma allocated_at ps : forall h n i p,
  ps !! i = Some p -> allocated h n ps (n + i)%nat = p.
Proof.
  induction ps as [|p0 rest IH]; intros h n i p Hi; [done|].
  destruct i as [|i]; cbn in *.
  - injection Hi as <-. rewrite allocated_below by lia.
    rewrite Nat.add_0_r. apply heap_set_eq.
  - replace (n + S i)%nat with (S n + i)%nat by lia. by apply IH.
Qed.

Lemma papers_of_entries_length es ps :
  papers_of_entries es = Some ps -> length ps = length es.
Proof.
  revert ps. induction es as [|e rest IH]; intros ps H; cbn in H.
  - by injection H as <-.
  - destruct (paper_of_entry e); [|done].
    destruct (papers_of_entries rest) as [ps'|]; [|done].
    injection H as <-. cbn. f_equal. by apply IH.
Qed.

Lemma papers_of_entries_no_score es : forall ps i p,
  papers_of_entries es = Some ps -> ps !! i = Some p -> score p = None.
Proof.
  induction es as [|e rest IH]; intros ps i p Hps Hi; cbn in Hps.
  - by injection Hps as <-.
  - destruct (paper_of_entry e) as [p0|] eqn:Hp0; [|done].
    destruct (papers_of_entries rest) as [ps'|] eqn:Hrest; [|done].
    injection Hps as <-. destruct i as [|i]; cbn in Hi.
    + injection Hi as <-. unfold paper_of_entry in Hp0.
      destruct (e_title e), (e_authors e), (e_summary e), (e_link e),
        (e_published_parsed e), (e_updated_parsed e); try done.
      by injection Hp0 as <-.
    + by eapply IH.
Qed.

(** X7. On a feed that parses and whose entries all carry the six
    attributes read, the fetch returns one new dict per entry, in the order
    of the feed: fresh, pairwise distinct references whose dicts hold the
    entry's fields and no score yet; the dicts that existed before are
    untouched. *)
Theorem fetch_builds_one_dict_per_entry E w query max_results sort_by es ps :
  feedparser_parse E (arxiv_url query max_results sort_by) = Returned (Feed false es) ->
  papers_of_entries es = Some ps ->
  (fetch_recent_papers query max_results sort_by E w).1 =
    Returned (seq (next_loc w) (length es)) /\
  NoDup (seq (next_loc w) (length es)) /\
  (forall i p, ps !! i = Some p ->
     heap (fetch_recent_papers query max_results sort_by E w).2 (next_loc w + i)%nat = p /\
     score p = None) /\
  (forall l, (l < next_loc w)%nat ->
     heap (fetch_recent_papers query max_results sort_by E w).2 l = heap w l).
Proof.
  unfold arxiv_url. intros Hfeed Hps.
  assert (Hrun : fetch_recent_papers query max_results sort_by E w =
    (Returned (seq (next_loc w) (length es)),
     World (ticks w) (allocated (heap w) (next_loc w) ps)
       (next_loc w + length es)%nat
       (trace w ++
        [Printed [Lit "Fetching papers with query: "; Str query; Lit "..."];
         FeedRequest (arxiv_url query max_results sort_by)])
       (files w))).
  { unfold fetch_recent_papers, try_except, bind at 1, print, emit.
    unfold bind at 1. unfold feedparser, bind at 1, emit. cbn.
    rewrite Hfeed. cbn [bozo entries].
    rewrite (entries_loop_good E es ps) by done. cbn.
    by rewrite <- !app_assoc. }
  rewrite Hrun. cbn [fst snd heap].
  split; [done|]. split; [apply NoDup_seq|]. split.
  - intros i p Hi. split; [by apply allocated_at|].
    by eapply papers_of_entries_no_score.
  - intros l Hl. by apply allocated_below.
Qed.

(** X8. The fetch is all or nothing: when the feed parses but one of its
    entries lacks an attribute, the call returns the empty list, whatever
    the other entries hold, and the line it prints names an
    [AttributeError]. *)
Theorem fetch_drops_everything_on_a_malformed_entry E w query max_results sort_by es :
  feedparser_parse E (arxiv_url query max_results sort_by) = Returned (Feed false es) ->
  papers_of_entries es = None ->
  (fetch_recent_papers query max_results sort_by E w).1 = Returned [] /\
  exists attr,
    last (trace (fetch_recent_papers query max_results sort_by E w).2) =
    Some (Printed [Lit "An error occurred: "; Exc (AttributeError attr)]).
Proof.
  unfold arxiv_url. intros Hfeed Hps.
  unfold fetch_recent_papers, try_except, bind at 1, print, emit.
  unfold bind at 1. unfold feedparser, bind at 1, emit. cbn.
  rewrite Hfeed. cbn [bozo entries].
  match goal with
  | |- context [ entries_loop es [] E ?w1 ] =>
      destruct (entries_loop_bad E es [] w1 Hps) as (attr & w' & -> & Ht & _)
  end.
  cbn. split; [done|]. exists attr. by rewrite last_snoc.
Qed.

End source_more.

Section source_witnesses.
Import arxiv_scrapper.

Lemma fetch_builds_one_dict_per_entry_witness :
  feedparser_parse
    (fixtures.with_feed
       (Returned (Feed false [fixtures.entry_ok "a" 5; fixtures.entry_ok "b" 6])))
    (arxiv_url "reinforcement learning" 10 "relevance")
  = Returned (Feed false [fixtures.entry_ok "a" 5; fixtures.entry_ok "b" 6]) /\
  papers_of_entries [fixtures.entry_ok "a" 5; fixtures.entry_ok "b" 6]
  = Some [Paper "a" ["A. Author"] "an abstract" "http://arxiv.org/abs/a" 5 5 None;
          Paper "b" ["A. Author"] "an abstract" "http://arxiv.org/abs/b" 6 6 None] /\
  (fetch_recent_papers "reinforcement learning" 10 "relevance"
     (fixtures.with_feed
        (Returned (Feed false [fixtures.entry_ok "a" 5; fixtures.entry_ok "b" 6])))
     (fixtures.world_of fixtures.heap3)).1 = Returned [3; 4]%nat.
Proof.
  assert (H1 : feedparser_parse
    (fixtures.with_feed
       (Returned (Feed false [fixtures.entry_ok "a" 5; fixtures.entry_ok "b" 6])))
    (arxiv_url "reinforcement learning" 10 "relevance")
    = Returned (Feed false [fixtures.entry_ok "a" 5; fixtures.entry_ok "b" 6]))
    by reflexivity.
  assert (H2 : papers_of_entries [fixtures.entry_ok "a" 5; fixtures.entry_ok "b" 6]
    = Some [Paper "a" ["A. Author"] "an abstract" "http://arxiv.org/abs/a" 5 5 None;
            Paper "b" ["A. Author"] "an abstract" "http://arxiv.org/abs/b" 6 6 None])
    by reflexivity.
  split; [exact H1|]. split; [exact H2|].
  exact (proj1 (fetch_builds_one_dict_per_entry _
                  (fixtures.world_of fixtures.heap3) _ _ _ _ _ H1 H2)).
Defined.

Lemma fetch_drops_everything_on_a_malformed_entry_witness :
  feedparser_parse
    (fixtures.with_feed
       (Returned (Feed false [fixtures.entry_ok "a" 5;
                              fixtures.entry_without_summary "b" 6])))
    (arxiv_url "reinforcement learning" 10 "relevance")
  = Returned (Feed false [fixtures.entry_ok "a" 5;
                          fixtures.entry_without_summary "b" 6]) /\
  papers_of_entries [fixtures.entry_ok "a" 5; fixtures.entry_without_summary "b" 6]
  = None /\
  (fetch_recent_papers "reinforcement learning" 10 "relevance"
     (fixtures.with_feed
        (Returned (Feed false [fixtures.entry_ok "a" 5;
                               fixtures.entry_without_summary "b" 6])))
     (fixtures.world_of fixtures.heap3)).1 = Returned [].
Proof.
  assert (H1 : feedparser_parse
    (fixtures.with_feed
       (Returned (Feed false [fixtures.entry_ok "a" 5;
                              fixtures.entry_without_summary "b" 6])))
    (arxiv_url "reinforcement learning" 10 "relevance")
    = Returned (Feed false [fixtures.entry_ok "a" 5;
                            fixtures.entry_without_summary "b" 6]))
    by reflexivity.
  assert (H2 : papers_of_entries
                 [fixtures.entry_ok "a" 5; fixtures.entry_without_summary "b" 6]
               = None) by reflexivity.
  split; [exact H1|]. split; [exact H2|].
  exact (proj1 (fetch_drops_everything_on_a_malformed_entry _
                  (fixtures.world_of fixtures.heap3) _ _ _ _ H1 H2)).
Defined.

End source_witnesses.

(** ** The renderer, path by path *)

Section renderer_more.
Import script_to_audio.

(** A failed write, with the files it leaves. *)
Lemma failed_write_run E w path content :
  failed_write path content E w =
  (Raised (OSError path),
   World (ticks w) (heap w) (next_loc w) (trace w)
         (left_files E path content (files w))).
Proof.
  unfold failed_write, left_files.
  destruct (left_by_failed_write E path content); [done|]. by destruct w.
Qed.

(** [pcm_to_wav] goes through the file [temp.wav]. *)
Lemma pcm_to_wav_run E w pcm_data sample_rate channels sample_width :
  pcm_to_wav pcm_data sample_rate channels sample_width E w =
  if writable E "temp.wav" then
    if wave_params_ok channels sample_width sample_rate then
      match wave_bytes E channels sample_width sample_rate pcm_data with
      | WaveFile container =>
          (Returned container,
           World (ticks w) (heap w) (next_loc w) (trace w)
                 (delete "temp.wav" (files w)))
      | WaveFailure e debris =>
          (Raised e,
           World (ticks w) (heap w) (next_loc w) (trace w)
                 (<["temp.wav" := debris]> (files w)))
      end
    else
      (Raised WaveError,
       World (ticks w) (heap w) (next_loc w) (trace w)
             (<["temp.wav" := ""]> (files w)))
  else
    (Raised (OSError "temp.wav"),
     World (ticks w) (heap w) (next_loc w) (trace w)
           (left_files E "temp.wav" pcm_data (files w))).
Proof.
  unfold pcm_to_wav, bind, wave_write, read_file, os_remove, ret.
  destruct (writable E "temp.wav") eqn:Hw.
  - destruct (wave_params_ok channels sample_width sample_rate); [|done].
    destruct (wave_bytes E channels sample_width sample_rate pcm_data); [|done].
    run_world. by rewrite delete_insert_eq.
  - by rewrite failed_write_run.
Qed.



(** The whole of [generate_podcast_audio], once its five options are
    read. *)
Lemma generate_podcast_audio_run {S} (script : S) (cfg : config) E w
    key url k1 k2 k3 :
  config_value E cfg "api_keys" "tts_api_key" = Returned key ->
  config_value E cfg "tts" "api_url" = Returned url ->
  config_value E cfg "podcast" "expert_1" = Returned k1 ->
  config_value E cfg "podcast" "expert_2" = Returned k2 ->
  config_value E cfg "podcast" "expert_3" = Returned k3 ->
  generate_podcast_audio script cfg E w =
  rendered E w [Str url; Lit "?key="; Str key] (payload_voices k1 k2 k3).
Proof.
  intros Hkey Hurl H1 H2 H3. unfold generate_podcast_audio.
  erewrite bind_returned by reflexivity.
  do 5 (erewrite bind_returned by (by apply config_get_run)).
  do 3 (erewrite bind_returned by (by apply config_get_run);
        erewrite bind_returned by (apply dict_getitem_voice; auto)).
  unfold rendered, payload_voices, audio_failed, output_file.
  unfold try_except. unfold bind at 1. unfold requests_post_checked at 1.
  unfold bind at 1. unfold emit at 1. cbn [ticks heap next_loc trace files].
  destruct (requests_post E _) as [| |[audio_data|] [mime|]];
    try (cbn; by rewrite <- !app_assoc).
  cbn [fst snd]. unfold inline_data.
  unfold bind at 1. unfold ret at 1.
  unfold bind at 1. unfold ret at 1.
  unfold bind at 1.
  destruct (b64decode E audio_data) as [pcm_data|e].
  2:{ destruct e; cbn; by rewrite <- !app_assoc. }
  unfold bind at 1. rewrite pcm_to_wav_run.
  destruct (writable E "temp.wav") eqn:Htmp.
  2:{ cbn. by rewrite <- !app_assoc. }
  change (wave_params_ok 1 2 24000) with true. cbv iota.
  destruct (wave_bytes E 1 2 24000 pcm_data) as [container|e debris].
  2:{ destruct e; cbn; by rewrite <- !app_assoc. }
  unfold bind at 1. unfold os_makedirs at 1.
  destruct (writable E "output/audio") eqn:Hdir.
  2:{ cbn. by rewrite <- !app_assoc. }
  unfold bind at 1. unfold write_file at 1.
  change ("output/audio" +:+ "/" +:+ "podcast_episode.wav")
    with "output/audio/podcast_episode.wav".
  destruct (writable E "output/audio/podcast_episode.wav") eqn:Hout.
  2:{ rewrite failed_write_run. cbn. by rewrite <- !app_assoc. }
  cbn. by rewrite <- !app_assoc.
Qed.

End renderer_more.

Section renderer_paths.
Import script_to_audio.

(** X10. When [config.get] returns the five options, the service answers
    with audio data and a mime type, the data decode, the [wave] module
    builds the container and the disk can be written,
    [generate_podcast_audio] returns [True] and the episode file holds the
    WAV container of the decoded samples: mono, 2 bytes per sample, at
    24000 Hz whatever the mime type says; no [temp.wav] is left. *)
Theorem render_writes_the_episode {S} (script : S) (cfg : config) E w
    key url k1 k2 k3 audio_data mime pcm_data container :
  config_value E cfg "api_keys" "tts_api_key" = Returned key ->
  config_value E cfg "tts" "api_url" = Returned url ->
  config_value E cfg "podcast" "expert_1" = Returned k1 ->
  config_value E cfg "podcast" "expert_2" = Returned k2 ->
  config_value E cfg "podcast" "expert_3" = Returned k3 ->
  requests_post E [Str url; Lit "?key="; Str key] = TtsBody (Some audio_data) (Some mime) ->
  b64decode E audio_data = Returned pcm_data ->
  wave_bytes E 1 2 24000 pcm_data = WaveFile container ->
  writable E "temp.wav" = true ->
  writable E "output/audio" = true ->
  writable E output_file = true ->
  (generate_podcast_audio script cfg E w).1 = Returned true /\
  files (generate_podcast_audio script cfg E w).2 !! output_file = Some container /\
  files (generate_podcast_audio script cfg E w).2 !! "temp.wav" = None.
Proof.
  intros Hkey Hurl H1 H2 H3 Hreply Hdec Hwave Htmp Hdir Hout.
  rewrite (generate_podcast_audio_run script cfg E w key url k1 k2 k3) by done.
  unfold rendered. rewrite Hreply, Hdec, Htmp, Hwave, Hdir, Hout.
  cbn [fst snd files].
  split; [done|]. split; [apply lookup_insert_eq|].
  rewrite lookup_insert_ne by discriminate. apply lookup_delete_eq.
Qed.

Lemma render_writes_the_episode_witness :
  config_value fixtures.env0 fixtures.settings "api_keys" "tts_api_key"
    = Returned "k" /\
  requests_post fixtures.env0 fixtures.tts_url =
    TtsBody (Some "UENN") (Some "audio/L16;rate=24000") /\
  wave_bytes fixtures.env0 1 2 24000 "UENN" = WaveFile "RIFFUENN" /\
  (generate_podcast_audio fixtures.guest_script fixtures.settings fixtures.env0
     (fixtures.world_of fixtures.heap3)).1 = Returned true /\
  files (generate_podcast_audio fixtures.guest_script fixtures.settings
           fixtures.env0 (fixtures.world_of fixtures.heap3)).2 !! output_file =
    Some "RIFFUENN".
Proof.
  assert (Hk : config_value fixtures.env0 fixtures.settings "api_keys" "tts_api_key"
               = Returned "k") by (by vm_compute).
  assert (Hu : config_value fixtures.env0 fixtures.settings "tts" "api_url"
               = Returned "https://tts.example/v1") by (by vm_compute).
  assert (H1 : config_value fixtures.env0 fixtures.settings "podcast" "expert_1"
               = Returned "ML Expert") by (by vm_compute).
  assert (H2 : config_value fixtures.env0 fixtures.settings "podcast" "expert_2"
               = Returned "Neuroscientist") by (by vm_compute).
  assert (H3 : config_value fixtures.env0 fixtures.settings "podcast" "expert_3"
               = Returned "Psychologist") by (by vm_compute).
  assert (Hr : requests_post fixtures.env0 fixtures.tts_url =
               TtsBody (Some "UENN") (Some "audio/L16;rate=24000")) by reflexivity.
  assert (Hw : wave_bytes fixtures.env0 1 2 24000 "UENN" = WaveFile "RIFFUENN")
    by reflexivity.
  split; [exact Hk|]. split; [exact Hr|]. split; [exact Hw|].
  pose proof (render_writes_the_episode fixtures.guest_script fixtures.settings
                fixtures.env0 (fixtures.world_of fixtures.heap3)
                "k" "https://tts.example/v1" "ML Expert" "Neuroscientist"
                "Psychologist" "UENN" "audio/L16;rate=24000" "UENN" "RIFFUENN"
                Hk Hu H1 H2 H3 Hr eq_refl Hw eq_refl eq_refl eq_refl)
    as (Ha & Hb & _).
  split; [exact Ha|exact Hb].
Defined.

(** X11. When [config.get] returns the five options, a reply that lacks
    the audio data or the mime type is a failure, although the mime type is
    never used: the call returns [False], logs "Unexpected API response
    format" with the missing key, and writes no file. *)
Theorem render_rejects_an_incomplete_reply {S} (script : S) (cfg : config) E w
    key url k1 k2 k3 audio_data mime :
  config_value E cfg "api_keys" "tts_api_key" = Returned key ->
  config_value E cfg "tts" "api_url" = Returned url ->
  config_value E cfg "podcast" "expert_1" = Returned k1 ->
  config_value E cfg "podcast" "expert_2" = Returned k2 ->
  config_value E cfg "podcast" "expert_3" = Returned k3 ->
  requests_post E [Str url; Lit "?key="; Str key] = TtsBody audio_data mime ->
  audio_data = None \/ mime = None ->
  (generate_podcast_audio script cfg E w).1 = Returned false /\
  files (generate_podcast_audio script cfg E w).2 = files w /\
  exists missing,
    last (trace (generate_podcast_audio script cfg E w).2) =
    Some (Logged ERROR [Lit "Unexpected API response format: ";
                        Exc (KeyError missing)]).
Proof.
  intros Hkey Hurl H1 H2 H3 Hreply Hmissing.
  rewrite (generate_podcast_audio_run script cfg E w key url k1 k2 k3) by done.
  unfold rendered, audio_failed. rewrite Hreply.
  destruct audio_data as [d|], mime as [m|]; cbn [fst snd files trace].
  - by destruct Hmissing.
  - repeat split; try done. exists "mimeType".
    by rewrite !app_assoc, last_snoc.
  - repeat split; try done. exists "data".
    by rewrite !app_assoc, last_snoc.
  - repeat split; try done. exists "data".
    by rewrite !app_assoc, last_snoc.
Qed.

Lemma render_rejects_an_incomplete_reply_witness :
  config_value (fixtures.with_tts (TtsBody (Some "UENN") None) (fun _ => true))
    fixtures.settings "api_keys" "tts_api_key" = Returned "k" /\
  requests_post (fixtures.with_tts (TtsBody (Some "UENN") None) (fun _ => true))
    fixtures.tts_url = TtsBody (Some "UENN") None /\
  (Some "UENN" = None \/ (None : option string) = None) /\
  (generate_podcast_audio fixtures.guest_script fixtures.settings
     (fixtures.with_tts (TtsBody (Some "UENN") None) (fun _ => true))
     (fixtures.world_of fixtures.heap3)).1 = Returned false.
Proof.
  assert (Hk : config_value (fixtures.with_tts (TtsBody (Some "UENN") None) (fun _ => true)) fixtures.settings "api_keys" "tts_api_key"
               = Returned "k") by (by vm_compute).
  assert (Hu : config_value (fixtures.with_tts (TtsBody (Some "UENN") None) (fun _ => true)) fixtures.settings "tts" "api_url"
               = Returned "https://tts.example/v1") by (by vm_compute).
  assert (H1 : config_value (fixtures.with_tts (TtsBody (Some "UENN") None) (fun _ => true)) fixtures.settings "podcast" "expert_1"
               = Returned "ML Expert") by (by vm_compute).
  assert (H2 : config_value (fixtures.with_tts (TtsBody (Some "UENN") None) (fun _ => true)) fixtures.settings "podcast" "expert_2"
               = Returned "Neuroscientist") by (by vm_compute).
  assert (H3 : config_value (fixtures.with_tts (TtsBody (Some "UENN") None) (fun _ => true)) fixtures.settings "podcast" "expert_3"
               = Returned "Psychologist") by (by vm_compute).
  assert (Hr : requests_post
                 (fixtures.with_tts (TtsBody (Some "UENN") None) (fun _ => true))
                 fixtures.tts_url = TtsBody (Some "UENN") None) by reflexivity.
  assert (Hm : Some "UENN" = None \/ (None : option string) = None) by (by right).
  split; [exact Hk|]. split; [exact Hr|]. split; [exact Hm|].
  exact (proj1 (render_rejects_an_incomplete_reply fixtures.guest_script
                  fixtures.settings _ (fixtures.world_of fixtures.heap3)
                  "k" "https://tts.example/v1" "ML Expert" "Neuroscientist"
                  "Psychologist" _ _ Hk Hu H1 H2 H3 Hr Hm)).
Defined.

(** X12. What fails before the episode is written leaves the previous
    episode in place: when [config.get] returns the five options and the
    episode file itself can be written, a call that returns [False] (a
    transport or HTTP error, an incomplete reply, data that do not decode, a
    [temp.wav] that cannot be written or that the [wave] module gives up on,
    an output directory that cannot be made) has left the episode file
    exactly as it was. *)
Theorem render_failure_leaves_the_episode {S} (script : S) (cfg : config) E w
    key url k1 k2 k3 :
  config_value E cfg "api_keys" "tts_api_key" = Returned key ->
  config_value E cfg "tts" "api_url" = Returned url ->
  config_value E cfg "podcast" "expert_1" = Returned k1 ->
  config_value E cfg "podcast" "expert_2" = Returned k2 ->
  config_value E cfg "podcast" "expert_3" = Returned k3 ->
  writable E output_file = true ->
  (generate_podcast_audio script cfg E w).1 = Returned false ->
  files (generate_podcast_audio script cfg E w).2 !! output_file =
  files w !! output_file.
Proof.
  intros Hkey Hurl H1 H2 H3 Hout.
  rewrite (generate_podcast_audio_run script cfg E w key url k1 k2 k3) by done.
  unfold rendered, audio_failed.
  destruct (requests_post E _) as [| |[d|] [m|]]; cbn [fst snd files]; try done.
  destruct (b64decode E d) as [pcm|e]; cbn [fst snd files]; try done.
  destruct (writable E "temp.wav"); cbn [fst snd files].
  2:{ intros _. unfold left_files.
      destruct (left_by_failed_write E "temp.wav" pcm); [|done].
      by rewrite lookup_insert_ne. }
  destruct (wave_bytes E 1 2 24000 pcm) as [container|e debris];
    cbn [fst snd files].
  2:{ intros _. by rewrite lookup_insert_ne. }
  destruct (writable E "output/audio"); cbn [fst snd files].
  - rewrite Hout. cbn [fst]. done.
  - intros _. by rewrite lookup_delete_ne.
Qed.

Lemma render_failure_leaves_the_episode_witness :
  writable fixtures.env_tts_down output_file = true /\
  (generate_podcast_audio fixtures.guest_script fixtures.settings
     fixtures.env_tts_down (fixtures.world_of fixtures.heap3)).1 = Returned false /\
  files (generate_podcast_audio fixtures.guest_script fixtures.settings
           fixtures.env_tts_down (fixtures.world_of fixtures.heap3)).2
    !! output_file =
  files (fixtures.world_of fixtures.heap3) !! output_file.
Proof.
  assert (Hk : config_value fixtures.env_tts_down fixtures.settings "api_keys" "tts_api_key"
               = Returned "k") by (by vm_compute).
  assert (Hu : config_value fixtures.env_tts_down fixtures.settings "tts" "api_url"
               = Returned "https://tts.example/v1") by (by vm_compute).
  assert (H1 : config_value fixtures.env_tts_down fixtures.settings "podcast" "expert_1"
               = Returned "ML Expert") by (by vm_compute).
  assert (H2 : config_value fixtures.env_tts_down fixtures.settings "podcast" "expert_2"
               = Returned "Neuroscientist") by (by vm_compute).
  assert (H3 : config_value fixtures.env_tts_down fixtures.settings "podcast" "expert_3"
               = Returned "Psychologist") by (by vm_compute).
  assert (Ho : writable fixtures.env_tts_down output_file = true) by reflexivity.
  assert (Hf : (generate_podcast_audio fixtures.guest_script fixtures.settings
                  fixtures.env_tts_down (fixtures.world_of fixtures.heap3)).1
               = Returned false) by (by vm_compute).
  split; [exact Ho|]. split; [exact Hf|].
  exact (render_failure_leaves_the_episode fixtures.guest_script fixtures.settings
           fixtures.env_tts_down (fixtures.world_of fixtures.heap3)
           "k" "https://tts.example/v1" "ML Expert" "Neuroscientist"
           "Psychologist" Hk Hu H1 H2 H3 Ho Hf).
Defined.

(** The voices of the payload, by the coincidences among the three names. *)
Lemma payload_voices_cases k1 k2 k3 :
  (k1 <> k2 -> k1 <> k3 -> k2 <> k3 ->
   payload_voices k1 k2 k3 =
   [("expert_1", "Zephyr"); ("expert_2", "Puck"); ("expert_3", "Kore")]) /\
  (k1 = k2 -> k2 <> k3 ->
   payload_voices k1 k2 k3 =
   [("expert_1", "Puck"); ("expert_2", "Puck"); ("expert_3", "Kore")]) /\
  (k2 = k3 -> k1 <> k3 ->
   payload_voices k1 k2 k3 =
   [("expert_1", "Zephyr"); ("expert_2", "Kore"); ("expert_3", "Kore")]) /\
  (k1 = k3 ->
   payload_voices k1 k2 k3 =
   [("expert_1", "Kore"); ("expert_2", voice_of k1 k2 k3 k2); ("expert_3", "Kore")]).
Proof.
  unfold payload_voices, voice_of, voice_mapping.
  repeat split; intros; subst;
    repeat (rewrite ?lookup_insert_eq;
            rewrite ?lookup_insert_ne by congruence); done.
Qed.

(** X13. The voices sent follow the dict literal [speaker_voice_mapping]:
    once [config.get] has returned the five options, when the three
    configured speaker names are distinct the request names the voices
    Zephyr, Puck and Kore, in that order; when [expert_1] and [expert_2] are
    the same name the later entry of the literal replaces the earlier one
    and the request names Puck for both. *)
Theorem render_voices_follow_the_mapping {S} (script : S) (cfg : config) E w
    key url k1 k2 k3 :
  config_value E cfg "api_keys" "tts_api_key" = Returned key ->
  config_value E cfg "tts" "api_url" = Returned url ->
  config_value E cfg "podcast" "expert_1" = Returned k1 ->
  config_value E cfg "podcast" "expert_2" = Returned k2 ->
  config_value E cfg "podcast" "expert_3" = Returned k3 ->
  (k1 <> k2 -> k1 <> k3 -> k2 <> k3 ->
   HttpPost [Str url; Lit "?key="; Str key]
     [("expert_1", "Zephyr"); ("expert_2", "Puck"); ("expert_3", "Kore")]
     ∈ trace (generate_podcast_audio script cfg E w).2) /\
  (k1 = k2 -> k2 <> k3 ->
   HttpPost [Str url; Lit "?key="; Str key]
     [("expert_1", "Puck"); ("expert_2", "Puck"); ("expert_3", "Kore")]
     ∈ trace (generate_podcast_audio script cfg E w).2).
Proof.
  intros Hkey Hurl H1 H2 H3.
  pose proof (proj1 (generate_podcast_audio_posts script cfg E w key url k1 k2 k3
                       Hkey Hurl H1 H2 H3)) as Hpost.
  fold (payload_voices k1 k2 k3) in Hpost.
  destruct (payload_voices_cases k1 k2 k3) as (Hdistinct & Hsame & _).
  split.
  - intros Ha Hb Hc. by rewrite <- (Hdistinct Ha Hb Hc).
  - intros Ha Hb. by rewrite <- (Hsame Ha Hb).
Qed.

Lemma render_voices_follow_the_mapping_witness :
  config_value fixtures.env0 fixtures.settings "podcast" "expert_1"
    = Returned "ML Expert" /\
  config_value fixtures.env0 fixtures.settings "podcast" "expert_2"
    = Returned "Neuroscientist" /\
  config_value fixtures.env0 fixtures.settings "podcast" "expert_3"
    = Returned "Psychologist" /\
  HttpPost [Str "https://tts.example/v1"; Lit "?key="; Str "k"]
    [("expert_1", "Zephyr"); ("expert_2", "Puck"); ("expert_3", "Kore")]
    ∈ trace (generate_podcast_audio fixtures.guest_script fixtures.settings
               fixtures.env0 (fixtures.world_of fixtures.heap3)).2.
Proof.
  assert (Hk : config_value fixtures.env0 fixtures.settings "api_keys" "tts_api_key"
               = Returned "k") by (by vm_compute).
  assert (Hu : config_value fixtures.env0 fixtures.settings "tts" "api_url"
               = Returned "https://tts.example/v1") by (by vm_compute).
  assert (H1 : config_value fixtures.env0 fixtures.settings "podcast" "expert_1"
               = Returned "ML Expert") by (by vm_compute).
  assert (H2 : config_value fixtures.env0 fixtures.settings "podcast" "expert_2"
               = Returned "Neuroscientist") by (by vm_compute).
  assert (H3 : config_value fixtures.env0 fixtures.settings "podcast" "expert_3"
               = Returned "Psychologist") by (by vm_compute).
  split; [exact H1|]. split; [exact H2|]. split; [exact H3|].
  apply (proj1 (render_voices_follow_the_mapping fixtures.guest_script
                  fixtures.settings fixtures.env0 (fixtures.world_of fixtures.heap3)
                  "k" "https://tts.example/v1" "ML Expert" "Neuroscientist"
                  "Psychologist" Hk Hu H1 H2 H3)); discriminate.
Defined.

Lemma config_value_missing E (cfg : config) section key :
  option_of cfg section key = None ->
  config_value E cfg section key = Raised (NoSectionError section) \/
  config_value E cfg section key = Raised (NoOptionError section key).
Proof.
  unfold option_of, config_value. intros H.
  destruct (cfg !! section) as [opts|]; [|by left].
  rewrite H. by right.
Qed.

Lemma config_value_class E (cfg : config) section key e :
  percent_free cfg ->
  config_value E cfg section key = Raised e ->
  (exists section, e = NoSectionError section) \/
  (exists section key, e = NoOptionError section key).
Proof.
  intros Hfree. destruct (option_of cfg section key) as [v|] eqn:Hv.
  - rewrite (config_value_plain E cfg section key v Hv) by (by eapply Hfree). done.
  - destruct (config_value_missing E cfg section key Hv) as [-> | ->];
      intros [= <-]; eauto.
Qed.

(** X14. Nothing is sent while the configuration is incomplete: if one of
    the five options the renderer reads is missing, the call raises (the
    failure is not turned into [False]) and the trace holds the start-up
    record only, no request.  The exception is that of the first of the five
    reads that fails; where no stored text holds a '%' it is the
    [NoSectionError] or [NoOptionError] of [configparser]. *)
Theorem render_needs_its_five_options {S} (script : S) (cfg : config) E w :
  option_of cfg "api_keys" "tts_api_key" = None \/
  option_of cfg "tts" "api_url" = None \/
  option_of cfg "podcast" "expert_1" = None \/
  option_of cfg "podcast" "expert_2" = None \/
  option_of cfg "podcast" "expert_3" = None ->
  exists e,
    generate_podcast_audio script cfg E w =
    (Raised e,
     World (ticks w) (heap w) (next_loc w)
           (trace w ++ [Logged INFO [Lit "Starting audio generation..."]])
           (files w)) /\
    first_failure E cfg renderer_options = Some e /\
    (percent_free cfg ->
     (exists section, e = NoSectionError section) \/
     (exists section key, e = NoOptionError section key)).
Proof.
  intros Hmiss. unfold generate_podcast_audio.
  erewrite bind_returned by reflexivity.
  cbn [first_failure renderer_options].
  destruct (config_value E cfg "api_keys" "tts_api_key") as [key|e] eqn:Hk.
  2:{ exists e. split; [by erewrite bind_raised by (by apply config_get_raised)|].
      split; [done|]. intros Hfree. by eapply config_value_class. }
  erewrite bind_returned by (by apply config_get_run).
  destruct (config_value E cfg "tts" "api_url") as [url|e] eqn:Hu.
  2:{ exists e. split; [by erewrite bind_raised by (by apply config_get_raised)|].
      split; [done|]. intros Hfree. by eapply config_value_class. }
  erewrite bind_returned by (by apply config_get_run).
  destruct (config_value E cfg "podcast" "expert_1") as [k1|e] eqn:H1.
  2:{ exists e. split; [by erewrite bind_raised by (by apply config_get_raised)|].
      split; [done|]. intros Hfree. by eapply config_value_class. }
  erewrite bind_returned by (by apply config_get_run).
  destruct (config_value E cfg "podcast" "expert_2") as [k2|e] eqn:H2.
  2:{ exists e. split; [by erewrite bind_raised by (by apply config_get_raised)|].
      split; [done|]. intros Hfree. by eapply config_value_class. }
  erewrite bind_returned by (by apply config_get_run).
  destruct (config_value E cfg "podcast" "expert_3") as [k3|e] eqn:H3.
  2:{ exists e. split; [by erewrite bind_raised by (by apply config_get_raised)|].
      split; [done|]. intros Hfree. by eapply config_value_class. }
  exfalso.
  destruct Hmiss as [Hm|[Hm|[Hm|[Hm|Hm]]]];
    destruct (config_value_missing E cfg _ _ Hm); congruence.
Qed.

End renderer_paths.

Section renderer_witnesses.
Import script_to_audio.

Lemma render_needs_its_five_options_witness :
  (option_of fixtures.settings_without_tts "api_keys" "tts_api_key" = None \/
   option_of fixtures.settings_without_tts "tts" "api_url" = None \/
   option_of fixtures.settings_without_tts "podcast" "expert_1" = None \/
   option_of fixtures.settings_without_tts "podcast" "expert_2" = None \/
   option_of fixtures.settings_without_tts "podcast" "expert_3" = None) /\
  exists e,
    generate_podcast_audio fixtures.guest_script fixtures.settings_without_tts
      fixtures.env0 (fixtures.world_of fixtures.heap3) =
    (Raised e,
     World (ticks (fixtures.world_of fixtures.heap3))
           (heap (fixtures.world_of fixtures.heap3))
           (next_loc (fixtures.world_of fixtures.heap3))
           (trace (fixtures.world_of fixtures.heap3) ++
              [Logged INFO [Lit "Starting audio generation..."]])
           (files (fixtures.world_of fixtures.heap3))) /\
    first_failure fixtures.env0 fixtures.settings_without_tts renderer_options
      = Some e /\
    (percent_free fixtures.settings_without_tts ->
     (exists section, e = NoSectionError section) \/
     (exists section key, e = NoOptionError section key)).
Proof.
  assert (H : option_of fixtures.settings_without_tts "api_keys" "tts_api_key" = None \/
              option_of fixtures.settings_without_tts "tts" "api_url" = None \/
              option_of fixtures.settings_without_tts "podcast" "expert_1" = None \/
              option_of fixtures.settings_without_tts "podcast" "expert_2" = None \/
              option_of fixtures.settings_without_tts "podcast" "expert_3" = None).
  { right. left. by vm_compute. }
  split; [exact H|].
  exact (render_needs_its_five_options fixtures.guest_script
           fixtures.settings_without_tts fixtures.env0
           (fixtures.world_of fixtures.heap3) H).
Defined.

End renderer_witnesses.

(** ** The synthesizer outside its [try] block, and its temporary file *)

Section synthesizer_more.
Import llm_podcaster.

(** X15. What goes wrong before the [try] block is not turned into the
    empty string: when [config.get] fails on the option [llm.model_path]
    (the option or its section is missing, or its text cannot be
    interpolated), or the model cannot be loaded,
    [generate_podcast_script] raises to its caller; the generation service
    is not queried and no file is touched. *)
Theorem synthesizer_raises_before_its_try paper (cfg : config) E w :
  (exists e, config_value E cfg "llm" "model_path" = Raised e) \/
  (exists model_path e,
     config_value E cfg "llm" "model_path" = Returned model_path /\
     llama_load E model_path = Raised e) ->
  exists e,
    generate_podcast_script paper cfg E w =
    (Raised e,
     World (ticks w) (heap w) (next_loc w)
           (trace w ++ [generating_record (heap w paper)]) (files w)).
Proof.
  intros Hbad. unfold generate_podcast_script.
  erewrite bind_returned by reflexivity.
  erewrite bind_returned by reflexivity.
  destruct Hbad as [[e Hnone]|(model_path & e & Hsome & Hload)].
  - exists e. by erewrite bind_raised by (by apply config_get_raised).
  - erewrite bind_returned by (by apply config_get_run).
    exists e. erewrite bind_raised; [done|]. unfold LlamaCPP. by rewrite Hload.
Qed.

Lemma synthesizer_raises_before_its_try_witness :
  option_of (delete "llm" fixtures.settings) "llm" "model_path" = None /\
  ((exists e, config_value fixtures.env0 (delete "llm" fixtures.settings)
                "llm" "model_path" = Raised e) \/
   (exists model_path e,
      config_value fixtures.env0 (delete "llm" fixtures.settings)
        "llm" "model_path" = Returned model_path /\
      llama_load fixtures.env0 model_path = Raised e)) /\
  exists e,
    generate_podcast_script 0%nat (delete "llm" fixtures.settings) fixtures.env0
      (fixtures.world_of fixtures.heap3) =
    (Raised e,
     World (ticks (fixtures.world_of fixtures.heap3))
           (heap (fixtures.world_of fixtures.heap3))
           (next_loc (fixtures.world_of fixtures.heap3))
           (trace (fixtures.world_of fixtures.heap3) ++
              [generating_record (heap (fixtures.world_of fixtures.heap3) 0%nat)])
           (files (fixtures.world_of fixtures.heap3))).
Proof.
  assert (H : (exists e, config_value fixtures.env0 (delete "llm" fixtures.settings)
                           "llm" "model_path" = Raised e) \/
              (exists model_path e,
                 config_value fixtures.env0 (delete "llm" fixtures.settings)
                   "llm" "model_path" = Returned model_path /\
                 llama_load fixtures.env0 model_path = Raised e)).
  { left. exists (NoSectionError "llm"). by vm_compute. }
  split; [by vm_compute|]. split; [exact H|].
  exact (synthesizer_raises_before_its_try 0%nat (delete "llm" fixtures.settings)
           fixtures.env0 (fixtures.world_of fixtures.heap3) H).
Defined.

(** The run where the temporary file cannot be opened and nothing stands
    at its path: the [except] clause answers, the [finally] clause finds
    nothing to remove. *)
Lemma generate_podcast_script_unwritable E w paper (cfg : config) model_path :
  config_value E cfg "llm" "model_path" = Returned model_path ->
  llama_load E model_path = Returned tt ->
  writable E "temp_paper_content.txt" = false ->
  left_by_failed_write E "temp_paper_content.txt" (text_content (heap w paper)) = None ->
  files w !! "temp_paper_content.txt" = None ->
  generate_podcast_script paper cfg E w =
  if is_dir E "temp_paper_content.txt" then
    (Raised (OSError "temp_paper_content.txt"),
     World (ticks w) (heap w) (next_loc w)
       (trace w ++ [generating_record (heap w paper);
                    Logged ERROR [Lit "Failed to generate podcast script: ";
                                  Exc (OSError "temp_paper_content.txt")]])
       (files w))
  else
    (Returned "",
     World (ticks w) (heap w) (next_loc w)
       (trace w ++ [generating_record (heap w paper);
                    Logged ERROR [Lit "Failed to generate podcast script: ";
                                  Exc (OSError "temp_paper_content.txt")]])
       (files w)).
Proof.
  intros Ho Hl Hw Hleft Hold. unfold generate_podcast_script.
  erewrite bind_returned by reflexivity.
  erewrite bind_returned by reflexivity.
  erewrite bind_returned by (by apply config_get_run).
  erewrite bind_returned by (unfold LlamaCPP; by rewrite Hl).
  erewrite bind_returned by reflexivity.
  erewrite bind_returned by reflexivity.
  unfold try_finally, try_except, bind, write_file, failed_write, logging, emit,
    path_exists, os_remove, ret.
  unfold text_content in Hleft. cbn [files trace ticks heap next_loc].
  rewrite Hw, Hleft.
  cbn [files trace ticks heap next_loc]. rewrite Hold.
  rewrite bool_decide_eq_false_2 by (by intros [? ?]). cbn [orb].
  unfold generating_record.
  destruct (is_dir E "temp_paper_content.txt"); cbn; rewrite ?Hold;
    by rewrite <- !app_assoc.
Qed.

(** X16. With the model loaded, where the temporary file can be written,
    [generate_podcast_script] returns, and when it does the file
    [temp_paper_content.txt] does not exist (the [finally] clause removes
    it, also a file of that name that was there before the call) and every
    other file is as it was.  Where the file cannot be opened and nothing
    stands at its path, the result is the empty string, the generation
    service is never queried and no file is touched.  Where a directory
    stands at its path, [os.remove] fails in the [finally] clause, and its
    [OSError] leaves the function in place of the empty string. *)
Theorem synthesizer_removes_its_temporary_file E w paper (cfg : config) model_path :
  config_value E cfg "llm" "model_path" = Returned model_path ->
  llama_load E model_path = Returned tt ->
  (writable E "temp_paper_content.txt" = true ->
   (exists script, (generate_podcast_script paper cfg E w).1 = Returned script) /\
   files (generate_podcast_script paper cfg E w).2 =
     delete "temp_paper_content.txt" (files w)) /\
  (writable E "temp_paper_content.txt" = false ->
   left_by_failed_write E "temp_paper_content.txt" (text_content (heap w paper)) = None ->
   files w !! "temp_paper_content.txt" = None ->
   (is_dir E "temp_paper_content.txt" = false ->
    (generate_podcast_script paper cfg E w).1 = Returned "") /\
   (is_dir E "temp_paper_content.txt" = true ->
    (generate_podcast_script paper cfg E w).1 =
      Raised (OSError "temp_paper_content.txt")) /\
   files (generate_podcast_script paper cfg E w).2 = files w /\
   trace (generate_podcast_script paper cfg E w).2 =
     trace w ++ [generating_record (heap w paper);
                 Logged ERROR [Lit "Failed to generate podcast script: ";
                               Exc (OSError "temp_paper_content.txt")]]).
Proof.
  intros Ho Hl. split.
  - intros Hw.
    rewrite (generate_podcast_script_run E w paper cfg model_path Ho Hl Hw).
    destruct (llama_query E _ _) as [raw|e]; cbn [fst snd files];
      (split; [by eexists|]); by rewrite delete_insert_eq.
  - intros Hw Hleft Hold.
    rewrite (generate_podcast_script_unwritable E w paper cfg model_path
               Ho Hl Hw Hleft Hold).
    destruct (is_dir E "temp_paper_content.txt"); cbn [fst snd files trace];
      repeat split; done.
Qed.

Lemma synthesizer_removes_its_temporary_file_witness :
  config_value fixtures.env0 fixtures.settings "llm" "model_path"
    = Returned "models/llama-3.gguf" /\
  llama_load fixtures.env0 "models/llama-3.gguf" = Returned tt /\
  writable fixtures.env0 "temp_paper_content.txt" = true /\
  files (generate_podcast_script 0%nat fixtures.settings fixtures.env0
           (fixtures.world_of fixtures.heap3)).2 =
    delete "temp_paper_content.txt" (files (fixtures.world_of fixtures.heap3)) /\
  writable fixtures.env_tmp_is_dir "temp_paper_content.txt" = false /\
  is_dir fixtures.env_tmp_is_dir "temp_paper_content.txt" = true /\
  (generate_podcast_script 0%nat fixtures.settings fixtures.env_tmp_is_dir
     (fixtures.world_of fixtures.heap3)).1 =
    Raised (OSError "temp_paper_content.txt").
Proof.
  assert (H1 : config_value fixtures.env0 fixtures.settings "llm" "model_path"
               = Returned "models/llama-3.gguf") by (by vm_compute).
  assert (H2 : llama_load fixtures.env0 "models/llama-3.gguf" = Returned tt)
    by reflexivity.
  assert (H3 : writable fixtures.env0 "temp_paper_content.txt" = true)
    by reflexivity.
  assert (H1' : config_value fixtures.env_tmp_is_dir fixtures.settings
                  "llm" "model_path" = Returned "models/llama-3.gguf")
    by (by vm_compute).
  assert (H2' : llama_load fixtures.env_tmp_is_dir "models/llama-3.gguf"
                = Returned tt) by reflexivity.
  assert (H4 : writable fixtures.env_tmp_is_dir "temp_paper_content.txt" = false)
    by reflexivity.
  assert (H5 : is_dir fixtures.env_tmp_is_dir "temp_paper_content.txt" = true)
    by reflexivity.
  split; [exact H1|]. split; [exact H2|]. split; [exact H3|].
  split.
  { exact (proj2 (proj1 (synthesizer_removes_its_temporary_file fixtures.env0
                           (fixtures.world_of fixtures.heap3) 0%nat
                           fixtures.settings "models/llama-3.gguf" H1 H2) H3)). }
  split; [exact H4|]. split; [exact H5|].
  exact (proj1 (proj2 (proj2 (synthesizer_removes_its_temporary_file
                                fixtures.env_tmp_is_dir
                                (fixtures.world_of fixtures.heap3) 0%nat
                                fixtures.settings "models/llama-3.gguf" H1' H2')
                         H4 eq_refl eq_refl)) H5).
Defined.

End synthesizer_more.

(** ** The orchestrator on its exits *)

Section orchestrator_more.
Import main_py.

(** X17. [main] lets no [Exception] out: whatever the five stage functions
    return, and whichever exception of class [Exception] they raise, the
    call returns [None].  ([KeyboardInterrupt] and [SystemExit], which the
    clause [except Exception] does not catch, are not [Exception]s, and not
    part of the model.) *)
Theorem main_never_raises st E w :
  (main st E w).1 = Returned tt.
Proof. by rewrite (proj1 (main_is_run st E w)). Qed.

(** The run of [main] in front of the scraper of the repository. *)
Lemma main_with_repository_scraper st E w :
  scrape_papers st = arxiv_scrapper.scrape_papers ->
  main st E w =
  match read_config E "./config/settings.ini" with
  | Raised e =>
      (Returned tt,
       World (ticks w) (heap w) (next_loc w)
         ((trace w ++ [Logged INFO [Lit "Starting the AI podcast generation pipeline."]])
          ++ [Logged CRITICAL
                [Lit "An unhandled error occurred in the pipeline: "; Exc e]])
         (files w))
  | Returned cfg =>
      match arxiv_scrapper.scrape_papers cfg E
              (World (ticks w) (heap w) (next_loc w)
                 ((trace w ++
                   [Logged INFO [Lit "Starting the AI podcast generation pipeline."]])
                  ++ [Logged INFO [Lit "Step 1: Scraping papers from arXiv."]])
                 (files w)) with
      | (Returned _, w2) =>
          (Returned tt,
           World (ticks w2) (heap w2) (next_loc w2)
             (trace w2 ++
              [Logged WARNING [Lit "No new papers found. Exiting pipeline."]])
             (files w2))
      | (Raised e, w2) =>
          (Returned tt,
           World (ticks w2) (heap w2) (next_loc w2)
             (trace w2 ++
              [Logged CRITICAL
                 [Lit "An unhandled error occurred in the pipeline: "; Exc e]])
             (files w2))
      end
  end.
Proof.
  intros Hs. unfold main.
  unfold try_except, unhandled, bind at 1, logging, emit.
  unfold bind at 1. unfold load_config.
  destruct (read_config E "./config/settings.ini") as [cfg|e]; [|done].
  cbn [fst snd ticks heap next_loc trace files].
  unfold bind at 1. unfold bind at 1. rewrite Hs.
  cbn [fst snd ticks heap next_loc trace files].
  match goal with
  | |- context [ arxiv_scrapper.scrape_papers cfg E ?w1 ] =>
      pose proof (scrape_papers_returns_None cfg E w1) as Hnone;
      destruct (arxiv_scrapper.scrape_papers cfg E w1) as [[v|e] w2]
  end; cbn [fst] in Hnone; [|done].
  by destruct Hnone as [[= ->]|[e [=]]].
Qed.

(** X18. With the scraper of the repository as first stage, [main] never
    calls a later stage: [scrape_papers] hands back no list, so the run
    takes the first exit (or the handler, when the scraper raises) and is
    the same run whatever ranker, selector, synthesizer and renderer it is
    given; its last record is the warning "No new papers found" or the
    CRITICAL record of the handler. *)
Theorem main_stops_after_the_repository_scraper st st' E w :
  scrape_papers st = arxiv_scrapper.scrape_papers ->
  scrape_papers st' = arxiv_scrapper.scrape_papers ->
  main st E w = main st' E w /\
  (last (trace (main st E w).2) =
     Some (Logged WARNING [Lit "No new papers found. Exiting pipeline."]) \/
   exists e,
     last (trace (main st E w).2) =
     Some (Logged CRITICAL
             [Lit "An unhandled error occurred in the pipeline: "; Exc e])).
Proof.
  intros Hs Hs'.
  rewrite (main_with_repository_scraper st E w Hs).
  rewrite (main_with_repository_scraper st' E w Hs').
  split; [done|].
  destruct (read_config E "./config/settings.ini") as [cfg|e].
  2:{ right. exists e. cbn. by rewrite last_snoc. }
  match goal with
  | |- context [ arxiv_scrapper.scrape_papers cfg E ?w1 ] =>
      destruct (arxiv_scrapper.scrape_papers cfg E w1) as [[v|e] w2]
  end; cbn.
  - left. by rewrite last_snoc.
  - right. exists e. by rewrite last_snoc.
Qed.

Lemma main_stops_after_the_repository_scraper_witness :
  scrape_papers fixtures.repo_scrape_stages = arxiv_scrapper.scrape_papers /\
  main fixtures.repo_scrape_stages fixtures.env0 (fixtures.world_of fixtures.heap3) =
  main (Stages arxiv_scrapper.scrape_papers
          (fun _ _ => raise TypeError) (fun _ => raise TypeError)
          (fun _ _ => raise TypeError) (fun _ _ => raise TypeError))
       fixtures.env0 (fixtures.world_of fixtures.heap3).
Proof.
  split; [reflexivity|].
  exact (proj1 (main_stops_after_the_repository_scraper
                  fixtures.repo_scrape_stages
                  (Stages arxiv_scrapper.scrape_papers
                     (fun _ _ => raise TypeError) (fun _ => raise TypeError)
                     (fun _ _ => raise TypeError) (fun _ _ => raise TypeError))
                  fixtures.env0 (fixtures.world_of fixtures.heap3)
                  eq_refl eq_refl)).
Defined.

(** X19. A script that cannot be saved is not rendered: at the point
    where [main] saves the script, if the script directory or the script file
    cannot be written, or the script is not JSON serializable, the run ends
    there in the handler, with a CRITICAL record, and the renderer is not
    called. *)
Theorem unsaved_script_is_not_rendered st E w config content :
  writable E script_dir = false \/
  writable E (script_path (strftime E (clock E (ticks w)))) = false \/
  json_dumps E content = None ->
  (step st (AtPersist config content) E w).1 = Returned Exited /\
  exists e,
    last (trace (step st (AtPersist config content) E w).2) =
    Some (Logged CRITICAL
            [Lit "An unhandled error occurred in the pipeline: "; Exc e]).
Proof.
  intros Hbad. cbn [step].
  repeat (progress unfold guarded, try_except, unhandled, bind, json_dump,
            write_file, os_makedirs, datetime_now, ask, logging, emit, ret, raise).
  cbn [fst snd ticks heap next_loc trace files].
  destruct (writable E script_dir) eqn:Hdir.
  2:{ cbn. split; [done|]. eexists. by rewrite last_snoc. }
  cbn [fst snd ticks heap next_loc trace files].
  destruct (writable E (script_path _)) eqn:Hfile.
  2:{ cbn. split; [done|]. eexists. by rewrite last_snoc. }
  cbn [fst snd ticks heap next_loc trace files].
  destruct (json_dumps E content) as [s|] eqn:Hjson.
  - exfalso. destruct Hbad as [?|[?|?]]; congruence.
  - cbn. split; [done|]. eexists. by rewrite last_snoc.
Qed.

Lemma unsaved_script_is_not_rendered_witness :
  (writable (fixtures.with_tts TtsTransportError (fun _ => false)) script_dir = false \/
   writable (fixtures.with_tts TtsTransportError (fun _ => false))
     (script_path (strftime (fixtures.with_tts TtsTransportError (fun _ => false))
        (clock (fixtures.with_tts TtsTransportError (fun _ => false))
           (ticks (fixtures.world_of fixtures.heap3))))) = false \/
   json_dumps (fixtures.with_tts TtsTransportError (fun _ => false))
     (PyStr "ML Expert: hello") = None) /\
  (step fixtures.demo_stages (AtPersist fixtures.settings (PyStr "ML Expert: hello"))
     (fixtures.with_tts TtsTransportError (fun _ => false))
     (fixtures.world_of fixtures.heap3)).1 = Returned Exited.
Proof.
  assert (H :
    writable (fixtures.with_tts TtsTransportError (fun _ => false)) script_dir = false \/
    writable (fixtures.with_tts TtsTransportError (fun _ => false))
      (script_path (strftime (fixtures.with_tts TtsTransportError (fun _ => false))
         (clock (fixtures.with_tts TtsTransportError (fun _ => false))
            (ticks (fixtures.world_of fixtures.heap3))))) = false \/
    json_dumps (fixtures.with_tts TtsTransportError (fun _ => false))
      (PyStr "ML Expert: hello") = None) by (by left).
  split; [exact H|].
  exact (proj1 (unsaved_script_is_not_rendered fixtures.demo_stages
                  (fixtures.with_tts TtsTransportError (fun _ => false))
                  (fixtures.world_of fixtures.heap3) fixtures.settings
                  (PyStr "ML Expert: hello") H)).
Defined.

Lemma append_length s t :
  String.length (s +:+ t) = (String.length s + String.length t)%nat.
Proof.
  induction s as [|c s IH]; [done|].
  change (S (String.length (s +:+ t)) = S (String.length s + String.length t)).
  by f_equal.
Qed.

Lemma append_cancel_r s1 : forall s2 t, s1 +:+ t = s2 +:+ t -> s1 = s2.
Proof.
  induction s1 as [|c s1 IH]; intros s2 t H.
  - destruct s2 as [|d s2]; [done|]. exfalso.
    apply (f_equal String.length) in H. rewrite !append_length in H.
    cbn in H. lia.
  - destruct s2 as [|d s2].
    + exfalso. apply (f_equal String.length) in H. rewrite !append_length in H.
      cbn in H. lia.
    + cbn in H. injection H as -> H. f_equal. by eapply IH.
Qed.

Lemma script_path_inj t1 t2 : script_path t1 = script_path t2 -> t1 = t2.
Proof.
  unfold script_path, script_dir. intros H.
  cbn in H. repeat injection H as H.
  change (t1 +:+ ".json" = t2 +:+ ".json") in H.
  by apply append_cancel_r in H.
Qed.

(** X20. Where [main] saves the script it writes one file only,
    [./output/scripts/script_<timestamp>.json] for the timestamp of the
    clock reading it makes: a script saved under any other timestamp is as
    it was, whether the save succeeds or fails.  When the save succeeds
    the file holds the new script, so that a script saved earlier under the
    same timestamp text (the format resolves seconds) is replaced, and
    [main] goes on to the renderer. *)
Theorem save_replaces_only_its_namesake st E w config content :
  (forall t, t <> strftime E (clock E (ticks w)) ->
     files (step st (AtPersist config content) E w).2 !! script_path t =
     files w !! script_path t) /\
  (forall s,
     writable E script_dir = true ->
     writable E (script_path (strftime E (clock E (ticks w)))) = true ->
     json_dumps E content = Some s ->
     (step st (AtPersist config content) E w).1 =
       Returned (AtRender config content
                   (script_path (strftime E (clock E (ticks w))))) /\
     files (step st (AtPersist config content) E w).2
       !! script_path (strftime E (clock E (ticks w))) = Some s).
Proof.
  cbn [step].
  repeat (progress unfold guarded, try_except, unhandled, bind, json_dump,
            write_file, failed_write, os_makedirs, datetime_now, ask, logging,
            emit, ret, raise).
  cbn [fst snd ticks heap next_loc trace files].
  split.
  - intros t Ht.
    assert (Hne : script_path (strftime E (clock E (ticks w))) <> script_path t)
      by (intros Heq; apply Ht; symmetry; by apply script_path_inj).
    destruct (writable E script_dir); [|done].
    destruct (json_dumps E content); cbn beta;
      destruct (writable E (script_path _));
      cbn [fst snd ticks heap next_loc trace files];
      repeat (destruct (left_by_failed_write E _ _);
              cbn [fst snd ticks heap next_loc trace files]);
      by rewrite ?lookup_insert_ne.
  - intros s Hdir Hfile Hjson. rewrite Hdir, Hjson. cbn beta. rewrite Hfile.
    cbn [fst snd ticks heap next_loc trace files].
    split; [done|]. apply lookup_insert_eq.
Qed.

Lemma save_replaces_only_its_namesake_witness :
  files fixtures.world_with_scripts !! fixtures.demo_script_path = Some "an earlier script" /\
  "2024-12-31_23-59-59" <>
    strftime fixtures.env0 (clock fixtures.env0 (ticks fixtures.world_with_scripts)) /\
  files (step fixtures.demo_stages
           (AtPersist fixtures.settings (PyStr "ML Expert: hello"))
           fixtures.env0 fixtures.world_with_scripts).2
    !! script_path "2024-12-31_23-59-59" = Some "the script of the day before" /\
  files (step fixtures.demo_stages
           (AtPersist fixtures.settings (PyStr "ML Expert: hello"))
           fixtures.env0 fixtures.world_with_scripts).2
    !! fixtures.demo_script_path = Some "ML Expert: hello".
Proof.
  assert (H0 : files fixtures.world_with_scripts !! fixtures.demo_script_path
               = Some "an earlier script") by (by vm_compute).
  assert (H1 : "2024-12-31_23-59-59" <>
               strftime fixtures.env0
                 (clock fixtures.env0 (ticks fixtures.world_with_scripts)))
    by discriminate.
  destruct (save_replaces_only_its_namesake fixtures.demo_stages fixtures.env0
              fixtures.world_with_scripts fixtures.settings
              (PyStr "ML Expert: hello")) as [Hother Hsame].
  split; [exact H0|]. split; [exact H1|]. split.
  - rewrite (Hother "2024-12-31_23-59-59" H1). by vm_compute.
  - exact (proj2 (Hsame "ML Expert: hello" eq_refl eq_refl eq_refl)).
Defined.

End orchestrator_more.

(** ** [main] of paper_ranker.py *)

Section ranker_main_facts.
Import paper_ranker arxiv_scrapper paper_ranker_main.





End ranker_main_facts.

(** ** [scrape_papers] *)

Section scraper_facts.
Import arxiv_scrapper.




End scraper_facts.
